(* ===================================================================== *)
(* pydqkit: the regex column check and the failed-row views              *)
(*                                                                       *)
(* Shallow embedding of src/pydqkit/regex_shell.py (check_regex_column   *)
(* and its helpers) and of src/pydqkit/exporters.py (build_failed_rows_df *)
(* and the per-rule fragments of export_html), with the properties of    *)
(* section 8 of the specification; then the reading and the execution of *)
(* a rule statement, the escaping, the summary and the two exports, with *)
(* the properties the code shows.                                        *)
(* ===================================================================== *)

From Stdlib Require Import String Ascii List ZArith QArith Qabs Lia Bool Permutation.
From stdpp Require Import gmap strings list pretty.

Import ListNotations.
Local Open Scope string_scope.
Local Open Scope list_scope.
Local Open Scope Z_scope.

(* --------------------------------------------------------------------- *)
(* Python strings                                                        *)
(* --------------------------------------------------------------------- *)

(** A Python [str] is modelled by a Rocq string. The case mappings and the
    white space test are those of ASCII: a character above 127 is kept as
    it is by [upper] and [lower] and is never white space. *)
Module PyStr.

(** str.isspace on one ASCII character: tab, line feed, vertical tab,
    form feed, carriage return, the four separators 28..31, and space. *)
Definition is_space (a : ascii) : bool :=
  let n := nat_of_ascii a in
  ((9 <=? n)%nat && (n <=? 13)%nat) || ((28 <=? n)%nat && (n <=? 32)%nat).

Definition upper_char (a : ascii) : ascii :=
  let n := nat_of_ascii a in
  if ((97 <=? n)%nat && (n <=? 122)%nat) then ascii_of_nat (n - 32) else a.

Definition lower_char (a : ascii) : ascii :=
  let n := nat_of_ascii a in
  if ((65 <=? n)%nat && (n <=? 90)%nat) then ascii_of_nat (n + 32) else a.

Fixpoint map_chars (f : ascii -> ascii) (s : string) : string :=
  match s with
  | EmptyString => EmptyString
  | String a s' => String (f a) (map_chars f s')
  end.

Definition upper : string -> string := map_chars upper_char.
Definition lower : string -> string := map_chars lower_char.

Fixpoint lstrip (s : string) : string :=
  match s with
  | String a s' => if is_space a then lstrip s' else s
  | EmptyString => EmptyString
  end.

(** [rstrip] drops the longest white suffix: a character is kept when it
    is not white or when something is kept after it. *)
Fixpoint rstrip (s : string) : string :=
  match s with
  | EmptyString => EmptyString
  | String a s' =>
      match rstrip s' with
      | EmptyString => if is_space a then EmptyString else String a EmptyString
      | t => String a t
      end
  end.

Definition strip (s : string) : string := rstrip (lstrip s).

(** sep.join(l) *)
Definition join (sep : string) (l : list string) : string := String.concat sep l.

End PyStr.

(* --------------------------------------------------------------------- *)
(* Data model: cells, series, frames                                     *)
(* --------------------------------------------------------------------- *)

(** Row identifiers are the labels of the frame's index; read_csv numbers
    the rows 0, 1, 2, ... *)
Definition RowId := Z.

(** A cell of a frame. [CNull] stands for every value [pd.isna] holds of
    (None, NaN, NaT, pd.NA). A scalar that is neither a string, an int nor
    a bool (a float, a timestamp) is carried by the text [str] prints for
    it. *)
Inductive Cell :=
| CNull
| CStr (s : string)
| CInt (z : Z)
| CBool (b : bool)
| COther (text : string).

(** str(x) on a cell that is not null *)
Definition py_str (c : Cell) : string :=
  match c with
  | CNull => "nan"
  | CStr s => s
  | CInt z => pretty z
  | CBool true => "True"
  | CBool false => "False"
  | COther t => t
  end.

Definition pd_isna (c : Cell) : bool :=
  match c with CNull => true | _ => false end.

(** A pandas Series: the index labels with their values, in order. *)
Definition Series (A : Type) := list (RowId * A).

(** A DataFrame, row by row: the column labels, and for every row its index
    label and its cells in column order. Column labels are pairwise
    distinct, as read_csv and a dict of columns make them, so that
    [df[column]] is a Series. *)
Record DataFrame := {
  columns : list string;
  rows : list (RowId * list Cell)
}.

(** df.index *)
Definition index (df : DataFrame) : list RowId := map fst (rows df).

Module Pd.

(** position of a label among the columns *)
Fixpoint position (c : string) (cols : list string) : option nat :=
  match cols with
  | [] => None
  | x :: cols' => if String.eqb c x then Some O else option_map S (position c cols')
  end.

(** row[c] for a row given by its cells *)
Definition cell_at (j : nat) (cells : list Cell) : Cell := nth j cells CNull.

Section series.
Context {A B : Type}.

(** s.map(f) for a function that does not raise *)
Definition smap (f : A -> B) (s : Series A) : Series B :=
  map (fun p => (fst p, f (snd p))) s.

(** s[mask], the mask being a boolean Series on the same index *)
Fixpoint select (s : Series A) (mask : Series bool) : Series A :=
  match s, mask with
  | p :: s', (_, b) :: mask' => if b then p :: select s' mask' else select s' mask'
  | _, _ => []
  end.

(** s.index.tolist() and s.tolist() *)
Definition labels (s : Series A) : list RowId := map fst s.
Definition tolist (s : Series A) : list A := map snd s.

(** s.head(n), which is s.iloc[:n]: the first n rows, and for a
    negative n all rows but the last -n *)
Definition head (n : Z) (s : Series A) : Series A :=
  if 0 <=? n then firstn (Z.to_nat n) s
  else firstn (length s - Z.to_nat (- n))%nat s.
End series.

(** ~mask *)
Definition invert (mask : Series bool) : Series bool := smap negb mask.

(** int(mask.sum()) *)
Definition sum (mask : Series bool) : Z :=
  Z.of_nat (length (List.filter (fun p => snd p) mask)).

(** s.isna() *)
Definition isna {A} (s : Series (option A)) : Series bool :=
  smap (fun v => match v with None => true | Some _ => false end) s.

(** pd.Series([v] * n, index=idx), built where n is the length of idx *)
Definition constant {A} (v : A) (n : Z) (idx : list RowId) : Series A :=
  combine idx (repeat v (Z.to_nat n)).

End Pd.

(* --------------------------------------------------------------------- *)
(* Computations on the caller's frame                                    *)
(* --------------------------------------------------------------------- *)

(** The exceptions the modelled code can meet. *)
Inductive PyExn :=
| KeyError (msg : string)
| TypeError (msg : string)
| ValueError (msg : string)
| ReError (msg : string).

(** str(e) *)
Definition exn_text (e : PyExn) : string :=
  match e with
  | KeyError m | TypeError m | ValueError m | ReError m => m
  end.

Inductive Outcome (A : Type) :=
| Return (a : A)
| Raise (e : PyExn).
Arguments Return {A} a.
Arguments Raise {A} e.

(** A computation that receives the frame [df] by reference: it runs on
    the frame as its state, returns a value or raises, and leaves a frame
    behind. *)
Definition Py (A : Type) : Type := DataFrame -> Outcome A * DataFrame.

Definition ret {A} (a : A) : Py A := fun df => (Return a, df).

Definition raise {A} (e : PyExn) : Py A := fun df => (Raise e, df).

Definition bind {A B} (m : Py A) (k : A -> Py B) : Py B :=
  fun df =>
    match m df with
    | (Return a, df') => k a df'
    | (Raise e, df') => (Raise e, df')
    end.

(** try: m / except Exception as e: the outcome of [m] as a value *)
Definition try_ {A} (m : Py A) : Py (PyExn + A) :=
  fun df =>
    match m df with
    | (Return a, df') => (Return (inr a), df')
    | (Raise e, df') => (Return (inl e), df')
    end.

Definition lift {A} (o : Outcome A) : Py A := fun df => (o, df).

Declare Scope py_scope.
Delimit Scope py_scope with py.
Notation "x <- m ;; k" := (bind m (fun x => k))
  (at level 100, m at next level, right associativity) : py_scope.
Local Open Scope py_scope.

(** What the code reads of the frame. *)
Module Frame.

(** df.columns *)
Definition get_columns : Py (list string) := fun df => (Return (columns df), df).

(** df.index *)
Definition get_index : Py (list RowId) := fun df => (Return (index df), df).

(** df[column] *)
Definition getitem (column : string) : Py (Series Cell) :=
  fun df =>
    match Pd.position column (columns df) with
    | Some j => (Return (map (fun r => (fst r, Pd.cell_at j (snd r))) (rows df)), df)
    | None => (Raise (KeyError column), df)
    end.

End Frame.

(** s.map(f) for a function that may raise *)
Fixpoint series_map {A B} (f : A -> Py B) (s : Series A) : Py (Series B) :=
  match s with
  | [] => ret []
  | p :: s' =>
      b <- f (snd p) ;;
      r <- series_map f s' ;;
      ret ((fst p, b) :: r)
  end.

(* --------------------------------------------------------------------- *)
(* The pattern engine                                                    *)
(* --------------------------------------------------------------------- *)

(** Python's [re] module, as far as the check uses it: [re.compile] with a
    flag bitmask returns a pattern object or raises, and a pattern object
    answers [bool(rx.search(v))] and [bool(rx.fullmatch(v))] on a string. *)
Class RegexEngine := {
  Pattern : Type;
  re_compile : string -> Z -> Outcome Pattern;
  rx_search : Pattern -> string -> bool;
  rx_fullmatch : Pattern -> string -> bool
}.

(** re.IGNORECASE, re.MULTILINE, re.DOTALL, re.ASCII, re.VERBOSE *)
Definition re_IGNORECASE : Z := 2.
Definition re_MULTILINE : Z := 8.
Definition re_DOTALL : Z := 16.
Definition re_ASCII : Z := 256.
Definition re_VERBOSE : Z := 64.

Definition _FLAG_MAP : list (string * Z) :=
  [ ("IGNORECASE", re_IGNORECASE); ("I", re_IGNORECASE);
    ("MULTILINE", re_MULTILINE); ("M", re_MULTILINE);
    ("DOTALL", re_DOTALL); ("S", re_DOTALL);
    ("ASCII", re_ASCII); ("A", re_ASCII);
    ("VERBOSE", re_VERBOSE); ("X", re_VERBOSE) ].

(** _FLAG_MAP.get(x) *)
Fixpoint flag_lookup (x : string) (m : list (string * Z)) : option Z :=
  match m with
  | [] => None
  | (k, v) :: m' => if String.eqb x k then Some v else flag_lookup x m'
  end.

(** flags or [] *)
Definition or_empty {A} (l : option (list A)) : list A :=
  match l with Some l => l | None => [] end.

(** The bitmask [_compile] hands to re.compile. *)
Definition flag_bits (flags : option (list string)) : Z :=
  fold_left
    (fun f x =>
       let x := PyStr.upper (PyStr.strip x) in
       match flag_lookup x _FLAG_MAP with
       | Some b => Z.lor f b
       | None => f
       end)
    (or_empty flags) 0.

Definition _to_str_or_none (x : Cell) : option string :=
  if pd_isna x then None else Some (py_str x).

Definition _normalize_mode (mode_raw : string) : string :=
  let m := PyStr.lower (PyStr.strip mode_raw) in
  if String.eqb m "" then "fullmatch"
  else if existsb (String.eqb m) ["full"; "match"; "full_match"; "full-match"; "fullmatch"]
  then "fullmatch"
  else if existsb (String.eqb m) ["find"; "search"; "contains"] then "search"
  else "fullmatch".

(* --------------------------------------------------------------------- *)
(* The result of a check                                                 *)
(* --------------------------------------------------------------------- *)

Record Counts := {
  total : Z;
  pass : Z;
  fail : Z;
  null : Z;
  non_null : Z
}.

Record Samples := { fail_values : list (option string) }.

(** The dict of a check that ran, without its "ok" entry. The float
    [pass_rate] is modelled by the rational it rounds. *)
Record CheckOk := {
  rule_type : string;
  column : string;
  pattern : string;
  mode : string;
  allow_null : bool;
  flags : list string;
  counts : Counts;
  pass_rate : Q;
  samples : Samples;
  fail_indices : list RowId
}.

(** The dict check_regex_column returns: {"ok": False, "error": ...} or
    {"ok": True, ...}. *)
Inductive CheckResult :=
| ResFail (error : string)
| ResOk (fields : CheckOk).

(** r.get(key): None where the dict has no such key *)
Definition ok (r : CheckResult) : bool :=
  match r with ResOk _ => true | ResFail _ => false end.

Definition get_error (r : CheckResult) : option string :=
  match r with ResFail e => Some e | ResOk _ => None end.

Definition get {A} (field : CheckOk -> A) (r : CheckResult) : option A :=
  match r with ResOk c => Some (field c) | ResFail _ => None end.

(* --------------------------------------------------------------------- *)
(* regex_shell.check_regex_column                                        *)
(* --------------------------------------------------------------------- *)

Section check.
Context {RE : RegexEngine}.

Definition _compile (pattern : string) (flags : option (list string)) : Py Pattern :=
  lift (re_compile pattern (flag_bits flags)).

(** lambda v: bool(rx.search(v)) and lambda v: bool(rx.fullmatch(v)): the
    methods raise TypeError on None *)
Definition search_cell (rx : Pattern) (v : option string) : Py bool :=
  match v with
  | Some t => ret (rx_search rx t)
  | None => raise (TypeError "expected string or bytes-like object, got 'NoneType'")
  end.

Definition fullmatch_cell (rx : Pattern) (v : option string) : Py bool :=
  match v with
  | Some t => ret (rx_fullmatch rx t)
  | None => raise (TypeError "expected string or bytes-like object, got 'NoneType'")
  end.

Definition check_regex_column
    (column pattern mode : string) (allow_null : bool)
    (flags : option (list string)) (sample_fail_values : Z) : Py CheckResult :=
  cols <- Frame.get_columns ;;
  if negb (existsb (String.eqb column) cols) then
    ret (ResFail ("Column not found: " ++ column))
  else
  compiled <- try_ (_compile pattern flags) ;;
  match compiled with
  | inl e => ret (ResFail ("Regex compile failed: " ++ exn_text e))
  | inr rx =>
    col <- Frame.getitem column ;;
    let s := Pd.smap _to_str_or_none col in
    let is_null := Pd.isna s in
    let non_null := Pd.select s (Pd.invert is_null) in
    let mode_norm := _normalize_mode mode in
    matched <- (if String.eqb mode_norm "search"
                then series_map (search_cell rx) non_null
                else series_map (fullmatch_cell rx) non_null) ;;
    let pass_non_null := matched in
    let fail_non_null := Pd.invert matched in
    let null_labels := Pd.labels (Pd.select s is_null) in
    let pass_null :=
      if allow_null then is_null
      else Pd.constant false (Pd.sum is_null) null_labels in
    let fail_null :=
      if allow_null then Pd.constant false (Pd.sum is_null) null_labels
      else is_null in
    let pass_count := Pd.sum pass_non_null + Pd.sum pass_null in
    let fail_count := Pd.sum fail_non_null + Pd.sum fail_null in
    let total := Z.of_nat (length s) in
    let pass_rate :=
      if total =? 0 then 1%Q else (inject_Z pass_count / inject_Z total)%Q in
    let fail_values :=
      Pd.tolist (Pd.head sample_fail_values (Pd.select non_null fail_non_null)) in
    let fail_indices : list RowId := [] in
    let fail_indices :=
      if 0 <? Pd.sum fail_non_null
      then fail_indices ++ Pd.labels (Pd.select non_null fail_non_null)
      else fail_indices in
    let fail_indices :=
      if negb allow_null && (0 <? Pd.sum is_null)
      then fail_indices ++ Pd.labels (Pd.select s is_null)
      else fail_indices in
    ret (ResOk {|
      rule_type := "regex";
      column := column;
      pattern := pattern;
      mode := mode_norm;
      allow_null := allow_null;
      flags := map (fun x => PyStr.upper (PyStr.strip x)) (or_empty flags);
      counts := {|
        total := total;
        pass := pass_count;
        fail := fail_count;
        null := Pd.sum is_null;
        non_null := Pd.sum (Pd.invert is_null)
      |};
      pass_rate := pass_rate;
      samples := {| fail_values := fail_values |};
      fail_indices := fail_indices
    |})
  end.

End check.

(* --------------------------------------------------------------------- *)
(* An engine for a fragment of the pattern syntax                        *)
(* --------------------------------------------------------------------- *)

(** A pattern engine for the patterns made of literal characters, [.],
    [^], [$], groups, [|] and the repetitions [*], [+], [?], under the
    flags IGNORECASE, MULTILINE, DOTALL and ASCII, on ASCII text. It
    rejects every other pattern or flag, also those the [re] module accepts.
    It is the engine the scenarios below are evaluated with. *)
Module MiniRe.

Inductive re :=
| Empty
| Lit (a : ascii)
| Dot
| Bol
| Eol
| Seq (r1 r2 : re)
| Alt (r1 r2 : re)
| Star (r : re).

Record compiled := {
  rx_re : re;
  ignorecase : bool;
  multiline : bool;
  dotall : bool
}.

(* ---- parsing ---- *)

Definition nl : ascii := ascii_of_nat 10.

Definition is_alnum (a : ascii) : bool :=
  let n := nat_of_ascii a in
  ((48 <=? n) && (n <=? 57) || (65 <=? n) && (n <=? 90) || (97 <=? n) && (n <=? 122))%nat.

Definition is_repeat (a : ascii) : bool :=
  existsb (Ascii.eqb a) ["*"; "+"; "?"; "{"]%char.

Definition at_position (msg : string) (pos : nat) : string :=
  msg ++ " at position " ++ pretty pos.

Definition unsupported {A} : Outcome A := Raise (ReError "pattern outside the fragment").

(** A parser returns the expression read, the text left and its position. *)
Definition parsed : Type := Outcome (re * list ascii * nat).

Fixpoint parse_alt (fuel : nat) (s : list ascii) (pos : nat) : parsed :=
  match fuel with
  | O => unsupported
  | S n =>
      match parse_seq n Empty s pos with
      | Return (r1, ("|"%char :: s'), pos') =>
          match parse_alt n s' (S pos') with
          | Return (r2, s'', pos'') => Return (Alt r1 r2, s'', pos'')
          | Raise e => Raise e
          end
      | other => other
      end
  end
with parse_seq (fuel : nat) (acc : re) (s : list ascii) (pos : nat) : parsed :=
  match fuel with
  | O => unsupported
  | S n =>
      match s with
      | [] => Return (acc, s, pos)
      | "|"%char :: _ | ")"%char :: _ => Return (acc, s, pos)
      | _ =>
          match parse_atom n s pos with
          | Return (r, s', pos') =>
              let '(r, s', pos') :=
                match s' with
                | "*"%char :: s'' => (Star r, s'', S pos')
                | "+"%char :: s'' => (Seq r (Star r), s'', S pos')
                | "?"%char :: s'' => (Alt r Empty, s'', S pos')
                | _ => (r, s', pos')
                end in
              match s' with
              | a :: _ =>
                  if is_repeat a then unsupported
                  else parse_seq n (Seq acc r) s' pos'
              | [] => Return (Seq acc r, [], pos')
              end
          | Raise e => Raise e
          end
      end
  end
with parse_atom (fuel : nat) (s : list ascii) (pos : nat) : parsed :=
  match fuel with
  | O => unsupported
  | S n =>
      match s with
      | [] => unsupported
      | "("%char :: "?"%char :: _ => unsupported
      | "("%char :: s' =>
          match parse_alt n s' (S pos) with
          | Return (r, ")"%char :: s'', pos') => Return (r, s'', S pos')
          | Return _ =>
              Raise (ReError (at_position "missing ), unterminated subpattern" pos))
          | Raise e => Raise e
          end
      | "."%char :: s' => Return (Dot, s', S pos)
      | "^"%char :: s' => Return (Bol, s', S pos)
      | "$"%char :: s' => Return (Eol, s', S pos)
      | "\"%char :: [] => Raise (ReError (at_position "bad escape (end of pattern)" pos))
      | "\"%char :: a :: s' =>
          if is_alnum a then unsupported else Return (Lit a, s', S (S pos))
      | "["%char :: _ | "{"%char :: _ => unsupported
      | "*"%char :: _ | "+"%char :: _ | "?"%char :: _ =>
          Raise (ReError (at_position "nothing to repeat" pos))
      | a :: s' => Return (Lit a, s', S pos)
      end
  end.

Definition parse (p : string) : Outcome re :=
  let s := list_ascii_of_string p in
  match parse_alt (4 * length s + 4) s 0 with
  | Return (r, [], _) => Return r
  | Return (_, _ :: _, pos) => Raise (ReError (at_position "unbalanced parenthesis" pos))
  | Raise e => Raise e
  end.

Definition compile (p : string) (flags : Z) : Outcome compiled :=
  if negb (Z.land flags (Z.lnot (Z.lor (Z.lor re_IGNORECASE re_MULTILINE)
                                        (Z.lor re_DOTALL re_ASCII))) =? 0)
  then unsupported
  else
    match parse p with
    | Return r => Return {|
        rx_re := r;
        ignorecase := Z.testbit flags 1;
        multiline := Z.testbit flags 3;
        dotall := Z.testbit flags 4 |}
    | Raise e => Raise e
    end.

(* ---- matching ---- *)

Section matching.
Variable rx : compiled.

Definition same_char (a c : ascii) : bool :=
  if ignorecase rx then Ascii.eqb (PyStr.lower_char a) (PyStr.lower_char c)
  else Ascii.eqb a c.

Definition at_bol (prev : option ascii) : bool :=
  match prev with
  | None => true
  | Some a => multiline rx && Ascii.eqb a nl
  end.

Definition at_eol (s : list ascii) : bool :=
  match s with
  | [] => true
  | a :: s' => Ascii.eqb a nl && (multiline rx || match s' with [] => true | _ => false end)
  end.

(** [matches r prev s k]: some match of [r] at the front of [s], the
    character before being [prev], leaves a rest the continuation [k]
    accepts. *)
Fixpoint matches (r : re) (prev : option ascii) (s : list ascii)
    (k : option ascii -> list ascii -> bool) : bool :=
  match r with
  | Empty => k prev s
  | Lit c =>
      match s with
      | a :: s' => same_char a c && k (Some a) s'
      | [] => false
      end
  | Dot =>
      match s with
      | a :: s' => (dotall rx || negb (Ascii.eqb a nl)) && k (Some a) s'
      | [] => false
      end
  | Bol => at_bol prev && k prev s
  | Eol => at_eol s && k prev s
  | Seq r1 r2 => matches r1 prev s (fun p s' => matches r2 p s' k)
  | Alt r1 r2 => matches r1 prev s k || matches r2 prev s k
  | Star r' =>
      (fix loop (n : nat) (prev : option ascii) (s : list ascii) : bool :=
         k prev s ||
         match n with
         | O => false
         | S n' =>
             matches r' prev s
               (fun p s' => (length s' <? length s)%nat && loop n' p s')
         end) (length s) prev s
  end.

Fixpoint search_from (prev : option ascii) (s : list ascii) : bool :=
  matches (rx_re rx) prev s (fun _ _ => true) ||
  match s with
  | [] => false
  | a :: s' => search_from (Some a) s'
  end.

Definition search (v : string) : bool :=
  search_from None (list_ascii_of_string v).

Definition fullmatch (v : string) : bool :=
  matches (rx_re rx) None (list_ascii_of_string v)
    (fun _ s' => match s' with [] => true | _ => false end).
End matching.

#[export] Instance engine : RegexEngine := {|
  Pattern := compiled;
  re_compile := compile;
  rx_search := search;
  rx_fullmatch := fullmatch
|}.

End MiniRe.

(* --------------------------------------------------------------------- *)
(* exporters: the failed-row views                                       *)
(* --------------------------------------------------------------------- *)

(** df.loc[idx] is the row of that label, a frame when several rows carry
    the label, and raises KeyError when none does. *)
Inductive LocResult :=
| LocRow (cells : list Cell)
| LocFrame (rows : list (RowId * list Cell)).

Module Loc.

Definition rows_of (idx : RowId) (df : DataFrame) : list (RowId * list Cell) :=
  List.filter (fun r => Z.eqb (fst r) idx) (rows df).

(** df.loc[idx] *)
Definition loc (idx : RowId) : Py LocResult :=
  fun df =>
    match rows_of idx df with
    | [] => (Raise (KeyError (pretty idx)), df)
    | [r] => (Return (LocRow (snd r)), df)
    | rs => (Return (LocFrame rs), df)
    end.

(** df.loc[labels].copy(): the rows of every label, label after label *)
Definition loc_list (labels : list RowId) : Py DataFrame :=
  fun df =>
    match List.find (fun i => negb (existsb (Z.eqb i) (index df))) labels with
    | Some i => (Raise (KeyError (pretty i)), df)
    | None =>
        (Return {| columns := columns df;
                   rows := flat_map (fun i => rows_of i df) labels |}, df)
    end.

(** frame[name] = v on a frame of one's own: the column is overwritten
    when the frame has it, and added last otherwise *)
Definition set_column (name : string) (v : Cell) (frame : DataFrame) : DataFrame :=
  match Pd.position name (columns frame) with
  | Some j =>
      {| columns := columns frame;
         rows := map (fun r => (fst r, <[j := v]> (snd r))) (rows frame) |}
  | None =>
      {| columns := columns frame ++ [name];
         rows := map (fun r => (fst r, snd r ++ [v])) (rows frame) |}
  end.

End Loc.

(** The description of a rule, as both views compute it. The results of
    this program have no "expr" entry, so that r.get("expr", ...) is the
    pattern. *)
Definition issue_desc (r : CheckResult) : string :=
  let rule_type := default "regex" (get rule_type r) in
  let col := default "" (get column r) in
  let allow_null := default true (get allow_null r) in
  if String.eqb rule_type "regex" then
    let pattern := default "" (get pattern r) in
    col ++ " !~ " ++ pattern ++ (if allow_null then "" else " (NULL not allowed)")
  else
    let expr := default "" (get pattern r) in
    col ++ ": " ++ expr ++ (if allow_null then "" else " (NULL not allowed)").

(** fail_map.setdefault(idx, []).append(desc) *)
Definition setdefault_append (desc : string) (fail_map : gmap Z (list string))
    (idx : RowId) : gmap Z (list string) :=
  <[idx := default [] (fail_map !! idx) ++ [desc]]> fail_map.

(** The first loop of build_failed_rows_df. *)
Definition build_fail_map (history : list CheckResult) : gmap Z (list string) :=
  fold_left
    (fun fail_map r =>
       if negb (ok r) then fail_map
       else
         let fail_idx := default [] (get fail_indices r) in
         match fail_idx with
         | [] => fail_map
         | _ => fold_left (setdefault_append (issue_desc r)) fail_idx fail_map
         end)
    history ∅.

(** The frame build_failed_rows_df returns: its rows are dicts from the
    column labels to cells, and its index is a fresh 0, 1, 2, ... *)
Record FailedRows := {
  out_cols : list string;
  out_rows : list (gmap string Cell)
}.

Definition _safe_cell (v : Cell) : Cell :=
  if pd_isna v then CStr "" else v.

(** [idx for idx in df.index if idx in fail_map] *)
Definition ordered_failed_indices (df_index : list RowId)
    (fail_map : gmap Z (list string)) : list RowId :=
  List.filter (fun idx => bool_decide (is_Some (fail_map !! idx))) df_index.

(** {c: _safe_cell(row[c]) for c in data_cols} on a row *)
Definition row_cells_dict (data_cols : list string) (cells : list Cell) : gmap string Cell :=
  fold_left
    (fun d c =>
       match Pd.position c data_cols with
       | Some j => <[c := _safe_cell (Pd.cell_at j cells)]> d
       | None => d
       end)
    data_cols ∅.

(** The same comprehension on what df.loc[idx] gave: on a frame, row[c] is
    a Series, and the test on pd.isna of it raises. *)
Definition data_dict (data_cols : list string) (row : LocResult) : Py (gmap string Cell) :=
  match row with
  | LocRow cells => ret (row_cells_dict data_cols cells)
  | LocFrame _ =>
      match data_cols with
      | [] => ret ∅
      | _ => raise (ValueError "The truth value of a Series is ambiguous.")
      end
  end.

(** the loop over ordered_failed_indices *)
Fixpoint failed_rows_loop (data_cols : list string) (fail_map : gmap Z (list string))
    (ordered : list RowId) : Py (list (gmap string Cell)) :=
  match ordered with
  | [] => ret []
  | idx :: ordered' =>
      row <- Loc.loc idx ;;
      row_dict <- data_dict data_cols row ;;
      let row_dict :=
        <["_dq_issue" :=
            CStr ("FAILED: " ++ PyStr.join " || " (default [] (fail_map !! idx)))]>
          row_dict in
      rest <- failed_rows_loop data_cols fail_map ordered' ;;
      ret (row_dict :: rest)
  end.

Definition build_failed_rows_df (history : list CheckResult) : Py FailedRows :=
  let fail_map := build_fail_map history in
  if bool_decide (fail_map = ∅) then ret {| out_cols := []; out_rows := [] |}
  else
    data_cols <- Frame.get_columns ;;
    let out_cols := data_cols ++ ["_dq_issue"] in
    df_index <- Frame.get_index ;;
    let ordered_failed_indices := ordered_failed_indices df_index fail_map in
    out_rows <- failed_rows_loop data_cols fail_map ordered_failed_indices ;;
    ret {| out_cols := out_cols; out_rows := out_rows |}.

(** A fragment of the dashboard. Its markup is not modelled: a fragment is
    the note it shows or the frame [failed_only] it renders as a table. *)
Inductive Fragment :=
| NoteRuleError
| NoteNoFailedRows
| FailedTable (failed_only : DataFrame).

(** _render_failed_rows_for_check *)
Definition _render_failed_rows_for_check (failed_only : DataFrame) : Fragment :=
  match rows failed_only with
  | [] => NoteNoFailedRows
  | _ => FailedTable failed_only
  end.

(** [idx for idx in df.index if idx in fail_set] *)
Definition ordered_in (df_index : list RowId) (fail_set : gset Z) : list RowId :=
  List.filter (fun idx => bool_decide (idx ∈ fail_set)) df_index.

(** The body of the loop of export_html that builds check_failed_html. *)
Definition check_fragment (r : CheckResult) : Py Fragment :=
  if negb (ok r) then ret NoteRuleError
  else
    let fail_idx := default [] (get fail_indices r) in
    match fail_idx with
    | [] => ret NoteNoFailedRows
    | _ =>
        let issue_desc := issue_desc r in
        let fail_set : gset Z := list_to_set fail_idx in
        df_index <- Frame.get_index ;;
        let ordered := ordered_in df_index fail_set in
        match ordered with
        | [] => ret NoteNoFailedRows
        | _ =>
            failed_only <- Loc.loc_list ordered ;;
            let failed_only :=
              Loc.set_column "_dq_issue" (CStr ("FAILED: " ++ issue_desc)) failed_only in
            ret (_render_failed_rows_for_check failed_only)
        end
    end.

(** check_failed_html, from check number to fragment, in history order *)
Fixpoint check_failed_html_from (check_no : Z) (history : list CheckResult)
    : Py (list (Z * Fragment)) :=
  match history with
  | [] => ret []
  | r :: history' =>
      frag <- check_fragment r ;;
      rest <- check_failed_html_from (check_no + 1) history' ;;
      ret ((check_no, frag) :: rest)
  end.

Definition check_failed_html (history : list CheckResult) : Py (list (Z * Fragment)) :=
  check_failed_html_from 1 history.

(* --------------------------------------------------------------------- *)
(* The vocabulary of the properties                                      *)
(* --------------------------------------------------------------------- *)

(** Running a computation on a frame. *)
Definition result_of {A} (m : Py A) (df : DataFrame) : Outcome A := fst (m df).
Definition frame_after {A} (m : Py A) (df : DataFrame) : DataFrame := snd (m df).

(** The column as the check reads it: the label of every row with its cell
    coerced to a string or to None, in row order. *)
Definition coerced (df : DataFrame) (column : string) : Series (option string) :=
  match Pd.position column (columns df) with
  | Some j => map (fun r => (fst r, _to_str_or_none (Pd.cell_at j (snd r)))) (rows df)
  | None => []
  end.

Definition is_none {A} (v : option A) : bool :=
  match v with None => true | Some _ => false end.

(** The null subset and the non-null subset of a column, each in row order. *)
Definition null_rows (s : Series (option string)) : Series (option string) :=
  List.filter (fun p => is_none (snd p)) s.

Definition non_null_rows (s : Series (option string)) : Series (option string) :=
  List.filter (fun p => negb (is_none (snd p))) s.

Section verdict.
Context {RE : RegexEngine}.

(** Whether a value satisfies the rule: search or fullmatch by the
    normalized mode; None satisfies no pattern. *)
Definition satisfies (rx : Pattern) (mode : string) (v : option string) : bool :=
  match v with
  | Some t =>
      if String.eqb (_normalize_mode mode) "search" then rx_search rx t
      else rx_fullmatch rx t
  | None => false
  end.

(** The non-null rows that pass, and those that fail, in the order of the
    non-null subset. *)
Definition non_null_passes (rx : Pattern) (mode : string)
    (s : Series (option string)) : Series (option string) :=
  List.filter (fun p => satisfies rx mode (snd p)) (non_null_rows s).

Definition non_null_fails (rx : Pattern) (mode : string)
    (s : Series (option string)) : Series (option string) :=
  List.filter (fun p => negb (satisfies rx mode (snd p))) (non_null_rows s).

(** The fields of the result of a check that ran, read off the column. *)
Definition fields_of (df : DataFrame) (rx : Pattern)
    (column pattern mode : string) (allow_null : bool)
    (flags : option (list string)) (sample_fail_values : Z) : CheckOk :=
  let s := coerced df column in
  let n_null := Z.of_nat (length (null_rows s)) in
  {| rule_type := "regex";
     column := column;
     pattern := pattern;
     mode := _normalize_mode mode;
     allow_null := allow_null;
     flags := map (fun x => PyStr.upper (PyStr.strip x)) (or_empty flags);
     counts := {|
       total := Z.of_nat (length s);
       pass := Z.of_nat (length (non_null_passes rx mode s))
               + (if allow_null then n_null else 0);
       fail := Z.of_nat (length (non_null_fails rx mode s))
               + (if allow_null then 0 else n_null);
       null := n_null;
       non_null := Z.of_nat (length (non_null_rows s)) |};
     pass_rate :=
       if Z.of_nat (length s) =? 0 then 1%Q
       else (inject_Z (Z.of_nat (length (non_null_passes rx mode s))
                       + (if allow_null then n_null else 0))
             / inject_Z (Z.of_nat (length s)))%Q;
     samples := {|
       fail_values := Pd.tolist (Pd.head sample_fail_values (non_null_fails rx mode s)) |};
     fail_indices :=
       Pd.labels (non_null_fails rx mode s)
       ++ (if allow_null then [] else Pd.labels (null_rows s)) |}.

(** A result some evaluation of a rule on the frame returned: what the
    shell appends to the history of a session. *)
Definition evaluated_on (df : DataFrame) (r : CheckResult) : Prop :=
  exists column pattern mode allow_null flags sample_fail_values,
    result_of
      (check_regex_column column pattern mode allow_null flags sample_fail_values) df
    = Return r.
End verdict.

(** r.get("fail_indices") or [] *)
Definition fail_idx_of (r : CheckResult) : list RowId := default [] (get fail_indices r).

(** The rules of a history a row failed, in history order: the retained
    results whose fail_indices hold the row's identifier. *)
Definition fails_row (idx : RowId) (r : CheckResult) : bool :=
  ok r && existsb (Z.eqb idx) (fail_idx_of r).

Definition rules_failed (history : list CheckResult) (idx : RowId) : list CheckResult :=
  List.filter (fails_row idx) history.

(** The cells of the row with a given identifier. *)
Definition cells_of (df : DataFrame) (idx : RowId) : list Cell :=
  match Loc.rows_of idx df with
  | r :: _ => snd r
  | [] => []
  end.

(** The entries of fail_map for a row identifier: fail_map.get(idx, []) *)
Definition entries (fail_map : gmap Z (list string)) (idx : RowId) : list string :=
  default [] (fail_map !! idx).

(** The annotation of a row of the combined view: the descriptions of the
    rules the row failed, joined. *)
Definition annotation (history : list CheckResult) (idx : RowId) : string :=
  "FAILED: " ++ PyStr.join " || " (map issue_desc (rules_failed history idx)).

(** The row of the combined view made from the row [idx] of the frame. *)
Definition view_row (df : DataFrame) (history : list CheckResult) (idx : RowId)
    : gmap string Cell :=
  <["_dq_issue" := CStr (annotation history idx)]>
    (row_cells_dict (columns df) (cells_of df idx)).

(** The rows of the frame that failed some retained rule, and those that
    failed one rule, by identifier and in the order of the frame. *)
Definition failed_any (df : DataFrame) (history : list CheckResult) : list RowId :=
  List.filter (fun idx => existsb (fails_row idx) history) (index df).

Definition failed_rule (df : DataFrame) (r : CheckResult) : list RowId :=
  List.filter (fun idx => fails_row idx r) (index df).

(** The identifiers of the rows a fragment shows. *)
Definition fragment_index (frag : Fragment) : list RowId :=
  match frag with
  | FailedTable failed_only => index failed_only
  | NoteRuleError | NoteNoFailedRows => []
  end.

(** The frame a fragment of a rule renders: the failed rows of the frame
    with the column "_dq_issue" set to the description of the rule. *)
Definition rule_table (df : DataFrame) (r : CheckResult) : DataFrame :=
  Loc.set_column "_dq_issue" (CStr ("FAILED: " ++ issue_desc r))
    {| columns := columns df;
       rows := map (fun idx => (idx, cells_of df idx)) (failed_rule df r) |}.

(** The fragment of a rule. *)
Definition fragment_of (df : DataFrame) (r : CheckResult) : Fragment :=
  if negb (ok r) then NoteRuleError
  else
    match failed_rule df r with
    | [] => NoteNoFailedRows
    | _ => FailedTable (rule_table df r)
    end.

(** enumerate(l, start=k) *)
Fixpoint numbered {A} (k : Z) (l : list A) : list (Z * A) :=
  match l with
  | [] => []
  | x :: l' => (k, x) :: numbered (k + 1) l'
  end.

(** The steps of the first loop of build_failed_rows_df, for the proofs. *)

(** Every list the map holds has an entry: a key is in the map exactly
    when it has entries. *)
Definition no_empty_entry (m : gmap Z (list string)) : Prop :=
  forall i l, m !! i = Some l -> l <> [].

(** The descriptions a rule adds for a row: one for every occurrence of
    the identifier in its fail_indices. *)
Definition added (idx : RowId) (r : CheckResult) : list string :=
  if ok r then repeat (issue_desc r) (count_occ Z.eq_dec (fail_idx_of r) idx) else [].

Definition fail_map_step (fail_map : gmap Z (list string)) (r : CheckResult)
    : gmap Z (list string) :=
  if negb (ok r) then fail_map
  else
    match fail_idx_of r with
    | [] => fail_map
    | _ => fold_left (setdefault_append (issue_desc r)) (fail_idx_of r) fail_map
    end.

(* --------------------------------------------------------------------- *)
(* The frame of the demo and of the scenarios of the specification       *)
(* --------------------------------------------------------------------- *)

Definition demo_df : DataFrame := {|
  columns := ["id"; "status"; "amount"];
  rows := [
    (0, [CStr "AB123456"; CStr "ACTIVE"; CInt 10]);
    (1, [CStr "ZZ000001"; CStr "INACTIVE"; COther "20.5"]);
    (2, [CStr "A123"; CStr "BAD"; CStr "30"]);
    (3, [CNull; CStr "ACTIVE"; CNull]);
    (4, [CStr "ab123456"; CNull; CStr "xx"]);
    (5, [CStr "AA999999"; CStr "inactive"; CInt 999]) ]
|}.

Definition status_pattern : string := "^(ACTIVE|INACTIVE)$".

(** The pattern object the fragment engine compiles it to. *)
Definition status_rx : MiniRe.compiled :=
  Eval cbv in
    match MiniRe.compile status_pattern 0 with
    | Return rx => rx
    | Raise _ => {| MiniRe.rx_re := MiniRe.Empty; MiniRe.ignorecase := false;
                    MiniRe.multiline := false; MiniRe.dotall := false |}
    end.

(** Three evaluations on the frame of the demo, as a session would keep
    them: the status rule, a rule on a column the frame does not have, and
    a search on the id column. *)
Definition result_or_error (o : Outcome CheckResult) : CheckResult :=
  match o with
  | Return r => r
  | Raise e => ResFail (exn_text e)
  end.

Definition demo_history : list CheckResult :=
  Eval vm_compute in
    [ result_or_error
        (result_of (check_regex_column (RE := MiniRe.engine)
                      "status" status_pattern "fullmatch" false None 10) demo_df);
      result_or_error
        (result_of (check_regex_column (RE := MiniRe.engine)
                      "nope" "AB.*" "search" true None 10) demo_df);
      result_or_error
        (result_of (check_regex_column (RE := MiniRe.engine)
                      "id" "AB.*" "search" true None 10) demo_df) ].

(** A column that holds a failing value twice. *)
Definition repeated_df : DataFrame := {|
  columns := ["status"];
  rows := [ (0, [CStr "BAD"]); (1, [CStr "ACTIVE"]); (2, [CStr "BAD"]); (3, [CStr "WORSE"]) ]
|}.


(* --------------------------------------------------------------------- *)
(* regex_shell: reading a rule statement                                 *)
(* --------------------------------------------------------------------- *)

(** More of Python's [str], on ASCII text as above. *)
Module PyText.

(** s.split(): the words between runs of white space; [split_by p] cuts at
    the characters [p] holds of. *)
Fixpoint split_from (p : ascii -> bool) (cur : string) (s : string) : list string :=
  match s with
  | EmptyString => match cur with EmptyString => [] | _ => [cur] end
  | String a s' =>
      if p a then
        match cur with
        | EmptyString => split_from p EmptyString s'
        | _ => cur :: split_from p EmptyString s'
        end
      else split_from p (cur ++ String a EmptyString) s'
  end.

Definition split_by (p : ascii -> bool) (s : string) : list string :=
  split_from p EmptyString s.

Definition split_ws (s : string) : list string := split_by PyStr.is_space s.

(** s.split("=>"): the pieces between the occurrences of the arrow, read
    from the left; there is always at least one piece. *)
Fixpoint split_arrow_from (cur : string) (s : string) : list string :=
  match s with
  | EmptyString => [cur]
  | String "="%char (String ">"%char s') => cur :: split_arrow_from EmptyString s'
  | String a s' => split_arrow_from (cur ++ String a EmptyString) s'
  end.

Definition split_arrow (s : string) : list string := split_arrow_from EmptyString s.

(** s.replace(old, new) for a one-character [old] *)
Fixpoint replace_char (old : ascii) (new : string) (s : string) : string :=
  match s with
  | EmptyString => EmptyString
  | String a s' =>
      if Ascii.eqb a old then new ++ replace_char old new s'
      else String a (replace_char old new s')
  end.

(** s.endswith(suffix): some tail of [s] is the suffix *)
Fixpoint endswith (suffix : string) (s : string) : bool :=
  String.eqb s suffix ||
  match s with
  | EmptyString => false
  | String _ s' => endswith suffix s'
  end.

End PyText.

(** _parse_flags. [seen] is the set of the loop, [out] its list. *)
Definition parse_flags_step (st : list string * gset string) (t : string)
    : list string * gset string :=
  if bool_decide (t ∈ snd st) then st
  else (fst st ++ [t], {[t]} ∪ snd st).

Definition _parse_flags (flags_str : string) : list string :=
  let s := PyStr.strip flags_str in
  if String.eqb s "" then []
  else
    let s := PyText.replace_char ","%char " " s in
    let tokens :=
      map (fun t => PyStr.upper (PyStr.strip t))
        (List.filter (fun t => negb (String.eqb (PyStr.strip t) ""))
           (PyText.split_ws s)) in
    fst (fold_left parse_flags_step tokens ([], ∅)).

Definition _parse_allow_null (x : string) : bool :=
  let s := PyStr.lower (PyStr.strip x) in
  if String.eqb s "" then true
  else existsb (String.eqb s) ["1"; "true"; "t"; "yes"; "y"; "allow"; "allowed"].

Definition _split_arrow (stmt : string) : list string :=
  let parts := map PyStr.strip (PyText.split_arrow stmt) in
  List.filter (fun p => negb (String.eqb p "")) parts.

(** What the shell prints: a line of text, or a result through
    _print_result, whose layout is not modelled. *)
Inductive Printed :=
| PrintLine (text : string)
| PrintResult (res : CheckResult).

Section execute.
Context {RE : RegexEngine}.

(** _execute_rule_stmt: the history is the list the caller owns; the list
    after the call is returned with what was printed. *)
Definition _execute_rule_stmt (stmt : string) (history : list CheckResult)
    : Py (list CheckResult * list Printed) :=
  let parts := _split_arrow stmt in
  if (length parts <? 2)%nat then
    ret (history,
         [PrintLine "[ERROR] Invalid rule line. Expected at least: column => regex"])
  else
    let column := nth 0 parts "" in
    let pattern := nth 1 parts "" in
    let mode := "fullmatch" in
    let allow_null := true in
    let flags : list string := [] in
    let mode := if (3 <=? length parts)%nat then nth 2 parts "" else mode in
    let allow_null :=
      if (4 <=? length parts)%nat then _parse_allow_null (nth 3 parts "")
      else allow_null in
    let flags :=
      if (5 <=? length parts)%nat then _parse_flags (nth 4 parts "") else flags in
    res <- check_regex_column column pattern mode allow_null (Some flags) 10 ;;
    let history := if ok res then history ++ [res] else history in
    ret (history, [PrintResult res]).

End execute.

(* --------------------------------------------------------------------- *)
(* exporters: the summary, the escaping and the two exports              *)
(* --------------------------------------------------------------------- *)

(** The double quote character. *)
Definition dquote : ascii := Eval cbv in ascii_of_nat 34.

(** _html_escape, on None or a string *)
Definition _html_escape (s : option string) : string :=
  let s := match s with None => "" | Some s => s end in
  PyText.replace_char "'"%char "&#39;"
    (PyText.replace_char dquote "&quot;"
       (PyText.replace_char ">"%char "&gt;"
          (PyText.replace_char "<"%char "&lt;"
             (PyText.replace_char "&"%char "&amp;" s)))).

(** A row of the frame build_summary_df returns. *)
Record SummaryRow := {
  sum_check_no : Z;
  sum_rule_type : string;
  sum_column : string;
  sum_pattern_or_expr : string;
  sum_mode : string;
  sum_allow_null : bool;
  sum_flags : string;
  sum_total : Z;
  sum_pass : Z;
  sum_fail : Z;
  sum_null : Z;
  sum_non_null : Z;
  sum_pass_rate : option Q;
  sum_fail_samples : string
}.

(** sep.join(l) on a list that may hold None, which join refuses with the
    position of the first one *)
Fixpoint first_none {A} (i : nat) (l : list (option A)) : option nat :=
  match l with
  | [] => None
  | None :: _ => Some i
  | Some _ :: l' => first_none (S i) l'
  end.

Definition join_values (sep : string) (l : list (option string)) : Outcome string :=
  match first_none 0 l with
  | Some i =>
      Raise (TypeError ("sequence item " ++ pretty i
                        ++ ": expected str instance, NoneType found"))
  | None => Return (PyStr.join sep (map (default "") l))
  end.

(** The dict build_summary_df appends for a result. *)
Definition summary_row (i : Z) (r : CheckResult) : Outcome SummaryRow :=
  let c := get counts r in
  match join_values "|" (default [] (fail_values <$> get samples r)) with
  | Raise e => Raise e
  | Return fail_samples =>
      Return {|
        sum_check_no := i;
        sum_rule_type := default "regex" (get rule_type r);
        sum_column := default "" (get column r);
        sum_pattern_or_expr := default "" (get pattern r);
        sum_mode := default "" (get mode r);
        sum_allow_null := default true (get allow_null r);
        sum_flags := PyStr.join "," (default [] (get flags r));
        sum_total := default 0 (total <$> c);
        sum_pass := default 0 (pass <$> c);
        sum_fail := default 0 (fail <$> c);
        sum_null := default 0 (null <$> c);
        sum_non_null := default 0 (non_null <$> c);
        sum_pass_rate := get pass_rate r;
        sum_fail_samples := fail_samples |}
  end.

(** The loop of build_summary_df over enumerate(history, start=i). *)
Fixpoint build_summary_from (i : Z) (history : list CheckResult)
    : Outcome (list SummaryRow) :=
  match history with
  | [] => Return []
  | r :: history' =>
      if negb (ok r) then build_summary_from (i + 1) history'
      else
        match summary_row i r with
        | Raise e => Raise e
        | Return row =>
            match build_summary_from (i + 1) history' with
            | Raise e => Raise e
            | Return rows => Return (row :: rows)
            end
        end
  end.

Definition build_summary_df (history : list CheckResult) : Outcome (list SummaryRow) :=
  build_summary_from 1 history.

(** A sheet of the workbook export_excel writes: the summary, the failed
    rows, or a frame with the one column "note" and one row. The workbook
    stands for the file; the file system is not modelled. *)
Inductive Sheet :=
| SheetSummary (summary_df : list SummaryRow)
| SheetFailed (failed_df : FailedRows)
| SheetNote (note : string).

Definition export_excel (history : list CheckResult) (out_path : string)
    (include_failed_rows : bool) : Py (list (string * Sheet)) :=
  if negb (PyText.endswith ".xlsx" (PyStr.lower out_path)) then
    raise (ValueError "Excel export requires .xlsx file extension.")
  else
    summary_df <- lift (build_summary_df history) ;;
    failed_df <- (if include_failed_rows then build_failed_rows_df history
                  else ret {| out_cols := []; out_rows := [] |}) ;;
    let failed_sheet :=
      if include_failed_rows then
        match out_rows failed_df with
        | [] => SheetNote "No failed rows."
        | _ => SheetFailed failed_df
        end
      else SheetNote "Failed rows not exported." in
    ret [("Summary", SheetSummary summary_df); ("FailedRows", failed_sheet)].

(** What the dashboard shows on load under "Failed Rows": a note, or the
    fragment of a check. *)
Inductive InitialFailed :=
| InitialNote (text : string)
| InitialFragment (frag : Fragment).

(** check_failed_html.get(k) *)
Fixpoint fragment_get (k : Z) (frags : list (Z * Fragment)) : option Fragment :=
  match frags with
  | [] => None
  | (k', frag) :: frags' => if Z.eqb k k' then Some frag else fragment_get k frags'
  end.

(** export_html, up to the page: the fragments of the checks and what is
    shown first under "Failed Rows". The markup of the page (preview,
    summary table, style and script) and the file are not modelled. *)
Definition export_html (history : list CheckResult) (out_path : string)
    (include_failed_rows : bool) : Py (list (Z * Fragment) * InitialFailed) :=
  if negb (PyText.endswith ".html" (PyStr.lower out_path)) then
    raise (ValueError "HTML export requires .html file extension.")
  else
    summary_df <- lift (build_summary_df history) ;;
    if include_failed_rows then
      check_failed_html <- check_failed_html history ;;
      let initial_failed_html :=
        match summary_df with
        | first :: _ =>
            match fragment_get (sum_check_no first) check_failed_html with
            | Some frag => InitialFragment frag
            | None => InitialNote "No failed rows."
            end
        | [] => InitialNote "No checks."
        end in
      ret (check_failed_html, initial_failed_html)
    else ret ([], InitialNote "Failed rows not included.").

(** The results build_summary_df keeps, each with its number in
    enumerate(history, start=1). *)
Definition retained (history : list CheckResult) : list (Z * CheckResult) :=
  List.filter (fun p => ok (snd p)) (numbered 1 history).

(** What _html_escape writes for one character, and the text read back. *)
Definition html_entity (a : ascii) : string :=
  if Ascii.eqb a "&" then "&amp;"
  else if Ascii.eqb a "<" then "&lt;"
  else if Ascii.eqb a ">" then "&gt;"
  else if Ascii.eqb a dquote then "&quot;"
  else if Ascii.eqb a "'" then "&#39;"
  else String a EmptyString.

Fixpoint html_entities (s : string) : string :=
  match s with
  | EmptyString => EmptyString
  | String a s' => html_entity a ++ html_entities s'
  end.

Fixpoint html_unescape (s : string) : string :=
  match s with
  | EmptyString => EmptyString
  | String a s' =>
      if Ascii.eqb a "&" then
        match s' with
        | String "a" (String "m" (String "p" (String ";" r))) =>
            String "&" (html_unescape r)
        | String "l" (String "t" (String ";" r)) => String "<" (html_unescape r)
        | String "g" (String "t" (String ";" r)) => String ">" (html_unescape r)
        | String "q" (String "u" (String "o" (String "t" (String ";" r)))) =>
            String dquote (html_unescape r)
        | String "#" (String "3" (String "9" (String ";" r))) =>
            String "'" (html_unescape r)
        | _ => String a (html_unescape s')
        end
      else String a (html_unescape s')
  end.

(** The characters of a text. *)
Definition chars (s : string) : list ascii := list_ascii_of_string s.

(** The bits a flag token stands for: those of _FLAG_MAP for the token
    stripped and in upper case, none for a token the map does not have. *)
Definition flag_value (x : string) : Z :=
  default 0 (flag_lookup (PyStr.upper (PyStr.strip x)) _FLAG_MAP).

Definition known_flag (x : string) : bool :=
  match flag_lookup (PyStr.upper (PyStr.strip x)) _FLAG_MAP with
  | Some _ => true
  | None => false
  end.

(** re.IGNORECASE | re.MULTILINE | re.DOTALL | re.ASCII | re.VERBOSE *)
Definition all_flags : Z :=
  Z.lor re_IGNORECASE (Z.lor re_MULTILINE (Z.lor re_DOTALL (Z.lor re_ASCII re_VERBOSE))).

(** The separators of a flags segment: white space and the comma. *)
Definition is_sep (a : ascii) : bool := PyStr.is_space a || Ascii.eqb a ","%char.

(** The loop of _parse_flags on a list of tokens: each token once, where it
    comes first. *)
Definition first_occurrences (tokens : list string) : list string :=
  fst (fold_left parse_flags_step tokens ([], ∅)).

(** A text that holds none of the characters [p] holds of. *)
Definition free_of (p : ascii -> bool) (t : string) : Prop :=
  Forall (fun a => p a = false) (chars t).

(** Whether a text holds the arrow. *)
Fixpoint has_arrow (s : string) : bool :=
  match s with
  | EmptyString => false
  | String "="%char (String ">"%char _) => true
  | String _ s' => has_arrow s'
  end.

(** Whether a text begins with a given character. *)
Definition starts_with (c : ascii) (s : string) : bool :=
  match s with
  | String a _ => Ascii.eqb a c
  | EmptyString => false
  end.

Definition tail (s : string) : string :=
  match s with
  | String _ s' => s'
  | EmptyString => EmptyString
  end.

(** A text is stripped on the left when it is empty or begins with a
    character that is not white. *)
Definition begins_black (s : string) : bool :=
  match s with
  | EmptyString => true
  | String a _ => negb (PyStr.is_space a)
  end.

(** The demo at the shell: a rule statement, the fields of the result of
    the status rule, with nulls forbidden and with nulls allowed, and the
    summary of the history of the demo. *)
Definition demo_rule : string := "status => ^(ACTIVE|INACTIVE)$ => fullmatch => false".

Definition demo_status_fields : CheckOk :=
  Eval vm_compute in
    fields_of (RE := MiniRe.engine) demo_df status_rx
      "status" status_pattern "fullmatch" false None 10.

Definition demo_status_allowing : CheckOk :=
  Eval vm_compute in
    fields_of (RE := MiniRe.engine) demo_df status_rx
      "status" status_pattern "fullmatch" true None 10.

Definition demo_summary : list SummaryRow :=
  Eval vm_compute in
    match build_summary_df demo_history with
    | Return summary_df => summary_df
    | Raise _ => []
    end.

(* ===================================================================== *)
(* Properties                                                            *)
(* ===================================================================== *)

(* --------------------------------------------------------------------- *)
(* Series                                                                *)
(* --------------------------------------------------------------------- *)

Section series_facts.
Context {A B : Type}.
Implicit Types (s : Series A).

Lemma select_smap (f : A -> bool) s :
  Pd.select s (Pd.smap f s) = List.filter (fun p => f (snd p)) s.
Proof.
  induction s as [|[i v] s IH]; simpl; [reflexivity|].
  rewrite IH. reflexivity.
Qed.

Lemma invert_smap (f : A -> bool) s :
  Pd.invert (Pd.smap f s) = Pd.smap (fun v => negb (f v)) s.
Proof.
  unfold Pd.invert, Pd.smap. rewrite map_map. reflexivity.
Qed.

Lemma sum_smap (f : A -> bool) s :
  Pd.sum (Pd.smap f s) = Z.of_nat (length (List.filter (fun p => f (snd p)) s)).
Proof.
  unfold Pd.sum. f_equal.
  induction s as [|[i v] s IH]; simpl; [reflexivity|].
  destruct (f v); simpl; rewrite IH; reflexivity.
Qed.

Lemma sum_constant_false (n : Z) (idx : list RowId) :
  Pd.sum (Pd.constant false n idx) = 0.
Proof.
  unfold Pd.sum, Pd.constant.
  generalize (Z.to_nat n) as m.
  induction idx as [|i idx IH]; intros [|m]; simpl; try reflexivity.
  apply IH.
Qed.

Lemma filter_split_length (f : RowId * A -> bool) s :
  (length (List.filter f s) + length (List.filter (fun p => negb (f p)) s))%nat
  = length s.
Proof.
  induction s as [|p s IH]; simpl; [reflexivity|].
  destruct (f p); simpl; lia.
Qed.

Lemma head_nonneg (n : Z) s :
  0 <= n -> Pd.head n s = firstn (Z.to_nat n) s.
Proof.
  intros Hn. unfold Pd.head.
  destruct (0 <=? n) eqn:E; [reflexivity|]. apply Z.leb_gt in E. lia.
Qed.

End series_facts.

(* --------------------------------------------------------------------- *)
(* Running check_regex_column                                            *)
(* --------------------------------------------------------------------- *)

Lemma position_member (c : string) (cols : list string) :
  existsb (String.eqb c) cols = true -> exists j, Pd.position c cols = Some j.
Proof.
  induction cols as [|x cols IH]; simpl; [discriminate|].
  destruct (String.eqb c x); simpl; [eauto|].
  intros H. destruct (IH H) as [j Hj]. rewrite Hj. simpl. eauto.
Qed.

Section check_facts.
Context {RE : RegexEngine}.

Lemma series_map_search rx (s : Series (option string)) df :
  series_map (search_cell rx) (non_null_rows s) df
  = (Return (Pd.smap (fun v => match v with Some t => rx_search rx t | None => false end)
               (non_null_rows s)), df).
Proof.
  unfold non_null_rows.
  induction s as [|[i [t|]] s IH]; simpl; try reflexivity; [|exact IH].
  unfold bind at 1. simpl. unfold bind at 1. rewrite IH. reflexivity.
Qed.

Lemma series_map_fullmatch rx (s : Series (option string)) df :
  series_map (fullmatch_cell rx) (non_null_rows s) df
  = (Return (Pd.smap (fun v => match v with Some t => rx_fullmatch rx t | None => false end)
               (non_null_rows s)), df).
Proof.
  unfold non_null_rows.
  induction s as [|[i [t|]] s IH]; simpl; try reflexivity; [|exact IH].
  unfold bind at 1. simpl. unfold bind at 1. rewrite IH. reflexivity.
Qed.

Lemma matched_is_satisfies rx mode (s : Series (option string)) df :
  (if String.eqb (_normalize_mode mode) "search"
   then series_map (search_cell rx) (non_null_rows s)
   else series_map (fullmatch_cell rx) (non_null_rows s)) df
  = (Return (Pd.smap (satisfies rx mode) (non_null_rows s)), df).
Proof.
  unfold satisfies.
  destruct (String.eqb (_normalize_mode mode) "search").
  - apply series_map_search.
  - apply series_map_fullmatch.
Qed.

Lemma labels_nil_of_length {A} (s : Series A) :
  (0 <? Z.of_nat (length s)) = false -> Pd.labels s = [].
Proof.
  destruct s; [reflexivity|]. simpl length. intros H. apply Z.ltb_ge in H. lia.
Qed.

(** The check runs to a result whenever the column is there and the
    pattern compiles, and leaves the frame as it was. *)
Lemma check_regex_column_runs df rx column pattern mode allow_null flags k :
  existsb (String.eqb column) (columns df) = true ->
  re_compile pattern (flag_bits flags) = Return rx ->
  check_regex_column column pattern mode allow_null flags k df
  = (Return (ResOk (fields_of df rx column pattern mode allow_null flags k)), df).
Proof.
  intros Hcol Hrx.
  destruct (position_member _ _ Hcol) as [j Hj].
  unfold check_regex_column, bind at 1. simpl. rewrite Hcol. simpl.
  unfold bind at 1, try_, _compile, lift. rewrite Hrx.
  unfold bind at 1, Frame.getitem. rewrite Hj.
  set (s := Pd.smap _to_str_or_none _).
  assert (Hs : s = coerced df column).
  { unfold s, coerced, Pd.smap. rewrite Hj, map_map. reflexivity. }
  assert (Hnn : Pd.select s (Pd.invert (Pd.isna s)) = non_null_rows s).
  { unfold Pd.isna. rewrite invert_smap, select_smap. reflexivity. }
  assert (Hnull : Pd.select s (Pd.isna s) = null_rows s).
  { unfold Pd.isna. rewrite select_smap. reflexivity. }
  assert (Hsum : Pd.sum (Pd.isna s) = Z.of_nat (length (null_rows s))).
  { unfold Pd.isna. rewrite sum_smap. reflexivity. }
  assert (Hsum' : Pd.sum (Pd.invert (Pd.isna s)) = Z.of_nat (length (non_null_rows s))).
  { unfold Pd.isna. rewrite invert_smap, sum_smap. reflexivity. }
  rewrite Hnn, Hnull. unfold bind. rewrite matched_is_satisfies.
  rewrite invert_smap, select_smap, !sum_smap, Hsum, Hsum'.
  fold (non_null_fails rx mode s). fold (non_null_passes rx mode s).
  unfold ret. do 3 f_equal. unfold fields_of. rewrite <- Hs.
  assert (Hfi :
    (if negb allow_null && (0 <? Z.of_nat (length (null_rows s)))
     then (if 0 <? Z.of_nat (length (non_null_fails rx mode s))
           then [] ++ Pd.labels (non_null_fails rx mode s) else [])
          ++ Pd.labels (null_rows s)
     else (if 0 <? Z.of_nat (length (non_null_fails rx mode s))
           then [] ++ Pd.labels (non_null_fails rx mode s) else []))
    = Pd.labels (non_null_fails rx mode s)
      ++ (if allow_null then [] else Pd.labels (null_rows s))).
  { assert (H1 : (if 0 <? Z.of_nat (length (non_null_fails rx mode s))
                  then [] ++ Pd.labels (non_null_fails rx mode s) else [])
                 = Pd.labels (non_null_fails rx mode s)).
    { destruct (0 <? _) eqn:E; [reflexivity|].
      symmetry. apply labels_nil_of_length. exact E. }
    rewrite H1.
    destruct allow_null; simpl; [rewrite app_nil_r; reflexivity|].
    destruct (0 <? Z.of_nat (length (null_rows s))) eqn:E; [reflexivity|].
    rewrite (labels_nil_of_length _ E), app_nil_r. reflexivity. }
  destruct allow_null; simpl in *; rewrite ?sum_constant_false, ?Hsum, Hfi;
    reflexivity.
Qed.

End check_facts.

Lemma existsb_eqb_In (c : string) (l : list string) :
  existsb (String.eqb c) l = true <-> In c l.
Proof.
  rewrite existsb_exists. split.
  - intros [x [Hx He]]. apply String.eqb_eq in He. subst. exact Hx.
  - intros H. exists c. split; [exact H|apply String.eqb_refl].
Qed.

Lemma existsb_eqb_not_In (c : string) (l : list string) :
  existsb (String.eqb c) l = false <-> ~ In c l.
Proof.
  rewrite <- existsb_eqb_In. destruct (existsb _ l); split; congruence.
Qed.

Lemma in_firstn {A} (x : A) (n : nat) (l : list A) :
  In x (firstn n l) -> In x l.
Proof.
  intros H. rewrite <- (firstn_skipn n l). apply in_or_app. left. exact H.
Qed.

Lemma length_coerced df column :
  In column (columns df) -> length (coerced df column) = length (rows df).
Proof.
  intros H. apply existsb_eqb_In, position_member in H. destruct H as [j Hj].
  unfold coerced. rewrite Hj. apply length_map.
Qed.

Section check_properties.
Context {RE : RegexEngine}.

Lemma length_null_non_null (s : Series (option string)) :
  (length (null_rows s) + length (non_null_rows s))%nat = length s.
Proof. apply filter_split_length. Qed.

Lemma length_passes_fails rx mode (s : Series (option string)) :
  (length (non_null_passes rx mode s) + length (non_null_fails rx mode s))%nat
  = length (non_null_rows s).
Proof. apply filter_split_length. Qed.

(** C1. When the column exists and the pattern compiles, the check
    returns a result whose counts satisfy total = pass + fail,
    total = null + non_null, and total = the number of rows of the
    frame. *)
Theorem counts_add_up df rx column pattern mode allow_null flags k :
  In column (columns df) ->
  re_compile pattern (flag_bits flags) = Return rx ->
  exists c,
    result_of (check_regex_column column pattern mode allow_null flags k) df
    = Return (ResOk c)
    /\ total (counts c) = pass (counts c) + fail (counts c)
    /\ total (counts c) = null (counts c) + non_null (counts c)
    /\ total (counts c) = Z.of_nat (length (rows df)).
Proof.
  intros Hcol Hrx. eexists. split.
  - unfold result_of. apply existsb_eqb_In in Hcol.
    rewrite (check_regex_column_runs df rx); [reflexivity|exact Hcol|exact Hrx].
  - simpl.
    pose proof (length_null_non_null (coerced df column)) as H1.
    pose proof (length_passes_fails rx mode (coerced df column)) as H2.
    pose proof (length_coerced df column Hcol) as H3.
    destruct allow_null; repeat split; lia.
Qed.

(** C2. fail_indices is the identifiers of the non-null rows that failed
    the match, in the order of the non-null subset, followed, only when
    allow_null is false, by the identifiers of the null rows in the order
    of the null subset; when allow_null is true every identifier in it
    is that of a row whose value is not null. *)
Theorem fail_indices_order df rx column pattern mode allow_null flags k :
  In column (columns df) ->
  re_compile pattern (flag_bits flags) = Return rx ->
  exists c,
    result_of (check_regex_column column pattern mode allow_null flags k) df
    = Return (ResOk c)
    /\ fail_indices c
       = Pd.labels (non_null_fails rx mode (coerced df column))
         ++ (if allow_null then [] else Pd.labels (null_rows (coerced df column)))
    /\ (allow_null = true ->
        Forall (fun idx => exists t, In (idx, Some t) (coerced df column))
               (fail_indices c)).
Proof.
  intros Hcol Hrx. eexists. split; [|split].
  - unfold result_of. apply existsb_eqb_In in Hcol.
    rewrite (check_regex_column_runs df rx); [reflexivity|exact Hcol|exact Hrx].
  - reflexivity.
  - intros ->. simpl. rewrite app_nil_r.
    apply List.Forall_forall. intros idx Hin.
    unfold Pd.labels in Hin. apply in_map_iff in Hin.
    destruct Hin as [[i v] [Hi Hin]]. simpl in Hi. subst i.
    unfold non_null_fails, non_null_rows in Hin.
    apply filter_In in Hin. destruct Hin as [Hin _].
    apply filter_In in Hin. destruct Hin as [Hin Hv].
    destruct v as [t|]; [|discriminate]. exists t. exact Hin.
Qed.

(** C5. pass_rate is pass divided by total when total > 0, and exactly 1
    when total = 0, which is the case of a frame without rows. *)
Theorem pass_rate_value df rx column pattern mode allow_null flags k :
  In column (columns df) ->
  re_compile pattern (flag_bits flags) = Return rx ->
  exists c,
    result_of (check_regex_column column pattern mode allow_null flags k) df
    = Return (ResOk c)
    /\ (0 < total (counts c) ->
        pass_rate c = (inject_Z (pass (counts c)) / inject_Z (total (counts c)))%Q
        /\ (pass_rate c * inject_Z (total (counts c)) == inject_Z (pass (counts c)))%Q)
    /\ (total (counts c) = 0 -> pass_rate c = 1%Q)
    /\ (total (counts c) = 0 <-> rows df = []).
Proof.
  intros Hcol Hrx. eexists. split; [|split; [|split]].
  - unfold result_of. apply existsb_eqb_In in Hcol.
    rewrite (check_regex_column_runs df rx); [reflexivity|exact Hcol|exact Hrx].
  - simpl. intros Hpos.
    destruct (Z.of_nat (length (coerced df column)) =? 0) eqn:E.
    + apply Z.eqb_eq in E. lia.
    + split; [reflexivity|].
      rewrite Qmult_comm. apply Qmult_div_r. intros H0.
      apply Z.eqb_neq in E. apply E.
      unfold Qeq in H0. simpl in H0. lia.
  - simpl. intros ->. reflexivity.
  - simpl. rewrite (length_coerced df column Hcol).
    destruct (rows df); simpl; split; intros; try reflexivity; try discriminate; lia.
Qed.

(** The three ways a check ends: each returns a dict and keeps the
    frame. *)
Lemma check_regex_column_cases df column pattern mode allow_null flags k :
  check_regex_column column pattern mode allow_null flags k df
  = (Return
       (if existsb (String.eqb column) (columns df) then
          match re_compile pattern (flag_bits flags) with
          | Raise e => ResFail ("Regex compile failed: " ++ exn_text e)
          | Return rx => ResOk (fields_of df rx column pattern mode allow_null flags k)
          end
        else ResFail ("Column not found: " ++ column)),
     df).
Proof.
  destruct (existsb (String.eqb column) (columns df)) eqn:Hcol.
  - destruct (re_compile pattern (flag_bits flags)) as [rx|e] eqn:Hrx.
    + apply check_regex_column_runs; assumption.
    + unfold check_regex_column, bind at 1. simpl. rewrite Hcol. simpl.
      unfold bind at 1, try_, _compile, lift. rewrite Hrx. reflexivity.
  - unfold check_regex_column, bind at 1. simpl. rewrite Hcol. reflexivity.
Qed.

(** C6. The check always returns a dict, without raising; the result
    has ok = false exactly when the column is absent or the pattern does
    not compile under the resolved flags, with the messages
    "Column not found: <column>" and "Regex compile failed: <detail>";
    such a result has an error entry and none of the other entries. *)
Theorem failure_results df column pattern mode allow_null flags k :
  exists r,
    result_of (check_regex_column column pattern mode allow_null flags k) df = Return r
    /\ (ok r = false <->
        ~ In column (columns df)
        \/ exists e, re_compile pattern (flag_bits flags) = Raise e)
    /\ (~ In column (columns df) ->
        r = ResFail ("Column not found: " ++ column))
    /\ (In column (columns df) ->
        forall e, re_compile pattern (flag_bits flags) = Raise e ->
        r = ResFail ("Regex compile failed: " ++ exn_text e))
    /\ (ok r = false ->
        (exists msg, get_error r = Some msg)
        /\ forall A (field : CheckOk -> A), get field r = None).
Proof.
  eexists. split.
  { unfold result_of. rewrite check_regex_column_cases. reflexivity. }
  destruct (existsb (String.eqb column) (columns df)) eqn:Hcol.
  - pose proof (proj1 (existsb_eqb_In _ _) Hcol) as Hin.
    destruct (re_compile pattern (flag_bits flags)) as [rx|e] eqn:Hrx; simpl.
    + split; [split; [discriminate|]|].
      { intros [Hn|[e He]]; [contradiction|discriminate]. }
      split; [intros Hn; contradiction|].
      split; [intros _ e He; discriminate|].
      intros H; discriminate.
    + split; [split; [intros _; right; eauto|reflexivity]|].
      split; [intros Hn; contradiction|].
      split; [intros _ e' He'; congruence|].
      intros _. split; [eauto|reflexivity].
  - pose proof (proj1 (existsb_eqb_not_In _ _) Hcol) as Hin. simpl.
    split; [split; [intros _; left; exact Hin|reflexivity]|].
    split; [reflexivity|].
    split; [intros Hn; contradiction|].
    intros _. split; [eauto|reflexivity].
Qed.

(** C8, as the code has it. With a sample limit k >= 0, fail_values is
    the first k values of the non-null rows that failed, in the order of
    that subset and with repeated values kept; every one of them is a
    string, and their number is the minimum of k and the number of
    non-null failing rows. *)
Theorem fail_values_prefix df rx column pattern mode allow_null flags k :
  In column (columns df) ->
  re_compile pattern (flag_bits flags) = Return rx ->
  0 <= k ->
  exists c,
    result_of (check_regex_column column pattern mode allow_null flags k) df
    = Return (ResOk c)
    /\ fail_values (samples c)
       = firstn (Z.to_nat k) (Pd.tolist (non_null_fails rx mode (coerced df column)))
    /\ Forall (fun v => exists t, v = Some t) (fail_values (samples c))
    /\ Z.of_nat (length (fail_values (samples c)))
       = Z.min k (Z.of_nat (length (non_null_fails rx mode (coerced df column)))).
Proof.
  intros Hcol Hrx Hk. eexists. split.
  { unfold result_of. apply existsb_eqb_In in Hcol.
    rewrite (check_regex_column_runs df rx); [reflexivity|exact Hcol|exact Hrx]. }
  simpl. rewrite (head_nonneg k _ Hk). unfold Pd.tolist.
  split; [|split].
  - symmetry. apply firstn_map.
  - apply List.Forall_forall. intros v Hv.
    apply in_map_iff in Hv. destruct Hv as [[i w] [Hw Hv]]. simpl in Hw. subst w.
    apply in_firstn in Hv.
    unfold non_null_fails, non_null_rows in Hv.
    apply filter_In in Hv. destruct Hv as [Hv _].
    apply filter_In in Hv. destruct Hv as [_ Hv]. simpl in Hv.
    destruct v as [t|]; [eauto|discriminate].
  - rewrite length_map, length_firstn. lia.
Qed.

(** C9. A second evaluation of the same rule, run on the frame the first
    one left, returns the same result as the first. *)
Theorem check_twice_same df column pattern mode allow_null flags k :
  result_of (check_regex_column column pattern mode allow_null flags k)
    (frame_after (check_regex_column column pattern mode allow_null flags k) df)
  = result_of (check_regex_column column pattern mode allow_null flags k) df.
Proof.
  unfold frame_after. rewrite check_regex_column_cases. reflexivity.
Qed.

(** C10. Whatever the arguments and whether the result is ok or not, the
    frame after the call is the frame before it: same columns, same row
    identifiers, same cells. *)
Theorem check_keeps_frame df column pattern mode allow_null flags k :
  frame_after (check_regex_column column pattern mode allow_null flags k) df = df.
Proof.
  unfold frame_after. rewrite check_regex_column_cases. reflexivity.
Qed.

End check_properties.

(* --------------------------------------------------------------------- *)
(* The status scenario                                                   *)
(* --------------------------------------------------------------------- *)

Section scenario.
Context {RE : RegexEngine}.

Lemma coerced_status :
  coerced demo_df "status"
  = [ (0, Some "ACTIVE"); (1, Some "INACTIVE"); (2, Some "BAD");
      (3, Some "ACTIVE"); (4, None); (5, Some "inactive") ].
Proof. reflexivity. Qed.

(** C4, as the code has it. With an engine that compiles the pattern
    and under which, of the five strings of the column, exactly ACTIVE
    and INACTIVE match it in full, the rule
    status => ^(ACTIVE|INACTIVE)$ => fullmatch => false on the column
    [ACTIVE, INACTIVE, BAD, ACTIVE, null, inactive] gives total = 6,
    non_null = 5, null = 1, pass = 3, fail = 3 and pass_rate = 1/2: the
    column holds ACTIVE twice, and three rows pass. *)
Theorem status_scenario rx :
  re_compile status_pattern (flag_bits None) = Return rx ->
  rx_fullmatch rx "ACTIVE" = true ->
  rx_fullmatch rx "INACTIVE" = true ->
  rx_fullmatch rx "BAD" = false ->
  rx_fullmatch rx "inactive" = false ->
  exists c,
    result_of (check_regex_column "status" status_pattern "fullmatch" false None 10)
      demo_df = Return (ResOk c)
    /\ total (counts c) = 6
    /\ non_null (counts c) = 5
    /\ null (counts c) = 1
    /\ pass (counts c) = 3
    /\ fail (counts c) = 3
    /\ (pass_rate c == 1 # 2)%Q.
Proof.
  intros Hrx Ha Hi Hb Hl. eexists. split.
  { unfold result_of.
    rewrite (check_regex_column_runs demo_df rx); [reflexivity|reflexivity|exact Hrx]. }
  unfold fields_of, non_null_passes, non_null_fails. rewrite coerced_status.
  simpl non_null_rows. simpl null_rows. simpl List.filter.
  rewrite Ha, Hi, Hb, Hl. simpl.
  repeat split; reflexivity.
Qed.

End scenario.

(* --------------------------------------------------------------------- *)
(* The map of failures                                                   *)
(* --------------------------------------------------------------------- *)

Lemma entries_setdefault_append desc (m : gmap Z (list string)) (j i : RowId) :
  entries (setdefault_append desc m j) i
  = if Z.eqb i j then entries m i ++ [desc] else entries m i.
Proof.
  unfold entries, setdefault_append.
  destruct (Z.eqb_spec i j) as [->|Hne].
  - rewrite lookup_insert_eq. reflexivity.
  - rewrite lookup_insert_ne by congruence. reflexivity.
Qed.

Lemma entries_extend desc (l : list RowId) (m : gmap Z (list string)) (i : RowId) :
  entries (fold_left (setdefault_append desc) l m) i
  = entries m i ++ repeat desc (count_occ Z.eq_dec l i).
Proof.
  revert m. induction l as [|j l IH]; intros m; simpl.
  - rewrite app_nil_r. reflexivity.
  - rewrite IH, entries_setdefault_append.
    destruct (Z.eq_dec j i) as [->|Hne].
    + rewrite Z.eqb_refl. simpl. rewrite <- app_assoc. reflexivity.
    + destruct (Z.eqb_spec i j); [congruence|reflexivity].
Qed.

Lemma no_empty_entry_extend desc (l : list RowId) (m : gmap Z (list string)) :
  no_empty_entry m -> no_empty_entry (fold_left (setdefault_append desc) l m).
Proof.
  revert m. induction l as [|j l IH]; intros m Hm; simpl; [exact Hm|].
  apply IH. intros i t. unfold setdefault_append.
  destruct (Z.eq_dec j i) as [->|Hne].
  - rewrite lookup_insert_eq. intros [= <-] H.
    apply app_eq_nil in H. destruct H as [_ H]. discriminate.
  - rewrite lookup_insert_ne by congruence. apply Hm.
Qed.

Lemma entries_step (m : gmap Z (list string)) (r : CheckResult) (i : RowId) :
  entries (fail_map_step m r) i = entries m i ++ added i r.
Proof.
  unfold fail_map_step, added. destruct (ok r); simpl.
  - destruct (fail_idx_of r) as [|j l] eqn:E.
    + simpl. rewrite app_nil_r. reflexivity.
    + apply entries_extend.
  - rewrite app_nil_r. reflexivity.
Qed.

Lemma no_empty_entry_step (m : gmap Z (list string)) (r : CheckResult) :
  no_empty_entry m -> no_empty_entry (fail_map_step m r).
Proof.
  intros Hm. unfold fail_map_step. destruct (ok r); simpl; [|exact Hm].
  destruct (fail_idx_of r) eqn:E; [exact Hm|].
  apply no_empty_entry_extend. exact Hm.
Qed.

Lemma entries_fold (history : list CheckResult) (m : gmap Z (list string)) (i : RowId) :
  entries (fold_left fail_map_step history m) i
  = entries m i ++ flat_map (added i) history.
Proof.
  revert m. induction history as [|r history IH]; intros m; simpl.
  - rewrite app_nil_r. reflexivity.
  - rewrite IH, entries_step, <- app_assoc. reflexivity.
Qed.

Lemma no_empty_entry_fold (history : list CheckResult) (m : gmap Z (list string)) :
  no_empty_entry m -> no_empty_entry (fold_left fail_map_step history m).
Proof.
  revert m. induction history as [|r history IH]; intros m Hm; simpl; [exact Hm|].
  apply IH, no_empty_entry_step, Hm.
Qed.

Lemma build_fail_map_fold (history : list CheckResult) :
  build_fail_map history = fold_left fail_map_step history ∅.
Proof. reflexivity. Qed.

Lemma entries_build_fail_map (history : list CheckResult) (i : RowId) :
  entries (build_fail_map history) i = flat_map (added i) history.
Proof.
  rewrite build_fail_map_fold, entries_fold. reflexivity.
Qed.

Lemma in_build_fail_map (history : list CheckResult) (i : RowId) :
  is_Some (build_fail_map history !! i) <-> flat_map (added i) history <> [].
Proof.
  rewrite <- entries_build_fail_map. unfold entries.
  assert (Hne : no_empty_entry (build_fail_map history)).
  { rewrite build_fail_map_fold. apply no_empty_entry_fold.
    intros j l. rewrite lookup_empty. discriminate. }
  destruct (build_fail_map history !! i) as [l|] eqn:E; simpl.
  - split; [intros _; eapply Hne; exact E|intros _; eauto].
  - split; [intros [x Hx]; discriminate|intros H; contradiction].
Qed.

Lemma existsb_eqb_In_Z (i : Z) (l : list Z) :
  existsb (Z.eqb i) l = true <-> In i l.
Proof.
  rewrite existsb_exists. split.
  - intros [x [Hx He]]. apply Z.eqb_eq in He. subst. exact Hx.
  - intros H. exists i. split; [exact H|apply Z.eqb_refl].
Qed.

Lemma added_fails_row (i : RowId) (r : CheckResult) :
  added i r <> [] <-> fails_row i r = true.
Proof.
  unfold added, fails_row. fold (fail_idx_of r).
  destruct (ok r); simpl; [|split; [contradiction|discriminate]].
  rewrite existsb_eqb_In_Z, (count_occ_In Z.eq_dec).
  destruct (count_occ Z.eq_dec (fail_idx_of r) i); simpl.
  - split; [contradiction|lia].
  - split; [lia|discriminate].
Qed.

Lemma added_once (i : RowId) (r : CheckResult) :
  (ok r = true -> List.NoDup (fail_idx_of r)) ->
  added i r = if fails_row i r then [issue_desc r] else [].
Proof.
  intros Hnd. unfold added, fails_row. fold (fail_idx_of r).
  destruct (ok r); simpl; [|reflexivity].
  pose proof (proj1 (NoDup_count_occ Z.eq_dec _) (Hnd eq_refl) i) as Hle.
  destruct (existsb (Z.eqb i) (fail_idx_of r)) eqn:E.
  - apply existsb_eqb_In_Z, (count_occ_In Z.eq_dec) in E.
    replace (count_occ Z.eq_dec (fail_idx_of r) i) with 1%nat by lia. reflexivity.
  - destruct (count_occ Z.eq_dec (fail_idx_of r) i) eqn:C; [reflexivity|].
    assert (In i (fail_idx_of r)) as Hin by (apply (count_occ_In Z.eq_dec); lia).
    apply existsb_eqb_In_Z in Hin. congruence.
Qed.

Lemma flat_map_added_nil (history : list CheckResult) (i : RowId) :
  flat_map (added i) history <> [] <-> existsb (fails_row i) history = true.
Proof.
  induction history as [|r history IH]; simpl.
  - split; [contradiction|discriminate].
  - rewrite orb_true_iff, <- IH, <- added_fails_row.
    destruct (added i r); simpl.
    + split; [intros H; right; exact H|intros [H|H]; [contradiction|exact H]].
    + split; [intros _; left; discriminate|intros _; discriminate].
Qed.

Lemma flat_map_added_once (history : list CheckResult) (i : RowId) :
  Forall (fun r => ok r = true -> List.NoDup (fail_idx_of r)) history ->
  flat_map (added i) history = map issue_desc (rules_failed history i).
Proof.
  unfold rules_failed.
  induction 1 as [|r history Hr _ IH]; simpl; [reflexivity|].
  rewrite IH, (added_once i r Hr).
  destruct (fails_row i r); reflexivity.
Qed.

Lemma in_fail_map_iff (history : list CheckResult) (i : RowId) :
  bool_decide (is_Some (build_fail_map history !! i)) = existsb (fails_row i) history.
Proof.
  destruct (existsb (fails_row i) history) eqn:E.
  - apply bool_decide_eq_true, in_build_fail_map, flat_map_added_nil, E.
  - apply bool_decide_eq_false. intros H.
    apply in_build_fail_map, flat_map_added_nil in H. congruence.
Qed.

Lemma ordered_failed_indices_spec (df : DataFrame) (history : list CheckResult) :
  ordered_failed_indices (index df) (build_fail_map history) = failed_any df history.
Proof.
  unfold ordered_failed_indices, failed_any.
  apply filter_ext. intros i. apply in_fail_map_iff.
Qed.

Lemma empty_fail_map (df : DataFrame) (history : list CheckResult) :
  build_fail_map history = ∅ -> failed_any df history = [].
Proof.
  intros He. rewrite <- ordered_failed_indices_spec, He.
  unfold ordered_failed_indices.
  induction (index df) as [|i l IH]; simpl; [reflexivity|].
  rewrite lookup_empty. rewrite bool_decide_eq_false_2; [exact IH|].
  intros [x Hx]. discriminate.
Qed.

(* --------------------------------------------------------------------- *)
(* Rows by identifier                                                    *)
(* --------------------------------------------------------------------- *)

Lemma rows_of_absent (idx : RowId) (rs : list (RowId * list Cell)) :
  ~ In idx (map fst rs) -> List.filter (fun r => Z.eqb (fst r) idx) rs = [].
Proof.
  induction rs as [|[i c] rs IH]; simpl; [reflexivity|].
  intros H. destruct (Z.eqb_spec i idx) as [->|Hne].
  - exfalso. apply H. left. reflexivity.
  - apply IH. intros Hin. apply H. right. exact Hin.
Qed.

Lemma rows_of_unique (df : DataFrame) (idx : RowId) :
  List.NoDup (index df) -> In idx (index df) ->
  Loc.rows_of idx df = [(idx, cells_of df idx)].
Proof.
  unfold cells_of, Loc.rows_of, index.
  induction (rows df) as [|[i c] rs IH]; simpl; [contradiction|].
  intros Hnd Hin. inversion Hnd as [|? ? Hni Hnd']; subst.
  destruct (Z.eqb_spec i idx) as [->|Hne].
  - rewrite (rows_of_absent idx rs Hni). reflexivity.
  - destruct Hin as [Heq|Hin]; [congruence|]. apply IH; assumption.
Qed.

Lemma loc_unique (df : DataFrame) (idx : RowId) :
  List.NoDup (index df) -> In idx (index df) ->
  Loc.loc idx df = (Return (LocRow (cells_of df idx)), df).
Proof.
  intros Hnd Hin. unfold Loc.loc. rewrite (rows_of_unique df idx Hnd Hin). reflexivity.
Qed.

Lemma failed_rows_loop_runs (df : DataFrame) (history : list CheckResult)
    (ordered : list RowId) :
  List.NoDup (index df) ->
  Forall (fun r => ok r = true -> List.NoDup (fail_idx_of r)) history ->
  incl ordered (index df) ->
  failed_rows_loop (columns df) (build_fail_map history) ordered df
  = (Return (map (view_row df history) ordered), df).
Proof.
  intros Hnd Hh. induction ordered as [|idx ordered IH]; intros Hincl; simpl.
  - reflexivity.
  - unfold bind at 1.
    rewrite (loc_unique df idx Hnd) by (apply Hincl; left; reflexivity).
    unfold bind at 1. simpl. unfold bind at 1.
    rewrite IH by (intros x Hx; apply Hincl; right; exact Hx).
    unfold ret, view_row, annotation.
    fold (entries (build_fail_map history) idx).
    rewrite entries_build_fail_map, (flat_map_added_once history idx Hh).
    reflexivity.
Qed.

Lemma failed_any_incl (df : DataFrame) (history : list CheckResult) :
  incl (failed_any df history) (index df).
Proof. intros x Hx. apply filter_In in Hx. apply Hx. Qed.

(** The combined view is made of the rows that failed some retained rule,
    in the order of the frame. *)
Lemma build_failed_rows_df_runs (df : DataFrame) (history : list CheckResult) :
  List.NoDup (index df) ->
  Forall (fun r => ok r = true -> List.NoDup (fail_idx_of r)) history ->
  exists view,
    build_failed_rows_df history df = (Return view, df)
    /\ out_rows view = map (view_row df history) (failed_any df history).
Proof.
  intros Hnd Hh. unfold build_failed_rows_df.
  destruct (bool_decide (build_fail_map history = ∅)) eqn:E.
  - apply bool_decide_eq_true in E. eexists. split; [reflexivity|].
    rewrite (empty_fail_map df history E). reflexivity.
  - unfold bind at 1. simpl. unfold bind at 1. simpl.
    rewrite ordered_failed_indices_spec. unfold bind.
    rewrite (failed_rows_loop_runs df history _ Hnd Hh (failed_any_incl df history)).
    eexists. split; reflexivity.
Qed.

(* --------------------------------------------------------------------- *)
(* The results a history holds                                           *)
(* --------------------------------------------------------------------- *)

Lemma in_labels_filter {A} (p : RowId * A -> bool) (s : Series A) (i : RowId) :
  In i (map fst (List.filter p s)) -> In i (map fst s).
Proof.
  intros H. apply in_map_iff in H. destruct H as [x [Hx Hin]].
  apply filter_In in Hin. apply in_map_iff. exists x. tauto.
Qed.

Lemma nodup_two_filters {A} (p q : RowId * A -> bool) (s : Series A) :
  (forall x, p x = true -> q x = true -> False) ->
  List.NoDup (map fst s) ->
  List.NoDup (map fst (List.filter p s) ++ map fst (List.filter q s)).
Proof.
  intros Hpq. induction s as [|x s IH]; simpl; intros Hnd; [constructor|].
  inversion Hnd as [|? ? Hni Hnd']; subst.
  destruct (p x) eqn:Hp; destruct (q x) eqn:Hq; simpl.
  - exfalso. eapply Hpq; eassumption.
  - constructor; [|apply IH, Hnd'].
    intros Hin. apply in_app_or in Hin.
    destruct Hin as [Hin|Hin]; apply in_labels_filter in Hin; contradiction.
  - apply (Permutation.Permutation_NoDup (Permutation.Permutation_middle _ _ _)).
    constructor; [|apply IH, Hnd'].
    intros Hin. apply in_app_or in Hin.
    destruct Hin as [Hin|Hin]; apply in_labels_filter in Hin; contradiction.
  - apply IH, Hnd'.
Qed.

Lemma labels_coerced (df : DataFrame) (column : string) :
  In column (columns df) -> map fst (coerced df column) = index df.
Proof.
  intros H. apply existsb_eqb_In, position_member in H. destruct H as [j Hj].
  unfold coerced, index. rewrite Hj, map_map. reflexivity.
Qed.

Section history_facts.
Context {RE : RegexEngine}.

Lemma non_null_fails_filter rx mode (s : Series (option string)) :
  non_null_fails rx mode s
  = List.filter (fun p => negb (is_none (snd p)) && negb (satisfies rx mode (snd p))) s.
Proof.
  unfold non_null_fails, non_null_rows.
  induction s as [|x s IH]; simpl; [reflexivity|].
  destruct (is_none (snd x)); simpl; [exact IH|].
  destruct (satisfies rx mode (snd x)); simpl; rewrite IH; reflexivity.
Qed.

Lemma fields_fail_indices_nodup df rx column pattern mode allow_null flags k :
  In column (columns df) -> List.NoDup (index df) ->
  List.NoDup (fail_indices (fields_of df rx column pattern mode allow_null flags k)).
Proof.
  intros Hcol Hnd. simpl. unfold Pd.labels.
  rewrite <- (labels_coerced df column Hcol) in Hnd.
  rewrite non_null_fails_filter.
  destruct allow_null.
  - rewrite app_nil_r.
    apply (NoDup_app_remove_r _ (map fst (List.filter (fun _ => false) (coerced df column)))).
    apply nodup_two_filters; [intros x _ Hx; discriminate|exact Hnd].
  - apply nodup_two_filters; [|exact Hnd].
    intros x Hp Hq. rewrite Hq in Hp. discriminate.
Qed.

Lemma fields_fail_indices_incl df rx column pattern mode allow_null flags k :
  In column (columns df) ->
  incl (fail_indices (fields_of df rx column pattern mode allow_null flags k)) (index df).
Proof.
  intros Hcol i Hin. simpl in Hin. unfold Pd.labels in Hin.
  rewrite <- (labels_coerced df column Hcol).
  apply in_app_or in Hin. destruct Hin as [Hin|Hin].
  - unfold non_null_fails in Hin. apply in_labels_filter in Hin.
    unfold non_null_rows in Hin. apply in_labels_filter in Hin. exact Hin.
  - destruct allow_null; [contradiction|].
    unfold null_rows in Hin. apply in_labels_filter in Hin. exact Hin.
Qed.

(** What an evaluation on the frame returns: an error, or the fields read
    off the column. *)
Lemma evaluated_on_inv (df : DataFrame) (r : CheckResult) :
  evaluated_on df r ->
  ok r = true ->
  exists rx column pattern mode allow_null flags k,
    In column (columns df)
    /\ r = ResOk (fields_of df rx column pattern mode allow_null flags k).
Proof.
  intros (column & pattern & mode & allow_null & flags & k & H) Hok.
  unfold result_of in H. rewrite check_regex_column_cases in H. simpl in H.
  injection H as H.
  destruct (existsb (String.eqb column) (columns df)) eqn:Hcol;
    [|subst r; discriminate].
  destruct (re_compile pattern (flag_bits flags)) as [rx|e];
    [|subst r; discriminate].
  exists rx, column, pattern, mode, allow_null, flags, k.
  split; [apply existsb_eqb_In, Hcol|congruence].
Qed.

Lemma evaluated_on_nodup (df : DataFrame) (history : list CheckResult) :
  List.NoDup (index df) ->
  Forall (evaluated_on df) history ->
  Forall (fun r => ok r = true -> List.NoDup (fail_idx_of r)) history.
Proof.
  intros Hnd Hh. eapply List.Forall_impl; [|exact Hh].
  intros r Hr Hok.
  destruct (evaluated_on_inv df r Hr Hok)
    as (rx & column & pattern & mode & allow_null & flags & k & Hcol & ->).
  apply fields_fail_indices_nodup; assumption.
Qed.

(** The description of a rule that ran. *)
Lemma evaluated_on_desc (df : DataFrame) (r : CheckResult) :
  evaluated_on df r ->
  forall c, r = ResOk c ->
  issue_desc r
  = (column c ++ " !~ " ++ pattern c
     ++ (if allow_null c then "" else " (NULL not allowed)"))%string.
Proof.
  intros Hr c ->.
  destruct (evaluated_on_inv df _ Hr eq_refl)
    as (rx & column & pattern & mode & allow_null & flags & k & Hcol & [= ->]).
  reflexivity.
Qed.

End history_facts.

(* --------------------------------------------------------------------- *)
(* The rows of the views                                                 *)
(* --------------------------------------------------------------------- *)

Lemma position_existsb (c : string) (cols : list string) (j : nat) :
  Pd.position c cols = Some j -> existsb (String.eqb c) cols = true.
Proof.
  revert j. induction cols as [|x cols IH]; simpl; intros j; [discriminate|].
  destruct (String.eqb c x); [reflexivity|]. simpl.
  destruct (Pd.position c cols) as [j'|]; [|discriminate].
  intros _. eapply IH. reflexivity.
Qed.

Lemma row_cells_fold_lookup (cols l : list string) (cells : list Cell)
    (d : gmap string Cell) (c : string) (j : nat) :
  Pd.position c cols = Some j ->
  fold_left
    (fun d c =>
       match Pd.position c cols with
       | Some j => <[c := _safe_cell (Pd.cell_at j cells)]> d
       | None => d
       end) l d !! c
  = if existsb (String.eqb c) l then Some (_safe_cell (Pd.cell_at j cells)) else d !! c.
Proof.
  intros Hj. revert d. induction l as [|x l IH]; intros d; simpl; [reflexivity|].
  rewrite IH. destruct (existsb (String.eqb c) l); [rewrite orb_true_r; reflexivity|].
  rewrite orb_false_r. destruct (String.eqb_spec c x) as [<-|Hne].
  - rewrite Hj, lookup_insert_eq. reflexivity.
  - destruct (Pd.position x cols); [|reflexivity].
    rewrite lookup_insert_ne by congruence. reflexivity.
Qed.

Lemma row_cells_dict_lookup (cols : list string) (cells : list Cell) (c : string) (j : nat) :
  Pd.position c cols = Some j ->
  row_cells_dict cols cells !! c = Some (_safe_cell (Pd.cell_at j cells)).
Proof.
  intros Hj. unfold row_cells_dict.
  rewrite (row_cells_fold_lookup cols cols cells ∅ c j Hj), (position_existsb c cols j Hj).
  reflexivity.
Qed.

Lemma fails_row_iff (idx : RowId) (r : CheckResult) :
  fails_row idx r = true <-> ok r = true /\ In idx (fail_idx_of r).
Proof.
  unfold fails_row. fold (fail_idx_of r).
  rewrite andb_true_iff, existsb_eqb_In_Z. reflexivity.
Qed.

Lemma failed_any_iff (df : DataFrame) (history : list CheckResult) (idx : RowId) :
  In idx (failed_any df history) <->
  In idx (index df)
  /\ exists r, In r history /\ ok r = true /\ In idx (fail_idx_of r).
Proof.
  unfold failed_any. rewrite filter_In, existsb_exists.
  split; intros [Hi [r [Hr Hf]]]; (split; [exact Hi|]); exists r.
  - apply fails_row_iff in Hf. tauto.
  - split; [exact Hr|]. apply fails_row_iff. exact Hf.
Qed.

Lemma rules_failed_iff (history : list CheckResult) (idx : RowId) (r : CheckResult) :
  In r (rules_failed history idx) <->
  In r history /\ ok r = true /\ In idx (fail_idx_of r).
Proof.
  unfold rules_failed. rewrite filter_In, fails_row_iff. reflexivity.
Qed.

Section combined_view.
Context {RE : RegexEngine}.

(** C3. On a frame with distinct row identifiers and a history of
    results of evaluations on it, the combined view has one row for every
    row of the frame whose identifier is in the fail_indices of some
    retained rule and no other row; these rows come once each and in the
    order of the frame; each carries the cells of its row and, under
    "_dq_issue", the descriptions "<column> !~ <pattern>", with
    " (NULL not allowed)" when allow_null is false, of the rules it
    failed, in history order, joined by " || " after "FAILED: ". *)
Theorem combined_view_rows (df : DataFrame) (history : list CheckResult) :
  List.NoDup (index df) ->
  Forall (evaluated_on df) history ->
  exists view,
    result_of (build_failed_rows_df history) df = Return view
    /\ out_rows view = map (view_row df history) (failed_any df history)
    /\ (forall idx,
          In idx (failed_any df history) <->
          In idx (index df)
          /\ exists r, In r history /\ ok r = true /\ In idx (fail_idx_of r))
    /\ List.NoDup (failed_any df history)
    /\ failed_any df history
       = List.filter (fun idx => existsb (fails_row idx) history) (index df)
    /\ (forall idx,
          view_row df history idx !! "_dq_issue"
          = Some (CStr ("FAILED: "
                        ++ PyStr.join " || " (map issue_desc (rules_failed history idx)))))
    /\ (forall idx r,
          In r (rules_failed history idx) <->
          In r history /\ ok r = true /\ In idx (fail_idx_of r))
    /\ (forall r c,
          In r history -> r = ResOk c ->
          issue_desc r
          = (column c ++ " !~ " ++ pattern c
             ++ (if allow_null c then "" else " (NULL not allowed)"))%string)
    /\ (forall idx c j,
          Pd.position c (columns df) = Some j -> c <> "_dq_issue" ->
          view_row df history idx !! c
          = Some (_safe_cell (Pd.cell_at j (cells_of df idx)))).
Proof.
  intros Hnd Hh.
  destruct (build_failed_rows_df_runs df history Hnd (evaluated_on_nodup df history Hnd Hh))
    as [view [Hrun Hrows]].
  exists view. unfold result_of. rewrite Hrun.
  split; [reflexivity|]. split; [exact Hrows|].
  split; [apply failed_any_iff|].
  split; [apply List.NoDup_filter, Hnd|].
  split; [reflexivity|].
  split; [intros idx; unfold view_row, annotation; apply lookup_insert_eq|].
  split; [apply rules_failed_iff|].
  split.
  - intros r c Hin Hr. rewrite List.Forall_forall in Hh.
    apply (evaluated_on_desc df r (Hh r Hin) c Hr).
  - intros idx c j Hj Hc. unfold view_row.
    rewrite lookup_insert_ne by congruence.
    apply row_cells_dict_lookup, Hj.
Qed.

End combined_view.

(* --------------------------------------------------------------------- *)
(* The fragments of the dashboard                                        *)
(* --------------------------------------------------------------------- *)

Lemma nth_error_numbered {A} (l : list A) (k : Z) (n : nat) (x : A) :
  nth_error l n = Some x -> nth_error (numbered k l) n = Some (k + Z.of_nat n, x).
Proof.
  revert k n. induction l as [|y l IH]; intros k [|n]; simpl; try discriminate.
  - intros [= ->]. rewrite Z.add_0_r. reflexivity.
  - intros H. rewrite (IH (k + 1) n H). do 2 f_equal. lia.
Qed.

Lemma ordered_in_spec (df : DataFrame) (r : CheckResult) :
  ok r = true ->
  ordered_in (index df) (list_to_set (fail_idx_of r)) = failed_rule df r.
Proof.
  intros Hok. unfold ordered_in, failed_rule. apply filter_ext. intros idx.
  unfold fails_row. fold (fail_idx_of r). rewrite Hok. simpl.
  destruct (existsb (Z.eqb idx) (fail_idx_of r)) eqn:E.
  - apply bool_decide_eq_true, elem_of_list_to_set, list_elem_of_In, existsb_eqb_In_Z, E.
  - apply bool_decide_eq_false. intros H.
    apply elem_of_list_to_set, list_elem_of_In, existsb_eqb_In_Z in H. congruence.
Qed.

Lemma failed_rule_incl (df : DataFrame) (r : CheckResult) :
  incl (failed_rule df r) (index df).
Proof. intros x Hx. apply filter_In in Hx. apply Hx. Qed.

Lemma failed_rule_no_fail_idx (df : DataFrame) (r : CheckResult) :
  fail_idx_of r = [] -> failed_rule df r = [].
Proof.
  intros He. unfold failed_rule, fails_row. fold (fail_idx_of r). rewrite He. simpl.
  induction (index df) as [|i l IH]; simpl; [reflexivity|].
  destruct (ok r); exact IH.
Qed.

Lemma loc_list_runs (df : DataFrame) (labels : list RowId) :
  List.NoDup (index df) -> incl labels (index df) ->
  Loc.loc_list labels df
  = (Return {| columns := columns df;
               rows := map (fun idx => (idx, cells_of df idx)) labels |}, df).
Proof.
  intros Hnd Hincl. unfold Loc.loc_list.
  destruct (List.find (fun i => negb (existsb (Z.eqb i) (index df))) labels)
    as [i|] eqn:E.
  - apply find_some in E. destruct E as [Hin Hb].
    apply negb_true_iff in Hb.
    pose proof (proj2 (existsb_eqb_In_Z i (index df)) (Hincl i Hin)). congruence.
  - do 3 f_equal. clear E.
    induction labels as [|i labels IH]; simpl; [reflexivity|].
    rewrite (rows_of_unique df i Hnd) by (apply Hincl; left; reflexivity).
    simpl. f_equal. apply IH. intros x Hx. apply Hincl. right. exact Hx.
Qed.

Lemma index_set_column (name : string) (v : Cell) (frame : DataFrame) :
  index (Loc.set_column name v frame) = index frame.
Proof.
  unfold Loc.set_column, index.
  destruct (Pd.position name (columns frame)); simpl; rewrite map_map; reflexivity.
Qed.

Lemma index_rule_table (df : DataFrame) (r : CheckResult) :
  index (rule_table df r) = failed_rule df r.
Proof.
  unfold rule_table. rewrite index_set_column. unfold index. simpl.
  rewrite map_map. simpl. apply map_id.
Qed.

Lemma render_rule_table (df : DataFrame) (r : CheckResult) :
  failed_rule df r <> [] ->
  _render_failed_rows_for_check (rule_table df r) = FailedTable (rule_table df r).
Proof.
  intros Hne. unfold _render_failed_rows_for_check.
  destruct (rows (rule_table df r)) eqn:E; [|reflexivity].
  exfalso. apply Hne. rewrite <- index_rule_table. unfold index. rewrite E. reflexivity.
Qed.

Lemma check_fragment_runs (df : DataFrame) (r : CheckResult) :
  List.NoDup (index df) ->
  check_fragment r df = (Return (fragment_of df r), df).
Proof.
  intros Hnd. unfold check_fragment, fragment_of.
  destruct (ok r) eqn:Hok; simpl; [|reflexivity].
  fold (fail_idx_of r).
  destruct (fail_idx_of r) as [|i l] eqn:Hfi.
  - rewrite (failed_rule_no_fail_idx df r Hfi). reflexivity.
  - rewrite <- Hfi. unfold bind at 1. simpl.
    rewrite (ordered_in_spec df r Hok).
    destruct (failed_rule df r) as [|j ids] eqn:Hids; [reflexivity|].
    rewrite <- Hids. unfold bind.
    rewrite (loc_list_runs df _ Hnd (failed_rule_incl df r)).
    fold (rule_table df r). unfold ret.
    rewrite render_rule_table by (rewrite Hids; discriminate).
    reflexivity.
Qed.

Lemma check_failed_html_from_runs (df : DataFrame) (history : list CheckResult) (k : Z) :
  List.NoDup (index df) ->
  check_failed_html_from k history df
  = (Return (numbered k (map (fragment_of df) history)), df).
Proof.
  intros Hnd. revert k. induction history as [|r history IH]; intros k; simpl.
  - reflexivity.
  - unfold bind at 1. rewrite (check_fragment_runs df r Hnd).
    unfold bind. rewrite IH. reflexivity.
Qed.

Lemma filter_implied {A} (p q : A -> bool) (l : list A) :
  (forall x, p x = true -> q x = true) ->
  List.filter p (List.filter q l) = List.filter p l.
Proof.
  intros Hpq. induction l as [|x l IH]; simpl; [reflexivity|].
  destruct (q x) eqn:Hq; simpl.
  - rewrite IH. reflexivity.
  - destruct (p x) eqn:Hp; [|exact IH].
    apply Hpq in Hp. congruence.
Qed.

Section per_rule_view.
Context {RE : RegexEngine}.

(** C7. On a frame with distinct row identifiers and a history of
    results of evaluations on it, for every retained rule of the history
    the fragment of the dashboard under its check number shows the rows
    of the frame whose identifiers are in its fail_indices, in the order
    of the frame, and the rows of the combined view that this rule failed
    are the same rows in the same order. *)
Theorem views_agree (df : DataFrame) (history : list CheckResult)
    (n : nat) (r : CheckResult) :
  List.NoDup (index df) ->
  Forall (evaluated_on df) history ->
  nth_error history n = Some r ->
  ok r = true ->
  exists view frags frag,
    result_of (build_failed_rows_df history) df = Return view
    /\ result_of (check_failed_html history) df = Return frags
    /\ nth_error frags n = Some (Z.of_nat n + 1, frag)
    /\ out_rows view = map (view_row df history) (failed_any df history)
    /\ fragment_index frag = failed_rule df r
    /\ (failed_rule df r <> [] -> frag = FailedTable (rule_table df r))
    /\ List.filter (fun idx => fails_row idx r) (failed_any df history)
       = failed_rule df r
    /\ (forall idx,
          In idx (failed_rule df r) <-> In idx (index df) /\ In idx (fail_idx_of r)).
Proof.
  intros Hnd Hh Hn Hok.
  destruct (build_failed_rows_df_runs df history Hnd (evaluated_on_nodup df history Hnd Hh))
    as [view [Hrun Hrows]].
  exists view, (numbered 1 (map (fragment_of df) history)), (fragment_of df r).
  unfold result_of, check_failed_html.
  rewrite Hrun, (check_failed_html_from_runs df history 1 Hnd).
  split; [reflexivity|]. split; [reflexivity|].
  split.
  { rewrite (nth_error_numbered _ 1 n (fragment_of df r)).
    - do 2 f_equal. lia.
    - rewrite nth_error_map, Hn. reflexivity. }
  split; [exact Hrows|].
  split.
  { unfold fragment_of. rewrite Hok. simpl.
    destruct (failed_rule df r) eqn:E; [reflexivity|].
    rewrite <- E. apply index_rule_table. }
  split.
  { intros Hne. unfold fragment_of. rewrite Hok. simpl.
    destruct (failed_rule df r); [contradiction|reflexivity]. }
  split.
  { unfold failed_any, failed_rule. apply filter_implied.
    intros idx Hf. apply existsb_exists. exists r.
    split; [eapply nth_error_In; exact Hn|exact Hf]. }
  intros idx. unfold failed_rule. rewrite filter_In, fails_row_iff. tauto.
Qed.

End per_rule_view.


(* --------------------------------------------------------------------- *)
(* _html_escape                                                          *)
(* --------------------------------------------------------------------- *)

Lemma str_app_cons (a : ascii) (s t : string) :
  (String a s ++ t = String a (s ++ t))%string.
Proof. reflexivity. Qed.

Lemma str_app_nil_l (t : string) : ("" ++ t = t)%string.
Proof. reflexivity. Qed.

Lemma str_app_assoc (s t u : string) : ((s ++ t) ++ u = s ++ (t ++ u))%string.
Proof.
  induction s as [|a s IH]; [reflexivity|].
  rewrite !str_app_cons, IH. reflexivity.
Qed.

Lemma str_app_nil_r (s : string) : (s ++ "" = s)%string.
Proof.
  induction s as [|a s IH]; [reflexivity|].
  rewrite str_app_cons, IH. reflexivity.
Qed.

Lemma replace_char_app (old : ascii) (new s t : string) :
  PyText.replace_char old new (s ++ t)
  = (PyText.replace_char old new s ++ PyText.replace_char old new t)%string.
Proof.
  induction s as [|a s IH]; [reflexivity|].
  rewrite str_app_cons. simpl.
  destruct (Ascii.eqb a old); rewrite IH.
  - rewrite str_app_assoc. reflexivity.
  - reflexivity.
Qed.

Lemma html_entity_cases (a : ascii) :
  (a = "&"%char /\ html_entity a = "&amp;")
  \/ (a = "<"%char /\ html_entity a = "&lt;")
  \/ (a = ">"%char /\ html_entity a = "&gt;")
  \/ (a = dquote /\ html_entity a = "&quot;")
  \/ (a = "'"%char /\ html_entity a = "&#39;")
  \/ (a <> "&"%char /\ a <> "<"%char /\ a <> ">"%char /\ a <> dquote
      /\ a <> "'"%char /\ html_entity a = String a EmptyString).
Proof.
  unfold html_entity.
  destruct (Ascii.eqb_spec a "&"); [subst; auto|].
  destruct (Ascii.eqb_spec a "<"); [subst; auto 6|].
  destruct (Ascii.eqb_spec a ">"); [subst; auto 6|].
  destruct (Ascii.eqb_spec a dquote); [subst; auto 6|].
  destruct (Ascii.eqb_spec a "'"); [subst; auto 8|].
  do 5 right. auto 8.
Qed.

(** The five replacements in a row write, for every character, its entity. *)
Lemma html_escape_entities (s : string) :
  _html_escape (Some s) = html_entities s.
Proof.
  unfold _html_escape.
  induction s as [|a s IH]; [reflexivity|].
  simpl html_entities. rewrite <- IH. clear IH.
  change (String a s) with (String a EmptyString ++ s)%string.
  rewrite !replace_char_app. f_equal.
  destruct (html_entity_cases a)
    as [[-> ->]|[[-> ->]|[[-> ->]|[[-> ->]|[[-> ->]|(H1 & H2 & H3 & H4 & H5 & ->)]]]]];
    try reflexivity.
  simpl.
  repeat match goal with
  | |- context [Ascii.eqb a ?c] =>
      destruct (Ascii.eqb_spec a c); [congruence|]; simpl
  end.
  reflexivity.
Qed.

(** X1. Reading the entities back gives the text that was escaped: the
    escaping loses nothing, and two texts with the same escaped form are
    the same text. *)
Theorem html_escape_round_trip (s : string) :
  html_unescape (_html_escape (Some s)) = s
  /\ forall t, _html_escape (Some t) = _html_escape (Some s) -> t = s.
Proof.
  assert (Hrt : forall s, html_unescape (_html_escape (Some s)) = s).
  { intros u. rewrite html_escape_entities.
    induction u as [|a u IH]; [reflexivity|].
    simpl html_entities.
    destruct (html_entity_cases a)
      as [[-> ->]|[[-> ->]|[[-> ->]|[[-> ->]|[[-> ->]|(H1 & H2 & H3 & H4 & H5 & ->)]]]]];
      unfold String.append; simpl; fold html_entities;
      try (rewrite IH; reflexivity).
    destruct (Ascii.eqb_spec a "&"); [congruence|].
    rewrite IH. reflexivity. }
  split; [apply Hrt|].
  intros t Ht. rewrite <- (Hrt t), Ht. apply Hrt.
Qed.

Lemma chars_app (s t : string) : chars (s ++ t) = chars s ++ chars t.
Proof.
  unfold chars. induction s as [|a s IH]; [reflexivity|].
  rewrite str_app_cons. simpl. rewrite IH. reflexivity.
Qed.

(** X2. The escaped text holds none of the characters <, >, double quote
    and single quote, whatever the text; None is escaped to the empty
    text. *)
Theorem html_escape_no_markup (o : option string) :
  Forall (fun a => a <> "<"%char /\ a <> ">"%char /\ a <> dquote /\ a <> "'"%char)
         (chars (_html_escape o))
  /\ _html_escape None = "".
Proof.
  split; [|reflexivity].
  destruct o as [s|]; [|apply List.Forall_nil].
  rewrite html_escape_entities.
  induction s as [|a s IH]; [apply List.Forall_nil|].
  simpl html_entities. rewrite chars_app. apply Forall_app. split; [|exact IH].
  destruct (html_entity_cases a)
    as [[-> ->]|[[-> ->]|[[-> ->]|[[-> ->]|[[-> ->]|(H1 & H2 & H3 & H4 & H5 & ->)]]]]];
    try (repeat constructor; discriminate).
  repeat constructor; assumption.
Qed.

(* --------------------------------------------------------------------- *)
(* Case and white space                                                  *)
(* --------------------------------------------------------------------- *)

Ltac all_chars a := destruct a as [[] [] [] [] [] [] [] []]; reflexivity.

Lemma is_space_upper (a : ascii) : PyStr.is_space (PyStr.upper_char a) = PyStr.is_space a.
Proof. all_chars a. Qed.

Lemma is_space_lower (a : ascii) : PyStr.is_space (PyStr.lower_char a) = PyStr.is_space a.
Proof. all_chars a. Qed.

Lemma upper_upper_char (a : ascii) :
  PyStr.upper_char (PyStr.upper_char a) = PyStr.upper_char a.
Proof. all_chars a. Qed.

Lemma lower_upper_char (a : ascii) :
  PyStr.lower_char (PyStr.upper_char a) = PyStr.lower_char a.
Proof. all_chars a. Qed.

Lemma upper_lower_char (a : ascii) :
  PyStr.upper_char (PyStr.lower_char a) = PyStr.upper_char a.
Proof. all_chars a. Qed.

Lemma lower_lower_char (a : ascii) :
  PyStr.lower_char (PyStr.lower_char a) = PyStr.lower_char a.
Proof. all_chars a. Qed.

Lemma map_chars_map_chars (f g : ascii -> ascii) (s : string) :
  PyStr.map_chars f (PyStr.map_chars g s) = PyStr.map_chars (fun a => f (g a)) s.
Proof. induction s as [|a s IH]; simpl; [reflexivity|]. rewrite IH. reflexivity. Qed.

Lemma map_chars_ext (f g : ascii -> ascii) (s : string) :
  (forall a, f a = g a) -> PyStr.map_chars f s = PyStr.map_chars g s.
Proof.
  intros H. induction s as [|a s IH]; simpl; [reflexivity|]. rewrite IH, H. reflexivity.
Qed.

Lemma lstrip_map_chars (f : ascii -> ascii) (s : string) :
  (forall a, PyStr.is_space (f a) = PyStr.is_space a) ->
  PyStr.lstrip (PyStr.map_chars f s) = PyStr.map_chars f (PyStr.lstrip s).
Proof.
  intros H. induction s as [|a s IH]; simpl; [reflexivity|].
  rewrite H. destruct (PyStr.is_space a); [exact IH|reflexivity].
Qed.

Lemma rstrip_map_chars (f : ascii -> ascii) (s : string) :
  (forall a, PyStr.is_space (f a) = PyStr.is_space a) ->
  PyStr.rstrip (PyStr.map_chars f s) = PyStr.map_chars f (PyStr.rstrip s).
Proof.
  intros H. induction s as [|a s IH]; simpl; [reflexivity|].
  rewrite IH, H.
  destruct (PyStr.rstrip s); simpl; [destruct (PyStr.is_space a)|]; reflexivity.
Qed.

Lemma strip_map_chars (f : ascii -> ascii) (s : string) :
  (forall a, PyStr.is_space (f a) = PyStr.is_space a) ->
  PyStr.strip (PyStr.map_chars f s) = PyStr.map_chars f (PyStr.strip s).
Proof.
  intros H. unfold PyStr.strip.
  rewrite lstrip_map_chars, rstrip_map_chars by exact H. reflexivity.
Qed.

Lemma lower_strip_upper (x : string) :
  PyStr.lower (PyStr.strip (PyStr.upper x)) = PyStr.lower (PyStr.strip x).
Proof.
  unfold PyStr.lower, PyStr.upper.
  rewrite strip_map_chars by exact is_space_upper.
  rewrite map_chars_map_chars. apply map_chars_ext, lower_upper_char.
Qed.

Lemma lower_strip_lower (x : string) :
  PyStr.lower (PyStr.strip (PyStr.lower x)) = PyStr.lower (PyStr.strip x).
Proof.
  unfold PyStr.lower.
  rewrite strip_map_chars by exact is_space_lower.
  rewrite map_chars_map_chars. apply map_chars_ext, lower_lower_char.
Qed.

Lemma normalize_mode_range (x : string) :
  _normalize_mode x = "fullmatch" \/ _normalize_mode x = "search".
Proof.
  unfold _normalize_mode.
  destruct (String.eqb _ ""); [left; reflexivity|].
  destruct (existsb _ _); [left; reflexivity|].
  destruct (existsb _ _); [right|left]; reflexivity.
Qed.

(** X3. The mode and the null policy of a rule statement are read without
    regard to the case of ASCII letters: a keyword in upper or lower case is read as the keyword
    itself; and the mode read is always fullmatch or search, and reading it
    again changes nothing. *)
Theorem keywords_ignore_case (x : string) :
  _normalize_mode (PyStr.upper x) = _normalize_mode x
  /\ _normalize_mode (PyStr.lower x) = _normalize_mode x
  /\ _parse_allow_null (PyStr.upper x) = _parse_allow_null x
  /\ _parse_allow_null (PyStr.lower x) = _parse_allow_null x
  /\ (_normalize_mode x = "fullmatch" \/ _normalize_mode x = "search")
  /\ _normalize_mode (_normalize_mode x) = _normalize_mode x.
Proof.
  unfold _normalize_mode, _parse_allow_null.
  rewrite !lower_strip_upper, !lower_strip_lower.
  repeat split.
  - destruct (String.eqb _ ""); [left; reflexivity|].
    destruct (existsb _ _); [left; reflexivity|].
    destruct (existsb _ _); [right|left]; reflexivity.
  - destruct (String.eqb (PyStr.lower (PyStr.strip x)) ""); [reflexivity|].
    destruct (existsb _ _); [reflexivity|].
    destruct (existsb _ _); reflexivity.
Qed.

(* --------------------------------------------------------------------- *)
(* The flag bitmask                                                      *)
(* --------------------------------------------------------------------- *)

Lemma flag_bits_fold (l : list string) (f0 : Z) :
  fold_left
    (fun f x =>
       let x := PyStr.upper (PyStr.strip x) in
       match flag_lookup x _FLAG_MAP with
       | Some b => Z.lor f b
       | None => f
       end) l f0
  = fold_left (fun f x => Z.lor f (flag_value x)) l f0.
Proof.
  revert f0. induction l as [|x l IH]; intros f0; [reflexivity|].
  cbn [fold_left]. rewrite IH. f_equal. unfold flag_value. cbv zeta.
  destruct (flag_lookup _ _); cbn [default]; [reflexivity|].
  rewrite Z.lor_0_r. reflexivity.
Qed.

Lemma testbit_fold_lor (l : list string) (f0 : Z) (n : Z) :
  Z.testbit (fold_left (fun f x => Z.lor f (flag_value x)) l f0) n
  = Z.testbit f0 n || existsb (fun x => Z.testbit (flag_value x) n) l.
Proof.
  revert f0. induction l as [|x l IH]; intros f0; cbn [fold_left existsb].
  - rewrite orb_false_r. reflexivity.
  - rewrite IH, Z.lor_spec, orb_assoc. reflexivity.
Qed.

Lemma testbit_flag_bits (l : list string) (n : Z) :
  Z.testbit (flag_bits (Some l)) n = existsb (fun x => Z.testbit (flag_value x) n) l.
Proof.
  unfold flag_bits. cbn [or_empty]. rewrite flag_bits_fold, testbit_fold_lor.
  rewrite Z.testbit_0_l. reflexivity.
Qed.

(** X4. The bitmask handed to re.compile depends on which tokens are given,
    not on their order or on how often each is given. *)
Theorem flag_bits_same_tokens (l l' : list string) :
  (forall x, In x l <-> In x l') ->
  flag_bits (Some l) = flag_bits (Some l').
Proof.
  intros H. apply Z.bits_inj. intros n.
  rewrite !testbit_flag_bits.
  destruct (existsb _ l') eqn:E.
  - apply existsb_exists in E. destruct E as [x [Hx Hb]].
    apply existsb_exists. exists x. split; [apply H, Hx|exact Hb].
  - destruct (existsb _ l) eqn:E'; [|reflexivity].
    apply existsb_exists in E'. destruct E' as [x [Hx Hb]].
    assert (existsb (fun x => Z.testbit (flag_value x) n) l' = true) as E2.
    { apply existsb_exists. exists x. split; [apply H, Hx|exact Hb]. }
    congruence.
Qed.

Lemma flag_value_within (x : string) : Z.lor (flag_value x) all_flags = all_flags.
Proof.
  unfold flag_value.
  assert (H : forall k m, Forall (fun p => Z.lor (snd p) all_flags = all_flags) m ->
             Z.lor (default 0 (flag_lookup k m)) all_flags = all_flags).
  { intros k m. induction 1 as [|[k' v] m Hv _ IH]; cbn [flag_lookup]; [reflexivity|].
    destruct (String.eqb k k'); [exact Hv|exact IH]. }
  apply H. repeat constructor.
Qed.

(** X5. Tokens that name no flag add nothing to the bitmask, no flags at
    all give 0, and the bitmask never holds a bit outside the five flags
    of the table. *)
Theorem flag_bits_known_only (flags : option (list string)) :
  flag_bits (Some (List.filter known_flag (or_empty flags))) = flag_bits flags
  /\ flag_bits None = 0
  /\ Z.lor (flag_bits flags) all_flags = all_flags
  /\ 0 <= flag_bits flags.
Proof.
  assert (Hsome : flag_bits flags = flag_bits (Some (or_empty flags))) by reflexivity.
  rewrite Hsome. generalize (or_empty flags) as l. clear. intros l.
  split; [|split; [reflexivity|]].
  - apply Z.bits_inj. intros n. rewrite !testbit_flag_bits.
    induction l as [|x l IH]; [reflexivity|].
    cbn [List.filter existsb]. unfold known_flag at 1.
    destruct (flag_lookup _ _) eqn:E.
    + cbn [existsb]. rewrite IH. reflexivity.
    + rewrite IH. unfold flag_value at 2. rewrite E. cbn [default].
      rewrite Z.testbit_0_l. reflexivity.
  - unfold flag_bits. cbn [or_empty]. rewrite flag_bits_fold.
    assert (H : forall f0, Z.lor f0 all_flags = all_flags -> 0 <= f0 ->
               Z.lor (fold_left (fun f x => Z.lor f (flag_value x)) l f0) all_flags
               = all_flags
               /\ 0 <= fold_left (fun f x => Z.lor f (flag_value x)) l f0).
    { induction l as [|x l IH]; intros f0 Hf Hpos; cbn [fold_left];
        [split; assumption|].
      apply IH.
      - rewrite <- Z.lor_assoc, flag_value_within. exact Hf.
      - apply Z.lor_nonneg. split; [exact Hpos|].
        pose proof (flag_value_within x) as Hx.
        destruct (Z.neg_nonneg_cases (flag_value x)) as [Hneg|Hok]; [|exact Hok].
        exfalso.
        assert (Z.lor (flag_value x) all_flags < 0) as Hlt
          by (apply Z.lor_neg; left; exact Hneg).
        rewrite Hx in Hlt. vm_compute in Hlt. discriminate. }
    apply H; [reflexivity|lia].
Qed.

(* --------------------------------------------------------------------- *)
(* Splitting at separators                                               *)
(* --------------------------------------------------------------------- *)

Lemma chars_snoc (s : string) (a : ascii) :
  chars (s ++ String a EmptyString) = chars s ++ [a].
Proof. rewrite chars_app. reflexivity. Qed.

Lemma snoc_not_empty (s : string) (a : ascii) : (s ++ String a EmptyString)%string <> "".
Proof. destruct s; discriminate. Qed.

Lemma split_from_tokens (p : ascii -> bool) (s cur : string) :
  free_of p cur ->
  Forall (fun t => t <> "" /\ free_of p t) (PyText.split_from p cur s).
Proof.
  revert cur. induction s as [|a s IH]; intros cur Hcur; simpl.
  - destruct cur; [apply List.Forall_nil|].
    apply List.Forall_cons; [split; [discriminate|exact Hcur]|apply List.Forall_nil].
  - destruct (p a) eqn:Hp.
    + assert (Hnil : free_of p "") by apply List.Forall_nil.
      destruct cur; [apply IH, Hnil|].
      apply List.Forall_cons; [split; [discriminate|exact Hcur]|apply IH, Hnil].
    + apply IH. unfold free_of. rewrite chars_snoc. apply Forall_app.
      split; [exact Hcur|]. apply List.Forall_cons; [exact Hp|apply List.Forall_nil].
Qed.

Lemma split_by_tokens (p : ascii -> bool) (s : string) :
  Forall (fun t => t <> "" /\ free_of p t) (PyText.split_by p s).
Proof. apply split_from_tokens, List.Forall_nil. Qed.

(** Cutting a text whose characters were renamed is cutting the text, when
    the renaming keeps what is cut at. *)
Lemma split_from_renamed (p q : ascii -> bool) (g : ascii -> ascii) (s cur : string) :
  (forall a, p (g a) = q a) ->
  (forall a, q a = false -> g a = a) ->
  PyText.split_from p cur (PyStr.map_chars g s) = PyText.split_from q cur s.
Proof.
  intros Hp Hg. revert cur. induction s as [|a s IH]; intros cur; simpl; [reflexivity|].
  rewrite Hp. destruct (q a) eqn:Hq.
  - rewrite !IH. reflexivity.
  - rewrite (Hg a Hq). apply IH.
Qed.

Lemma map_chars_snoc (f : ascii -> ascii) (s : string) (a : ascii) :
  PyStr.map_chars f (s ++ String a EmptyString)
  = (PyStr.map_chars f s ++ String (f a) EmptyString)%string.
Proof.
  induction s as [|b s IH]; [reflexivity|].
  rewrite str_app_cons. simpl. rewrite IH. reflexivity.
Qed.

Lemma split_from_map_chars (p : ascii -> bool) (f : ascii -> ascii) (s cur : string) :
  (forall a, p (f a) = p a) ->
  PyText.split_from p (PyStr.map_chars f cur) (PyStr.map_chars f s)
  = map (PyStr.map_chars f) (PyText.split_from p cur s).
Proof.
  intros Hp. revert cur. induction s as [|a s IH]; intros cur; simpl.
  - destruct cur; reflexivity.
  - rewrite Hp. destruct (p a).
    + destruct cur; simpl; [apply (IH "")|]. f_equal. apply (IH "").
    + rewrite <- IH, map_chars_snoc. reflexivity.
Qed.

Lemma split_from_lstrip (p : ascii -> bool) (s : string) :
  (forall a, PyStr.is_space a = true -> p a = true) ->
  PyText.split_from p "" (PyStr.lstrip s) = PyText.split_from p "" s.
Proof.
  intros Hp. induction s as [|a s IH]; simpl; [reflexivity|].
  destruct (PyStr.is_space a) eqn:Hs; [|reflexivity].
  rewrite (Hp a Hs). exact IH.
Qed.

Lemma split_from_rstrip (p : ascii -> bool) (s cur : string) :
  (forall a, PyStr.is_space a = true -> p a = true) ->
  PyText.split_from p cur (PyStr.rstrip s) = PyText.split_from p cur s.
Proof.
  intros Hp. revert cur. induction s as [|a s IH]; intros cur; simpl; [reflexivity|].
  destruct (PyStr.rstrip s) as [|b t] eqn:Hr.
  - destruct (PyStr.is_space a) eqn:Hs.
    + rewrite (Hp a Hs). rewrite <- !IH. simpl. destruct cur; reflexivity.
    + simpl. destruct (p a); rewrite <- !IH; reflexivity.
  - simpl. destruct (p a); rewrite <- !IH; reflexivity.
Qed.

Lemma split_by_strip (p : ascii -> bool) (s : string) :
  (forall a, PyStr.is_space a = true -> p a = true) ->
  PyText.split_by p (PyStr.strip s) = PyText.split_by p s.
Proof.
  intros Hp. unfold PyText.split_by, PyStr.strip.
  rewrite split_from_rstrip, split_from_lstrip by exact Hp. reflexivity.
Qed.

Lemma replace_char_one (old c : ascii) (s : string) :
  PyText.replace_char old (String c EmptyString) s
  = PyStr.map_chars (fun a => if Ascii.eqb a old then c else a) s.
Proof.
  induction s as [|a s IH]; simpl; [reflexivity|].
  rewrite IH. destruct (Ascii.eqb a old); reflexivity.
Qed.

Lemma lstrip_free (t : string) : free_of PyStr.is_space t -> PyStr.lstrip t = t.
Proof.
  destruct t as [|a t]; [reflexivity|]. intros H. inversion H as [|? ? Ha _]; subst.
  simpl. rewrite Ha. reflexivity.
Qed.

Lemma rstrip_free (t : string) : free_of PyStr.is_space t -> PyStr.rstrip t = t.
Proof.
  induction t as [|a t IH]; [reflexivity|]. intros H. inversion H as [|? ? Ha Ht]; subst.
  simpl. rewrite (IH Ht), Ha. destruct t; reflexivity.
Qed.

Lemma strip_free (t : string) : free_of PyStr.is_space t -> PyStr.strip t = t.
Proof.
  intros H. unfold PyStr.strip. rewrite (lstrip_free t H). apply rstrip_free, H.
Qed.

(* --------------------------------------------------------------------- *)
(* _parse_flags                                                          *)
(* --------------------------------------------------------------------- *)

Lemma parse_flags_step_pair (out : list string) (seen : gset string) (x : string) :
  parse_flags_step (out, seen) x
  = if bool_decide (x ∈ seen) then (out, seen) else (out ++ [x], {[x]} ∪ seen).
Proof. reflexivity. Qed.

Lemma parse_flags_fold (l out : list string) (seen : gset string) :
  (forall t, t ∈ seen <-> In t out) ->
  List.NoDup out ->
  List.NoDup (fst (fold_left parse_flags_step l (out, seen)))
  /\ (forall t, In t (fst (fold_left parse_flags_step l (out, seen)))
                <-> In t out \/ In t l)
  /\ (forall t, t ∈ snd (fold_left parse_flags_step l (out, seen))
                <-> In t (fst (fold_left parse_flags_step l (out, seen)))).
Proof.
  revert out seen. induction l as [|x l IH]; intros out seen Hseen Hnd; cbn [fold_left].
  - split; [exact Hnd|]. split; [intros t; simpl; tauto|exact Hseen].
  - rewrite parse_flags_step_pair.
    destruct (bool_decide (x ∈ seen)) eqn:E.
    + apply bool_decide_eq_true in E. apply Hseen in E.
      destruct (IH out seen Hseen Hnd) as (H1 & H2 & H3).
      split; [exact H1|]. split; [|exact H3].
      intros t. rewrite H2. simpl. split; [tauto|].
      intros [H|[<-|H]]; tauto.
    + apply bool_decide_eq_false in E.
      assert (Hx : ~ In x out) by (intros H; apply E, Hseen, H).
      destruct (IH (out ++ [x]) ({[x]} ∪ seen)) as (H1 & H2 & H3).
      * intros t. rewrite elem_of_union, elem_of_singleton, Hseen, in_app_iff.
        simpl. split; [intros [->|H]|intros [H|[->|[]]]]; tauto.
      * apply List.NoDup_app; [exact Hnd|repeat constructor; intros []|].
        intros a Ha [<-|[]]. contradiction.
      * split; [exact H1|]. split; [|exact H3].
        intros t. rewrite H2, in_app_iff. simpl. tauto.
Qed.

Lemma first_occurrences_facts (l : list string) :
  List.NoDup (first_occurrences l)
  /\ (forall t, In t (first_occurrences l) <-> In t l)
  /\ (forall t, t ∈ snd (fold_left parse_flags_step l ([], ∅))
                <-> In t (first_occurrences l)).
Proof.
  destruct (parse_flags_fold l [] ∅) as (H1 & H2 & H3).
  - intros t. rewrite elem_of_empty. simpl. tauto.
  - constructor.
  - split; [exact H1|]. split; [|exact H3].
    intros t. unfold first_occurrences. rewrite H2. simpl. tauto.
Qed.

(** A token after others comes last when it is new, and is dropped when it
    was given before. *)
Lemma first_occurrences_snoc (l : list string) (t : string) :
  first_occurrences (l ++ [t])
  = if existsb (String.eqb t) l then first_occurrences l else first_occurrences l ++ [t].
Proof.
  unfold first_occurrences. rewrite fold_left_app. simpl.
  destruct (first_occurrences_facts l) as (_ & H2 & H3).
  unfold parse_flags_step at 1.
  destruct (existsb (String.eqb t) l) eqn:E.
  - apply existsb_eqb_In in E. rewrite bool_decide_eq_true_2; [reflexivity|].
    apply H3, H2, E.
  - apply existsb_eqb_not_In in E. rewrite bool_decide_eq_false_2; [reflexivity|].
    intros H. apply E, H2, H3, H.
Qed.

Lemma is_sep_space (a : ascii) : PyStr.is_space a = true -> is_sep a = true.
Proof. unfold is_sep. intros ->. reflexivity. Qed.

Lemma is_sep_upper (a : ascii) : is_sep (PyStr.upper_char a) = is_sep a.
Proof. all_chars a. Qed.

Lemma is_sep_lower (a : ascii) : is_sep (PyStr.lower_char a) = is_sep a.
Proof. all_chars a. Qed.

Lemma free_of_sep_space (t : string) : free_of is_sep t -> free_of PyStr.is_space t.
Proof.
  unfold free_of. apply List.Forall_impl. intros a H.
  unfold is_sep in H. apply orb_false_iff in H. apply H.
Qed.

Lemma split_ws_comma (s : string) :
  PyText.split_ws (PyText.replace_char ","%char " " s) = PyText.split_by is_sep s.
Proof.
  unfold PyText.split_ws, PyText.split_by. rewrite replace_char_one.
  apply split_from_renamed.
  - intros a. unfold is_sep.
    destruct (Ascii.eqb a ","); [rewrite orb_true_r|rewrite orb_false_r]; reflexivity.
  - intros a H. unfold is_sep in H. apply orb_false_iff in H. destruct H as [_ ->].
    reflexivity.
Qed.

(** The words of a flags segment, before the loop that drops repeats. *)
Lemma parse_flags_words (s : string) :
  _parse_flags s = first_occurrences (map PyStr.upper (PyText.split_by is_sep s)).
Proof.
  unfold _parse_flags.
  destruct (String.eqb_spec (PyStr.strip s) "") as [He|Hne].
  - rewrite <- (split_by_strip is_sep s is_sep_space), He. reflexivity.
  - rewrite split_ws_comma, (split_by_strip is_sep s is_sep_space).
    fold (first_occurrences
            (map (fun t => PyStr.upper (PyStr.strip t))
               (List.filter (fun t => negb (String.eqb (PyStr.strip t) ""))
                  (PyText.split_by is_sep s)))).
    f_equal.
    pose proof (split_by_tokens is_sep s) as Htok.
    induction Htok as [|t l [Ht Hf] _ IH]; [reflexivity|].
    simpl. rewrite (strip_free t (free_of_sep_space t Hf)).
    destruct (String.eqb_spec t ""); [contradiction|]. simpl.
    rewrite (strip_free t (free_of_sep_space t Hf)), IH. reflexivity.
Qed.

Lemma upper_not_empty (t : string) : t <> "" -> PyStr.upper t <> "".
Proof. destruct t; [contradiction|discriminate]. Qed.

Lemma free_of_upper (t : string) : free_of is_sep t -> free_of is_sep (PyStr.upper t).
Proof.
  unfold free_of, chars. induction t as [|a t IH]; simpl; [intros _; constructor|].
  intros H. inversion H as [|? ? Ha Ht]; subst.
  constructor; [rewrite is_sep_upper; exact Ha|apply IH, Ht].
Qed.

Lemma upper_upper (t : string) : PyStr.upper (PyStr.upper t) = PyStr.upper t.
Proof.
  unfold PyStr.upper. rewrite map_chars_map_chars. apply map_chars_ext, upper_upper_char.
Qed.

Lemma map_strip_upper_fixed (l : list string) :
  Forall (fun t => t <> "" /\ free_of is_sep t /\ PyStr.upper t = t) l ->
  map (fun x => PyStr.upper (PyStr.strip x)) l = l.
Proof.
  induction 1 as [|t l (_ & Hf & Hu) _ IH]; [reflexivity|].
  simpl. rewrite (strip_free t (free_of_sep_space t Hf)), Hu, IH. reflexivity.
Qed.

Lemma parse_flags_facts (s : string) :
  List.NoDup (_parse_flags s)
  /\ (forall t, In t (_parse_flags s)
                <-> In t (map PyStr.upper (PyText.split_by is_sep s)))
  /\ Forall (fun t => t <> "" /\ free_of is_sep t /\ PyStr.upper t = t) (_parse_flags s)
  /\ map (fun x => PyStr.upper (PyStr.strip x)) (_parse_flags s) = _parse_flags s.
Proof.
  rewrite parse_flags_words.
  destruct (first_occurrences_facts (map PyStr.upper (PyText.split_by is_sep s)))
    as (H1 & H2 & _).
  assert (H3 : Forall (fun t => t <> "" /\ free_of is_sep t /\ PyStr.upper t = t)
                 (first_occurrences (map PyStr.upper (PyText.split_by is_sep s)))).
  { apply List.Forall_forall. intros t Ht. apply H2, in_map_iff in Ht.
    destruct Ht as [w [<- Hw]].
    pose proof (split_by_tokens is_sep s) as Htok.
    rewrite List.Forall_forall in Htok. destruct (Htok w Hw) as [Hne Hf].
    split; [apply upper_not_empty, Hne|].
    split; [apply free_of_upper, Hf|apply upper_upper]. }
  split; [exact H1|]. split; [exact H2|]. split; [exact H3|].
  apply map_strip_upper_fixed, H3.
Qed.

(** X6. The flags read from a segment are its words between white space
    and commas, in upper case, each once and in the order of first
    occurrence: no flag is repeated, none is empty or holds a separator, a
    word is among the flags exactly when it is a word of the segment, and
    the check echoes these flags as they are. *)
Theorem parse_flags_tokens (s : string) :
  List.NoDup (_parse_flags s)
  /\ (forall t, In t (_parse_flags s)
                <-> In t (map PyStr.upper (PyText.split_by is_sep s)))
  /\ Forall (fun t => t <> "" /\ free_of is_sep t /\ PyStr.upper t = t) (_parse_flags s)
  /\ map (fun x => PyStr.upper (PyStr.strip x)) (_parse_flags s) = _parse_flags s.
Proof. apply parse_flags_facts. Qed.

Lemma split_by_map_chars (p : ascii -> bool) (f : ascii -> ascii) (s : string) :
  (forall a, p (f a) = p a) ->
  PyText.split_by p (PyStr.map_chars f s)
  = map (PyStr.map_chars f) (PyText.split_by p s).
Proof. intros H. apply (split_from_map_chars p f s "" H). Qed.

(** X7. A flags segment is read without regard to the case of ASCII
    letters, and commas and
    blanks separate alike: the segment in upper or lower case, with its
    commas written as blanks or its blanks as commas, gives the same
    flags. *)
Theorem parse_flags_insensitive (s : string) :
  _parse_flags (PyStr.upper s) = _parse_flags s
  /\ _parse_flags (PyStr.lower s) = _parse_flags s
  /\ _parse_flags (PyText.replace_char ","%char " " s) = _parse_flags s
  /\ _parse_flags (PyText.replace_char " "%char "," s) = _parse_flags s.
Proof.
  rewrite !parse_flags_words.
  split; [|split; [|split]]; f_equal.
  - unfold PyStr.upper.
    rewrite (split_by_map_chars is_sep PyStr.upper_char s is_sep_upper), map_map.
    apply map_ext. intros t. apply upper_upper.
  - unfold PyStr.upper, PyStr.lower.
    rewrite (split_by_map_chars is_sep PyStr.lower_char s is_sep_lower), map_map.
    apply map_ext. intros t.
    rewrite map_chars_map_chars. apply map_chars_ext, upper_lower_char.
  - rewrite replace_char_one. f_equal. apply split_from_renamed.
    + intros a. destruct (Ascii.eqb_spec a ","); [subst; reflexivity|reflexivity].
    + intros a H. destruct (Ascii.eqb_spec a ","); [subst; discriminate|reflexivity].
  - rewrite replace_char_one. f_equal. apply split_from_renamed.
    + intros a. destruct (Ascii.eqb_spec a " "); [subst; reflexivity|reflexivity].
    + intros a H. destruct (Ascii.eqb_spec a " "); [subst; discriminate|reflexivity].
Qed.

(* --------------------------------------------------------------------- *)
(* _split_arrow                                                          *)
(* --------------------------------------------------------------------- *)

Ltac not_equals_sign a :=
  destruct a as [[] [] [] [] [] [] [] []]; try reflexivity.

Lemma split_arrow_from_cons (cur : string) (a : ascii) (s : string) :
  PyText.split_arrow_from cur (String a s)
  = if Ascii.eqb a "=" && starts_with ">" s
    then cur :: PyText.split_arrow_from "" (tail s)
    else PyText.split_arrow_from (cur ++ String a "") s.
Proof.
  not_equals_sign a.
  destruct s as [|b s]; [reflexivity|]. not_equals_sign b.
Qed.

Lemma has_arrow_cons (a : ascii) (s : string) :
  has_arrow (String a s) = (Ascii.eqb a "=" && starts_with ">" s) || has_arrow s.
Proof.
  not_equals_sign a.
  destruct s as [|b s]; [reflexivity|]. not_equals_sign b.
Qed.

Lemma starts_with_app (c : ascii) (s t : string) :
  starts_with c (s ++ t) = if String.eqb s "" then starts_with c t else starts_with c s.
Proof. destruct s; reflexivity. Qed.

Lemma has_arrow_snoc (cur : string) (a : ascii) :
  has_arrow cur = false ->
  (PyText.endswith "=" cur = true -> Ascii.eqb a ">" = false) ->
  has_arrow (cur ++ String a "") = false.
Proof.
  induction cur as [|b cur IH]; intros Hcur Hend.
  - rewrite str_app_nil_l, has_arrow_cons. rewrite andb_false_r. reflexivity.
  - rewrite str_app_cons, has_arrow_cons.
    rewrite has_arrow_cons in Hcur. apply orb_false_iff in Hcur.
    destruct Hcur as [Hb Hcur].
    rewrite IH.
    + rewrite orb_false_r, starts_with_app.
      destruct (String.eqb_spec cur ""); [|exact Hb].
      subst cur. simpl. destruct (Ascii.eqb_spec b "="); [|reflexivity].
      subst b. simpl. apply Hend. reflexivity.
    + exact Hcur.
    + intros He. apply Hend. simpl. rewrite He. apply orb_true_r.
Qed.

Lemma endswith_snoc (c a : ascii) (cur : string) :
  PyText.endswith (String c "") (cur ++ String a "") = Ascii.eqb a c.
Proof.
  induction cur as [|b cur IH].
  - rewrite str_app_nil_l. simpl. rewrite orb_false_r.
    destruct (Ascii.eqb_spec a c); reflexivity.
  - rewrite str_app_cons. simpl. rewrite IH.
    destruct (Ascii.eqb b c); [|reflexivity].
    destruct cur; reflexivity.
Qed.

(** A piece never holds the arrow, as long as what was gathered did not
    and does not make one with what follows. *)
Lemma split_arrow_from_pieces (n : nat) (s cur : string) :
  (String.length s <= n)%nat ->
  has_arrow cur = false ->
  (PyText.endswith "=" cur = true -> starts_with ">" s = false) ->
  Forall (fun p => has_arrow p = false) (PyText.split_arrow_from cur s).
Proof.
  revert s cur. induction n as [|n IH]; intros s cur Hn Hcur Hend.
  - destruct s; [|simpl in Hn; lia]. simpl. repeat constructor. exact Hcur.
  - destruct s as [|a s]; [simpl; repeat constructor; exact Hcur|].
    simpl in Hn. rewrite split_arrow_from_cons.
    destruct (Ascii.eqb a "=" && starts_with ">" s) eqn:E.
    + constructor; [exact Hcur|].
      apply IH; [destruct s; simpl in *; lia|reflexivity|discriminate].
    + apply IH; [lia| |].
      * apply has_arrow_snoc; [exact Hcur|]. intros He. apply (Hend He).
      * rewrite endswith_snoc. intros Ha. apply Ascii.eqb_eq in Ha. subst a.
        exact E.
Qed.

Lemma has_arrow_tail (a : ascii) (s : string) :
  has_arrow (String a s) = false -> has_arrow s = false.
Proof. rewrite has_arrow_cons. intros H. apply orb_false_iff in H. apply H. Qed.

Lemma has_arrow_lstrip (s : string) :
  has_arrow s = false -> has_arrow (PyStr.lstrip s) = false.
Proof.
  induction s as [|a s IH]; [reflexivity|]. intros H. simpl.
  destruct (PyStr.is_space a); [apply IH, (has_arrow_tail a s H)|exact H].
Qed.

Lemma starts_with_rstrip (c : ascii) (s : string) :
  starts_with c (PyStr.rstrip s) = true -> starts_with c s = true.
Proof.
  destruct s as [|a s]; [discriminate|]. simpl.
  destruct (PyStr.rstrip s); [destruct (PyStr.is_space a)|]; simpl; auto; discriminate.
Qed.

Lemma has_arrow_rstrip (s : string) :
  has_arrow s = false -> has_arrow (PyStr.rstrip s) = false.
Proof.
  induction s as [|a s IH]; [reflexivity|]. intros H.
  pose proof (has_arrow_tail a s H) as Hs. specialize (IH Hs).
  rewrite has_arrow_cons in H. apply orb_false_iff in H. destruct H as [Ha _].
  simpl. destruct (PyStr.rstrip s) as [|b t] eqn:Hr.
  - destruct (PyStr.is_space a); [reflexivity|].
    rewrite has_arrow_cons. simpl. rewrite andb_false_r. reflexivity.
  - rewrite has_arrow_cons, IH, orb_false_r.
    destruct (Ascii.eqb a "="); [|reflexivity].
    rewrite andb_true_l. rewrite andb_true_l in Ha.
    destruct (starts_with ">" (String b t)) eqn:Hb; [|reflexivity].
    rewrite <- Hr in Hb. apply starts_with_rstrip in Hb. congruence.
Qed.

Lemma has_arrow_strip (s : string) :
  has_arrow s = false -> has_arrow (PyStr.strip s) = false.
Proof. intros H. apply has_arrow_rstrip, has_arrow_lstrip, H. Qed.

Lemma rstrip_rstrip (s : string) : PyStr.rstrip (PyStr.rstrip s) = PyStr.rstrip s.
Proof.
  induction s as [|a s IH]; [reflexivity|]. simpl.
  destruct (PyStr.rstrip s) as [|b t] eqn:Hr.
  - destruct (PyStr.is_space a) eqn:Ha; [reflexivity|]. simpl. rewrite Ha. reflexivity.
  - simpl in IH. simpl. rewrite IH. reflexivity.
Qed.

Lemma begins_black_lstrip (s : string) : begins_black (PyStr.lstrip s) = true.
Proof.
  induction s as [|a s IH]; [reflexivity|]. simpl.
  destruct (PyStr.is_space a) eqn:Ha; [exact IH|]. simpl. rewrite Ha. reflexivity.
Qed.

Lemma begins_black_rstrip (s : string) :
  begins_black s = true -> begins_black (PyStr.rstrip s) = true.
Proof.
  destruct s as [|a s]; [reflexivity|]. simpl. intros Ha.
  destruct (PyStr.rstrip s); simpl; [|exact Ha].
  destruct (PyStr.is_space a) eqn:E; [reflexivity|]. simpl. rewrite E. reflexivity.
Qed.

Lemma lstrip_begins_black (s : string) : begins_black s = true -> PyStr.lstrip s = s.
Proof.
  destruct s as [|a s]; [reflexivity|]. simpl. intros Ha.
  destruct (PyStr.is_space a); [discriminate|reflexivity].
Qed.

Lemma strip_strip (s : string) : PyStr.strip (PyStr.strip s) = PyStr.strip s.
Proof.
  unfold PyStr.strip.
  rewrite (lstrip_begins_black (PyStr.rstrip (PyStr.lstrip s))).
  - apply rstrip_rstrip.
  - apply begins_black_rstrip, begins_black_lstrip.
Qed.

Lemma split_arrow_pieces (s : string) :
  Forall (fun p => has_arrow p = false) (PyText.split_arrow s).
Proof.
  apply (split_arrow_from_pieces (String.length s)); [lia|reflexivity|discriminate].
Qed.

(** X8. The segments of a rule statement are never empty, carry no white
    space at either end, and never hold the arrow. *)
Theorem split_arrow_parts (stmt : string) :
  Forall (fun p => p <> "" /\ PyStr.strip p = p /\ has_arrow p = false)
         (_split_arrow stmt).
Proof.
  unfold _split_arrow.
  pose proof (split_arrow_pieces stmt) as H.
  induction H as [|p l Hp _ IH]; simpl; [constructor|].
  destruct (String.eqb_spec (PyStr.strip p) "") as [He|Hne]; simpl; [exact IH|].
  constructor; [|exact IH].
  split; [exact Hne|]. split; [apply strip_strip|apply has_arrow_strip, Hp].
Qed.

Lemma split_arrow_from_whole (s cur : string) :
  has_arrow s = false -> PyText.split_arrow_from cur s = [(cur ++ s)%string].
Proof.
  revert cur. induction s as [|a s IH]; intros cur H.
  - simpl. rewrite str_app_nil_r. reflexivity.
  - rewrite split_arrow_from_cons.
    rewrite has_arrow_cons in H. apply orb_false_iff in H. destruct H as [Ha Hs].
    rewrite Ha, (IH _ Hs), str_app_assoc. reflexivity.
Qed.

Lemma split_arrow_from_arrow (p r cur : string) :
  has_arrow p = false ->
  PyText.split_arrow_from cur (p ++ "=>" ++ r)
  = (cur ++ p)%string :: PyText.split_arrow_from "" r.
Proof.
  revert cur. induction p as [|a p IH]; intros cur H.
  - rewrite str_app_nil_l, str_app_nil_r.
    change ("=>" ++ r)%string with (String "=" (String ">" r)).
    rewrite split_arrow_from_cons. reflexivity.
  - rewrite str_app_cons, split_arrow_from_cons.
    rewrite has_arrow_cons in H. apply orb_false_iff in H. destruct H as [Ha Hp].
    assert (Ht : Ascii.eqb a "=" && starts_with ">" (p ++ "=>" ++ r) = false).
    { rewrite starts_with_app. destruct (String.eqb p ""); [|exact Ha].
      apply andb_false_r. }
    rewrite Ht, (IH _ Hp), str_app_assoc. reflexivity.
Qed.

Lemma has_arrow_app_space (s : string) : has_arrow (s ++ " ") = has_arrow s.
Proof.
  induction s as [|a s IH]; [reflexivity|].
  rewrite str_app_cons, !has_arrow_cons, IH, starts_with_app.
  destruct (String.eqb_spec s ""); [subst; reflexivity|reflexivity].
Qed.

Lemma rstrip_app_space (s : string) : PyStr.rstrip (s ++ " ") = PyStr.rstrip s.
Proof.
  induction s as [|a s IH]; [reflexivity|].
  rewrite str_app_cons. simpl. rewrite IH. reflexivity.
Qed.

Lemma stripped_facts (p : string) :
  p <> "" -> PyStr.strip p = p ->
  begins_black p = true /\ PyStr.lstrip p = p /\ PyStr.rstrip p = p
  /\ PyStr.lstrip (p ++ " ") = (p ++ " ")%string.
Proof.
  intros Hne Hs.
  assert (Hb : begins_black p = true).
  { rewrite <- Hs. apply begins_black_rstrip, begins_black_lstrip. }
  pose proof (lstrip_begins_black p Hb) as Hl.
  split; [exact Hb|]. split; [exact Hl|].
  split; [unfold PyStr.strip in Hs; rewrite Hl in Hs; exact Hs|].
  destruct p as [|a p]; [contradiction|].
  rewrite str_app_cons. simpl in Hb. simpl.
  destruct (PyStr.is_space a); [discriminate|reflexivity].
Qed.

Lemma split_arrow_join (parts : list string) (w : string) :
  Forall (fun p => p <> "" /\ PyStr.strip p = p /\ has_arrow p = false) parts ->
  w = "" \/ w = " " ->
  _split_arrow (w ++ PyStr.join " => " parts) = parts.
Proof.
  intros H. revert w. induction H as [|p l (Hne & Hs & Ha) Hl IH]; intros w Hw.
  - destruct Hw as [-> | ->]; reflexivity.
  - destruct (stripped_facts p Hne Hs) as (Hb & Hlp & Hrp & Hlsp).
    destruct l as [|q l].
    + unfold _split_arrow, PyText.split_arrow, PyStr.join. cbn [String.concat].
      rewrite split_arrow_from_whole.
      * rewrite str_app_nil_l. cbn [map List.filter].
        assert (Hst : PyStr.strip (w ++ p) = p).
        { destruct Hw as [-> | ->]; [rewrite str_app_nil_l; exact Hs|].
          change (" " ++ p)%string with (String " " p). exact Hs. }
        rewrite Hst. destruct (String.eqb_spec p ""); [contradiction|reflexivity].
      * destruct Hw as [-> | ->]; [rewrite str_app_nil_l; exact Ha|].
        change (" " ++ p)%string with (String " " p).
        rewrite has_arrow_cons. exact Ha.
    + assert (Hj : (w ++ PyStr.join " => " (p :: q :: l)
                   = (w ++ p ++ " ") ++ "=>" ++ (" " ++ PyStr.join " => " (q :: l)))%string).
      { unfold PyStr.join. cbn [String.concat].
        rewrite !str_app_assoc. reflexivity. }
      rewrite Hj. unfold _split_arrow, PyText.split_arrow.
      rewrite split_arrow_from_arrow.
      * rewrite str_app_nil_l. cbn [map List.filter].
        assert (Hst : PyStr.strip (w ++ p ++ " ") = p).
        { unfold PyStr.strip.
          assert (Hlw : PyStr.lstrip (w ++ p ++ " ") = (p ++ " ")%string).
          { destruct Hw as [-> | ->]; [rewrite str_app_nil_l; exact Hlsp|].
            change (" " ++ p ++ " ")%string with (String " " (p ++ " ")). exact Hlsp. }
          rewrite Hlw, rstrip_app_space. exact Hrp. }
        rewrite Hst. destruct (String.eqb_spec p ""); [contradiction|].
        cbn [negb]. f_equal.
        apply (IH " "). right. reflexivity.
      * rewrite <- str_app_assoc, has_arrow_app_space.
        destruct Hw as [-> | ->]; [rewrite str_app_nil_l; exact Ha|].
        change (" " ++ p)%string with (String " " p).
        rewrite has_arrow_cons. exact Ha.
Qed.

(** X9. Writing segments with " => " between them and reading the
    statement back gives the segments, when none is empty, has white space
    at an end or holds the arrow. *)
Theorem split_arrow_round_trip (parts : list string) :
  Forall (fun p => p <> "" /\ PyStr.strip p = p /\ has_arrow p = false) parts ->
  _split_arrow (PyStr.join " => " parts) = parts.
Proof.
  intros H. exact (split_arrow_join parts "" H (or_introl eq_refl)).
Qed.

(* --------------------------------------------------------------------- *)
(* _execute_rule_stmt                                                    *)
(* --------------------------------------------------------------------- *)

Section execute_facts.
Context {RE : RegexEngine}.

(** The arguments _execute_rule_stmt reads off the segments. *)
Lemma execute_rule_stmt_runs (stmt : string) (history : list CheckResult)
    (df : DataFrame) :
  let parts := _split_arrow stmt in
  (2 <= length parts)%nat ->
  exists res,
    check_regex_column (nth 0 parts "") (nth 1 parts "")
      (if (3 <=? length parts)%nat then nth 2 parts "" else "fullmatch")
      (if (4 <=? length parts)%nat then _parse_allow_null (nth 3 parts "") else true)
      (Some (if (5 <=? length parts)%nat then _parse_flags (nth 4 parts "") else []))
      10 df
    = (Return res, df)
    /\ _execute_rule_stmt stmt history df
       = (Return (if ok res then history ++ [res] else history, [PrintResult res]), df).
Proof.
  intros parts Hlen. unfold _execute_rule_stmt. fold parts.
  destruct (length parts <? 2)%nat eqn:E; [apply Nat.ltb_lt in E; lia|].
  eexists. split; [apply check_regex_column_cases|].
  unfold bind. rewrite check_regex_column_cases. reflexivity.
Qed.

(** X10. A statement that holds no arrow is refused: the shell prints the
    error line, evaluates nothing, and the history and the frame stay as
    they were. *)
Theorem execute_without_arrow (stmt : string) (history : list CheckResult)
    (df : DataFrame) :
  has_arrow stmt = false ->
  _execute_rule_stmt stmt history df
  = (Return (history,
             [PrintLine "[ERROR] Invalid rule line. Expected at least: column => regex"]),
     df).
Proof.
  intros H. unfold _execute_rule_stmt.
  assert (Hlen : (length (_split_arrow stmt) <? 2)%nat = true).
  { unfold _split_arrow, PyText.split_arrow.
    rewrite (split_arrow_from_whole stmt "" H). cbn [map List.filter].
    destruct (negb _); reflexivity. }
  rewrite Hlen. reflexivity.
Qed.

(** X11. Executing a statement never raises and keeps the frame; the
    history either stays as it was or gains, at its end, the one result
    printed, and then this result is ok and is an evaluation on the frame.
    So a history of evaluations on the frame stays one, and a history of ok
    results stays one. *)
Theorem execute_extends_history (stmt : string) (history : list CheckResult)
    (df : DataFrame) :
  exists history' printed,
    _execute_rule_stmt stmt history df = (Return (history', printed), df)
    /\ (history' = history
        \/ exists r, history' = history ++ [r] /\ printed = [PrintResult r]
                     /\ ok r = true /\ evaluated_on df r)
    /\ (Forall (evaluated_on df) history -> Forall (evaluated_on df) history')
    /\ (forallb ok history = true -> forallb ok history' = true).
Proof.
  destruct (Nat.lt_ge_cases (length (_split_arrow stmt)) 2) as [Hlt|Hge].
  - exists history, [PrintLine "[ERROR] Invalid rule line. Expected at least: column => regex"].
    split.
    + unfold _execute_rule_stmt. apply Nat.ltb_lt in Hlt. rewrite Hlt. reflexivity.
    + split; [left; reflexivity|]. split; intros H; exact H.
  - destruct (execute_rule_stmt_runs stmt history df Hge) as (res & Hres & Hrun).
    eexists. eexists. split; [exact Hrun|].
    assert (Hev : evaluated_on df res).
    { eexists _, _, _, _, _, _. unfold result_of. rewrite Hres. reflexivity. }
    destruct (ok res) eqn:Hok.
    + split; [right; exists res; auto|].
      split; intros H.
      * apply Forall_app. split; [exact H|]. repeat constructor. exact Hev.
      * rewrite forallb_app, H. simpl. rewrite Hok. reflexivity.
    + split; [left; reflexivity|]. split; intros H; exact H.
Qed.

(** X12. An ok result echoes the rule as it was read: the column and the
    pattern are the first two segments, the null policy is the fourth
    segment read by _parse_allow_null or, without one, true, and the flags
    are those read from the fifth segment, each once, or none. *)
Theorem execute_echoes_rule (stmt : string) (history history' : list CheckResult)
    (df : DataFrame) (c : CheckOk) :
  result_of (_execute_rule_stmt stmt history) df
  = Return (history', [PrintResult (ResOk c)]) ->
  let parts := _split_arrow stmt in
  history' = history ++ [ResOk c]
  /\ column c = nth 0 parts ""
  /\ pattern c = nth 1 parts ""
  /\ (mode c = "fullmatch" \/ mode c = "search")
  /\ allow_null c
     = (if (4 <=? length parts)%nat then _parse_allow_null (nth 3 parts "") else true)
  /\ flags c = (if (5 <=? length parts)%nat then _parse_flags (nth 4 parts "") else [])
  /\ List.NoDup (flags c).
Proof.
  intros Hrun parts. subst parts.
  destruct (Nat.lt_ge_cases (length (_split_arrow stmt)) 2) as [Hlt|Hge].
  { unfold result_of, _execute_rule_stmt in Hrun.
    apply Nat.ltb_lt in Hlt. rewrite Hlt in Hrun. discriminate. }
  destruct (execute_rule_stmt_runs stmt history df Hge) as (res & Hres & Hex).
  unfold result_of in Hrun. rewrite Hex in Hrun. cbn [fst] in Hrun.
  injection Hrun as Hh Hr. subst res. cbn [ok] in Hh.
  assert (Hfl : forall fl : list string,
    fl = (if (5 <=? length (_split_arrow stmt))%nat
          then _parse_flags (nth 4 (_split_arrow stmt) "") else []) ->
    map (fun x => PyStr.upper (PyStr.strip x)) fl = fl /\ List.NoDup fl).
  { intros fl ->. destruct (5 <=? length (_split_arrow stmt))%nat.
    - split; apply (parse_flags_facts (nth 4 (_split_arrow stmt) "")).
    - split; [reflexivity|constructor]. }
  destruct (Hfl _ eq_refl) as [Hmap Hnd]. clear Hfl.
  remember (if (5 <=? length (_split_arrow stmt))%nat
            then _parse_flags (nth 4 (_split_arrow stmt) "") else []) as fl eqn:Efl.
  remember (if (4 <=? length (_split_arrow stmt))%nat
            then _parse_allow_null (nth 3 (_split_arrow stmt) "") else true) as an.
  remember (if (3 <=? length (_split_arrow stmt))%nat
            then nth 2 (_split_arrow stmt) "" else "fullmatch") as md.
  rewrite check_regex_column_cases in Hres. injection Hres as Hres.
  destruct (existsb _ (columns df)); [|discriminate].
  destruct (re_compile _ _) as [rx|e]; [|discriminate].
  injection Hres as <-. subst history'. split; [reflexivity|].
  unfold fields_of.
  cbn [column pattern mode allow_null flags or_empty]. rewrite Hmap.
  split; [reflexivity|]. split; [reflexivity|].
  split; [apply normalize_mode_range|]. split; [reflexivity|]. split; [reflexivity|].
  exact Hnd.
Qed.

End execute_facts.


(* --------------------------------------------------------------------- *)
(* More on the result of a check                                         *)
(* --------------------------------------------------------------------- *)

Lemma normalize_mode_idem (x : string) :
  _normalize_mode (_normalize_mode x) = _normalize_mode x.
Proof. destruct (normalize_mode_range x) as [H|H]; rewrite H; reflexivity. Qed.

Lemma upper_strip_idem (x : string) :
  PyStr.upper (PyStr.strip (PyStr.upper (PyStr.strip x))) = PyStr.upper (PyStr.strip x).
Proof.
  unfold PyStr.upper at 2. rewrite strip_map_chars by exact is_space_upper.
  fold (PyStr.upper (PyStr.strip (PyStr.strip x))).
  rewrite upper_upper, strip_strip. reflexivity.
Qed.

Lemma flag_bits_cleaned (fl : list string) :
  flag_bits (Some (map (fun x => PyStr.upper (PyStr.strip x)) fl)) = flag_bits (Some fl).
Proof.
  unfold flag_bits. cbn [or_empty]. rewrite !flag_bits_fold.
  generalize 0. induction fl as [|x fl IH]; intros f0; [reflexivity|].
  cbn [map fold_left]. rewrite IH. do 2 f_equal.
  unfold flag_value. rewrite upper_strip_idem. reflexivity.
Qed.

Section check_invariants.
Context {RE : RegexEngine}.

Lemma check_ok_inv df column pattern mode allow_null flags k c :
  result_of (check_regex_column column pattern mode allow_null flags k) df
  = Return (ResOk c) ->
  exists rx,
    In column (columns df)
    /\ re_compile pattern (flag_bits flags) = Return rx
    /\ c = fields_of df rx column pattern mode allow_null flags k.
Proof.
  unfold result_of. rewrite check_regex_column_cases. cbn [fst]. intros H.
  injection H as H.
  destruct (existsb (String.eqb column) (columns df)) eqn:Hcol; [|discriminate].
  destruct (re_compile pattern (flag_bits flags)) as [rx|e] eqn:Hrx; [|discriminate].
  exists rx. split; [apply existsb_eqb_In, Hcol|]. split; [reflexivity|congruence].
Qed.

Lemma length_fail_indices df rx column pattern mode allow_null flags k :
  Z.of_nat (length (fail_indices (fields_of df rx column pattern mode allow_null flags k)))
  = fail (counts (fields_of df rx column pattern mode allow_null flags k)).
Proof.
  simpl. rewrite List.length_app. unfold Pd.labels. rewrite !List.length_map.
  destruct allow_null; simpl; [|rewrite List.length_map]; lia.
Qed.

(** X13. The fail count of a result is the number of its fail_indices;
    every one of them is the identifier of a row of the frame, and when the
    identifiers of the frame are distinct no identifier is listed twice. *)
Theorem fail_indices_count df column pattern mode allow_null flags k c :
  result_of (check_regex_column column pattern mode allow_null flags k) df
  = Return (ResOk c) ->
  Z.of_nat (length (fail_indices c)) = fail (counts c)
  /\ incl (fail_indices c) (index df)
  /\ (List.NoDup (index df) -> List.NoDup (fail_indices c)).
Proof.
  intros H. destruct (check_ok_inv _ _ _ _ _ _ _ _ H) as (rx & Hcol & _ & ->).
  split; [apply length_fail_indices|].
  split; [apply fields_fail_indices_incl, Hcol|].
  intros Hnd. apply fields_fail_indices_nodup; assumption.
Qed.

Lemma rate_in_range (p t : Z) :
  0 <= p <= t -> 0 < t ->
  (0 <= inject_Z p / inject_Z t)%Q /\ (inject_Z p / inject_Z t <= 1)%Q
  /\ ((inject_Z p / inject_Z t == 1)%Q <-> p = t).
Proof.
  intros Hp Ht. destruct t as [|t|t]; try lia.
  unfold Qdiv, Qmult, Qinv, Qle, Qeq, inject_Z. simpl. lia.
Qed.

(** X14. In a result every count lies between 0 and the total, the pass
    rate lies between 0 and 1, and the pass rate is 1 when no row failed. *)
Theorem counts_in_range df column pattern mode allow_null flags k c :
  result_of (check_regex_column column pattern mode allow_null flags k) df
  = Return (ResOk c) ->
  0 <= pass (counts c) <= total (counts c)
  /\ 0 <= fail (counts c) <= total (counts c)
  /\ 0 <= null (counts c) <= total (counts c)
  /\ 0 <= non_null (counts c) <= total (counts c)
  /\ (0 <= pass_rate c)%Q /\ (pass_rate c <= 1)%Q
  /\ (fail (counts c) = 0 -> (pass_rate c == 1)%Q).
Proof.
  intros H. destruct (check_ok_inv _ _ _ _ _ _ _ _ H) as (rx & Hcol & _ & ->).
  pose proof (length_null_non_null (coerced df column)) as H1.
  pose proof (length_passes_fails rx mode (coerced df column)) as H2.
  cbn [fields_of counts pass_rate total pass fail null non_null].
  set (s := coerced df column) in *.
  set (p := Z.of_nat (length (non_null_passes rx mode s))
            + (if allow_null then Z.of_nat (length (null_rows s)) else 0)).
  assert (Hp : 0 <= p <= Z.of_nat (length s)) by (subst p; destruct allow_null; lia).
  assert (Hf : Z.of_nat (length (non_null_fails rx mode s))
               + (if allow_null then 0 else Z.of_nat (length (null_rows s)))
               = Z.of_nat (length s) - p) by (subst p; destruct allow_null; lia).
  rewrite Hf.
  repeat (split; [lia|]).
  destruct (Z.of_nat (length s) =? 0) eqn:E.
  - apply Z.eqb_eq in E. split; [discriminate|]. split; [apply Qle_refl|].
    reflexivity.
  - apply Z.eqb_neq in E.
    destruct (rate_in_range p (Z.of_nat (length s))) as (Ha & Hb & Hc); [lia|lia|].
    split; [exact Ha|]. split; [exact Hb|]. intros Hz. apply Hc. lia.
Qed.

(** X15. Forbidding nulls moves the null rows from the passes to the
    failures and changes nothing else: the same rule evaluated with
    allow_null false instead of true has the same total, null and non_null
    counts and the same fail values, its pass count is lower and its fail
    count higher by the null count, and its fail_indices are those of the
    first followed by the identifiers of the null rows. *)
Theorem allow_null_moves_nulls df column pattern mode flags k c :
  result_of (check_regex_column column pattern mode true flags k) df
  = Return (ResOk c) ->
  exists c',
    result_of (check_regex_column column pattern mode false flags k) df
    = Return (ResOk c')
    /\ total (counts c') = total (counts c)
    /\ null (counts c') = null (counts c)
    /\ non_null (counts c') = non_null (counts c)
    /\ pass (counts c') = pass (counts c) - null (counts c)
    /\ fail (counts c') = fail (counts c) + null (counts c)
    /\ fail_values (samples c') = fail_values (samples c)
    /\ fail_indices c'
       = fail_indices c ++ Pd.labels (null_rows (coerced df column)).
Proof.
  intros H. destruct (check_ok_inv _ _ _ _ _ _ _ _ H) as (rx & Hcol & Hrx & ->).
  exists (fields_of df rx column pattern mode false flags k).
  split.
  - unfold result_of. rewrite check_regex_column_cases. cbn [fst].
    apply existsb_eqb_In in Hcol. rewrite Hcol, Hrx. reflexivity.
  - cbn [fields_of counts samples fail_indices total pass fail null non_null fail_values].
    rewrite app_nil_r. repeat split; lia.
Qed.

Lemma satisfies_normalized rx mode v :
  satisfies rx (_normalize_mode mode) v = satisfies rx mode v.
Proof. unfold satisfies. rewrite normalize_mode_idem. reflexivity. Qed.

Lemma fields_of_normalized df rx column pattern mode allow_null flags k :
  fields_of df rx column pattern (_normalize_mode mode) allow_null flags k
  = fields_of df rx column pattern mode allow_null flags k.
Proof.
  assert (Hp : forall s, non_null_passes rx (_normalize_mode mode) s
                         = non_null_passes rx mode s).
  { intros s. unfold non_null_passes. apply filter_ext.
    intros p. apply satisfies_normalized. }
  assert (Hf : forall s, non_null_fails rx (_normalize_mode mode) s
                         = non_null_fails rx mode s).
  { intros s. unfold non_null_fails. apply filter_ext.
    intros p. rewrite satisfies_normalized. reflexivity. }
  unfold fields_of. rewrite !Hp, !Hf, normalize_mode_idem. reflexivity.
Qed.

(** X16. The mode of a rule matters only through its normal form: a check
    gives the same result for a mode text and for the mode it is read as,
    so every mode text gives the result of fullmatch or that of search. *)
Theorem mode_read_once df column pattern mode allow_null flags k :
  check_regex_column column pattern (_normalize_mode mode) allow_null flags k df
  = check_regex_column column pattern mode allow_null flags k df
  /\ (check_regex_column column pattern mode allow_null flags k df
      = check_regex_column column pattern "fullmatch" allow_null flags k df
      \/ check_regex_column column pattern mode allow_null flags k df
         = check_regex_column column pattern "search" allow_null flags k df).
Proof.
  assert (H : check_regex_column column pattern (_normalize_mode mode) allow_null flags k df
              = check_regex_column column pattern mode allow_null flags k df).
  { rewrite !check_regex_column_cases.
    destruct (existsb _ _); [|reflexivity].
    destruct (re_compile _ _); [|reflexivity].
    rewrite fields_of_normalized. reflexivity. }
  split; [exact H|].
  destruct (normalize_mode_range mode) as [E|E]; rewrite E in H; [left|right];
    symmetry; exact H.
Qed.

(** X17. The flags of a rule matter only through their cleaned form: a
    check gives the same result for a list of flags and for the same flags
    stripped and in upper case, and for no flags and for the empty list. *)
Theorem flags_cleaned_once df column pattern mode allow_null k (fl : list string) :
  check_regex_column column pattern mode allow_null
    (Some (map (fun x => PyStr.upper (PyStr.strip x)) fl)) k df
  = check_regex_column column pattern mode allow_null (Some fl) k df
  /\ check_regex_column column pattern mode allow_null None k df
     = check_regex_column column pattern mode allow_null (Some []) k df.
Proof.
  split; [|rewrite !check_regex_column_cases; reflexivity].
  rewrite !check_regex_column_cases, flag_bits_cleaned.
  destruct (existsb _ _); [|reflexivity].
  destruct (re_compile _ _); [|reflexivity].
  unfold fields_of. cbn [or_empty]. rewrite map_map.
  rewrite (map_ext _ (fun x => PyStr.upper (PyStr.strip x))
             (fun x => upper_strip_idem x)).
  reflexivity.
Qed.

End check_invariants.


(* --------------------------------------------------------------------- *)
(* The summary                                                           *)
(* --------------------------------------------------------------------- *)

Lemma first_none_values {A} (l : list (option A)) (i : nat) :
  Forall (fun v => is_none v = false) l -> first_none i l = None.
Proof.
  intros H. revert i. induction H as [|v l Hv _ IH]; intros i; [reflexivity|].
  destruct v; [apply IH|discriminate].
Qed.

Lemma in_numbered {A} (l : list A) (k j : Z) (x : A) :
  In (j, x) (numbered k l) <->
  k <= j /\ nth_error l (Z.to_nat (j - k)) = Some x.
Proof.
  revert k. induction l as [|y l IH]; intros k; cbn [numbered In].
  - split; [contradiction|]. intros [_ H]. destruct (Z.to_nat (j - k)); discriminate.
  - rewrite IH. split.
    + intros [[= <- <-]|[Hk Hn]].
      * split; [lia|]. rewrite Z.sub_diag. reflexivity.
      * split; [lia|]. replace (Z.to_nat (j - k)) with (S (Z.to_nat (j - (k + 1)))) by lia.
        exact Hn.
    + intros [Hk Hn]. destruct (Z.eq_dec j k) as [->|Hne].
      * left. rewrite Z.sub_diag in Hn. injection Hn as ->. reflexivity.
      * right. split; [lia|].
        replace (Z.to_nat (j - k)) with (S (Z.to_nat (j - (k + 1)))) in Hn by lia.
        exact Hn.
Qed.

Lemma map_fst_numbered {A} (l : list A) (k : nat) :
  map fst (numbered (Z.of_nat k) l) = map Z.of_nat (seq k (length l)).
Proof.
  revert k. induction l as [|x l IH]; intros k; [reflexivity|].
  cbn [numbered map length seq]. f_equal.
  replace (Z.of_nat k + 1) with (Z.of_nat (S k)) by lia. apply IH.
Qed.

Lemma filter_all {A} (p : A -> bool) (l : list A) :
  forallb p l = true -> List.filter p l = l.
Proof.
  induction l as [|x l IH]; [reflexivity|]. cbn [forallb List.filter].
  intros H. apply andb_true_iff in H. destruct H as [Hx Hl].
  rewrite Hx, IH by exact Hl. reflexivity.
Qed.

Lemma forallb_numbered (l : list CheckResult) (k : Z) :
  forallb ok l = true -> forallb (fun p => ok (snd p)) (numbered k l) = true.
Proof.
  revert k. induction l as [|x l IH]; intros k; [reflexivity|].
  cbn [forallb numbered snd]. intros H. apply andb_true_iff in H. destruct H as [Hx Hl].
  rewrite Hx, IH by exact Hl. reflexivity.
Qed.

Lemma map_snd_retained (l : list CheckResult) (k : Z) :
  map snd (List.filter (fun p => ok (snd p)) (numbered k l)) = List.filter ok l.
Proof.
  revert k. induction l as [|x l IH]; intros k; [reflexivity|].
  cbn [numbered List.filter snd]. destruct (ok x); cbn [map snd]; rewrite IH; reflexivity.
Qed.

Section summary_facts.
Context {RE : RegexEngine}.

Lemma fields_fail_values_some df rx column pattern mode allow_null flags k :
  Forall (fun v => is_none v = false)
    (fail_values (samples (fields_of df rx column pattern mode allow_null flags k))).
Proof.
  cbn [fields_of samples fail_values]. apply List.Forall_forall. intros v Hv.
  unfold Pd.tolist in Hv. apply in_map_iff in Hv. destruct Hv as [[i w] [<- Hin]].
  assert (H : In (i, w) (non_null_fails rx mode (coerced df column))).
  { unfold Pd.head in Hin. destruct (0 <=? k); eapply in_firstn; exact Hin. }
  unfold non_null_fails, non_null_rows in H.
  apply filter_In in H. destruct H as [H _].
  apply filter_In in H. destruct H as [_ H].
  cbn [snd] in *. destruct w; [reflexivity|discriminate].
Qed.

(** The row of the summary for a result of an evaluation. *)
Lemma summary_row_evaluated df (c : CheckOk) (i : Z) :
  evaluated_on df (ResOk c) ->
  summary_row i (ResOk c)
  = Return {|
      sum_check_no := i;
      sum_rule_type := rule_type c;
      sum_column := column c;
      sum_pattern_or_expr := pattern c;
      sum_mode := mode c;
      sum_allow_null := allow_null c;
      sum_flags := PyStr.join "," (flags c);
      sum_total := total (counts c);
      sum_pass := pass (counts c);
      sum_fail := fail (counts c);
      sum_null := null (counts c);
      sum_non_null := non_null (counts c);
      sum_pass_rate := Some (pass_rate c);
      sum_fail_samples := PyStr.join "|" (map (default "") (fail_values (samples c))) |}.
Proof.
  intros He.
  destruct (evaluated_on_inv df _ He eq_refl)
    as (rx & column & pattern & mode & allow_null & flags & k & _ & [= ->]).
  unfold summary_row, join_values. cbn [get fmap option_fmap option_map default].
  rewrite first_none_values by apply fields_fail_values_some.
  reflexivity.
Qed.

Lemma build_summary_from_runs df history (i : Z) :
  Forall (evaluated_on df) history ->
  exists rows,
    build_summary_from i history = Return rows
    /\ Forall2 (fun row p => summary_row (fst p) (snd p) = Return row)
         rows (List.filter (fun p => ok (snd p)) (numbered i history)).
Proof.
  intros H. revert i. induction H as [|r history Hr _ IH]; intros i.
  - exists []. split; [reflexivity|constructor].
  - cbn [build_summary_from numbered List.filter snd].
    destruct (IH (i + 1)) as (rows & Hrows & Hall).
    destruct r as [e|c]; cbn [ok negb].
    + exists rows. split; assumption.
    + rewrite (summary_row_evaluated df c i Hr), Hrows.
      eexists. split; [reflexivity|].
      constructor; [|exact Hall]. cbn [fst snd].
      apply (summary_row_evaluated df c i Hr).
Qed.

(** X18. For a history of results of evaluations build_summary_df returns
    without raising, with one row for every retained result and in the
    order of the history; the check_no of a row is the position of its
    result in the whole history, counted from 1, so when every result is
    retained, as in the history of the shell, the rows are numbered
    1, 2, ..., n. *)
Theorem summary_rows_numbered df history :
  Forall (evaluated_on df) history ->
  exists rows,
    build_summary_df history = Return rows
    /\ Forall2 (fun row p =>
                  sum_check_no row = fst p
                  /\ 1 <= fst p
                  /\ nth_error history (Z.to_nat (fst p - 1)) = Some (snd p)
                  /\ get column (snd p) = Some (sum_column row)
                  /\ get pattern (snd p) = Some (sum_pattern_or_expr row))
         rows (retained history)
    /\ map snd (retained history) = List.filter ok history
    /\ (forallb ok history = true ->
        map sum_check_no rows = map Z.of_nat (seq 1 (length history))).
Proof.
  intros H. destruct (build_summary_from_runs df history 1 H) as (rows & Hrows & Hall).
  exists rows. split; [exact Hrows|].
  fold (retained history) in Hall.
  assert (Hret : Forall (fun p => In p (numbered 1 history)
                                  /\ exists c, snd p = ResOk c /\ evaluated_on df (snd p))
                        (retained history)).
  { apply List.Forall_forall. intros p Hp. apply filter_In in Hp. destruct Hp as [Hin Hok].
    split; [exact Hin|]. destruct p as [j r]. cbn [snd] in *.
    apply in_numbered in Hin. destruct Hin as [_ Hn].
    apply nth_error_In in Hn. rewrite List.Forall_forall in H.
    destruct r as [e|c]; [discriminate|]. exists c. split; [reflexivity|apply H, Hn]. }
  assert (Hfields : Forall2 (fun row p =>
                  sum_check_no row = fst p
                  /\ 1 <= fst p
                  /\ nth_error history (Z.to_nat (fst p - 1)) = Some (snd p)
                  /\ get column (snd p) = Some (sum_column row)
                  /\ get pattern (snd p) = Some (sum_pattern_or_expr row))
         rows (retained history)).
  { clear Hrows. revert Hret.
    induction Hall as [|row [j r] rows ps Hrow _ IH]; intros Hret; [constructor|].
    inversion Hret as [|? ? [Hin (c & Hc & He)] Hret']; subst.
    constructor; [|apply IH, Hret'].
    cbn [fst snd] in *. subst r.
    rewrite (summary_row_evaluated df c j He) in Hrow. injection Hrow as <-.
    apply in_numbered in Hin. destruct Hin as [Hj Hn].
    cbn [sum_check_no sum_column sum_pattern_or_expr get].
    repeat split; [exact Hj|exact Hn]. }
  split; [exact Hfields|].
  split; [apply map_snd_retained|].
  intros Hok.
  assert (Hno : map sum_check_no rows = map fst (retained history)).
  { clear -Hfields. induction Hfields as [|row p rows ps (Hn & _) _ IH]; [reflexivity|].
    cbn [map]. rewrite Hn, IH. reflexivity. }
  rewrite Hno. unfold retained.
  rewrite filter_all by (apply forallb_numbered, Hok).
  apply (map_fst_numbered history 1).
Qed.

(** X19. Every row of the summary of a history of evaluations on a frame
    is that of a regex rule whose counts add up: total = pass + fail =
    null + non_null = the number of rows of the frame; its mode is
    fullmatch or search and its pass rate is present. *)
Theorem summary_rows_consistent df history summary_df :
  Forall (evaluated_on df) history ->
  build_summary_df history = Return summary_df ->
  Forall (fun row =>
            sum_rule_type row = "regex"
            /\ sum_total row = sum_pass row + sum_fail row
            /\ sum_total row = sum_null row + sum_non_null row
            /\ sum_total row = Z.of_nat (length (rows df))
            /\ (sum_mode row = "fullmatch" \/ sum_mode row = "search")
            /\ exists q, sum_pass_rate row = Some q)
         summary_df.
Proof.
  intros H Hrun.
  destruct (build_summary_from_runs df history 1 H) as (summary & Hrows & Hall).
  unfold build_summary_df in Hrun. rewrite Hrows in Hrun. injection Hrun as ->.
  assert (Hret : Forall (fun p => evaluated_on df (snd p) /\ ok (snd p) = true)
                        (List.filter (fun p => ok (snd p)) (numbered 1 history))).
  { apply List.Forall_forall. intros [j r] Hp. apply filter_In in Hp.
    destruct Hp as [Hin Hok]. split; [|exact Hok]. cbn [snd].
    apply in_numbered in Hin. destruct Hin as [_ Hn].
    apply nth_error_In in Hn. rewrite List.Forall_forall in H. apply H, Hn. }
  clear Hrows. revert Hret.
  induction Hall as [|row [j r] summary ps Hrow _ IH]; intros Hret; [constructor|].
  inversion Hret as [|? ? [He Hok] Hret']; subst.
  constructor; [|apply IH, Hret']. cbn [fst snd] in *.
  destruct (evaluated_on_inv df r He Hok)
    as (rx & col & pat & md & an & fl & k & Hcol & ->).
  rewrite (summary_row_evaluated df _ j He) in Hrow. injection Hrow as <-.
  pose proof (length_null_non_null (coerced df col)) as H1.
  pose proof (length_passes_fails rx md (coerced df col)) as H2.
  pose proof (length_coerced df col Hcol) as H3.
  cbn [sum_rule_type sum_total sum_pass sum_fail sum_null sum_non_null sum_mode
       sum_pass_rate fields_of rule_type counts total pass fail null non_null
       mode].
  split; [reflexivity|]. split; [destruct an; lia|].
  split; [lia|]. split; [lia|]. split; [apply normalize_mode_range|].
  eexists. reflexivity.
Qed.

End summary_facts.


(* --------------------------------------------------------------------- *)
(* The failed rows and the two exports                                   *)
(* --------------------------------------------------------------------- *)

Lemma fold_fail_map_step_retained (history : list CheckResult) (m : gmap Z (list string)) :
  fold_left fail_map_step (List.filter ok history) m = fold_left fail_map_step history m.
Proof.
  revert m. induction history as [|r history IH]; intros m; [reflexivity|].
  cbn [List.filter fold_left]. destruct (ok r) eqn:Hok.
  - cbn [fold_left]. apply IH.
  - rewrite IH. unfold fail_map_step at 3. rewrite Hok. reflexivity.
Qed.

(** X20. Results that did not run add nothing to the combined view of the
    failed rows: the view of a history is that of its retained results. *)
Theorem failed_rows_skip_errors (history : list CheckResult) (df : DataFrame) :
  build_failed_rows_df (List.filter ok history) df = build_failed_rows_df history df.
Proof.
  unfold build_failed_rows_df.
  rewrite !build_fail_map_fold, fold_fail_map_step_retained. reflexivity.
Qed.

Lemma fragment_get_numbered (l : list Fragment) (k j : Z) (x : Fragment) :
  k <= j -> nth_error l (Z.to_nat (j - k)) = Some x ->
  fragment_get j (numbered k l) = Some x.
Proof.
  revert k. induction l as [|y l IH]; intros k Hk Hn.
  - destruct (Z.to_nat (j - k)); discriminate.
  - cbn [numbered fragment_get]. destruct (Z.eqb_spec j k) as [->|Hne].
    + rewrite Z.sub_diag in Hn. exact Hn.
    + apply IH; [lia|].
      replace (Z.to_nat (j - k)) with (S (Z.to_nat (j - (k + 1)))) in Hn by lia.
      exact Hn.
Qed.

Section export_facts.
Context {RE : RegexEngine}.

Lemma failed_any_nil_iff (df : DataFrame) (history : list CheckResult) :
  Forall (evaluated_on df) history ->
  failed_any df history = []
  <-> Forall (fun r => forall c, r = ResOk c -> fail (counts c) = 0) history.
Proof.
  intros Hh. rewrite List.Forall_forall in Hh. split.
  - intros Hnil. apply List.Forall_forall. intros r Hr c ->.
    destruct (evaluated_on_inv df _ (Hh _ Hr) eq_refl)
      as (rx & col & pat & md & an & fl & k & Hcol & [= ->]).
    rewrite <- length_fail_indices.
    destruct (fail_indices (fields_of df rx col pat md an fl k)) as [|i l] eqn:E;
      [reflexivity|].
    exfalso.
    assert (Hin : In i (failed_any df history)).
    { apply failed_any_iff. split.
      - apply (fields_fail_indices_incl df rx col pat md an fl k Hcol).
        rewrite E. left. reflexivity.
      - eexists. split; [exact Hr|]. split; [reflexivity|].
        unfold fail_idx_of. cbn [get default]. rewrite E. left. reflexivity. }
    rewrite Hnil in Hin. contradiction.
  - intros Hall. rewrite List.Forall_forall in Hall.
    destruct (failed_any df history) as [|i l] eqn:E; [reflexivity|]. exfalso.
    assert (Hin : In i (failed_any df history)) by (rewrite E; left; reflexivity).
    apply failed_any_iff in Hin. destruct Hin as (_ & r & Hr & Hok & Hi).
    destruct r as [e|c]; [discriminate|].
    pose proof (Hall _ Hr c eq_refl) as Hz.
    destruct (evaluated_on_inv df _ (Hh _ Hr) eq_refl)
      as (rx & col & pat & md & an & fl & k & Hcol & [= ->]).
    rewrite <- length_fail_indices in Hz.
    unfold fail_idx_of in Hi. cbn [get default] in Hi.
    destruct (fail_indices (fields_of df rx col pat md an fl k)); [contradiction|].
    cbn [length] in Hz. lia.
Qed.

Lemma fail_map_empty_iff (df : DataFrame) (history : list CheckResult) :
  Forall (evaluated_on df) history ->
  build_fail_map history = ∅ <-> failed_any df history = [].
Proof.
  intros Hh. split; [apply empty_fail_map|].
  intros Hnil. destruct (decide (build_fail_map history = ∅)) as [He|Hne]; [exact He|].
  exfalso. apply map_choose in Hne. destruct Hne as (i & l & Hl).
  assert (Hb : bool_decide (is_Some (build_fail_map history !! i)) = true).
  { apply bool_decide_eq_true. rewrite Hl. eauto. }
  rewrite in_fail_map_iff in Hb. apply existsb_exists in Hb.
  destruct Hb as (r & Hr & Hf). apply fails_row_iff in Hf. destruct Hf as [Hok Hi].
  rewrite List.Forall_forall in Hh.
  destruct (evaluated_on_inv df _ (Hh _ Hr) Hok)
    as (rx & col & pat & md & an & fl & k & Hcol & ->).
  assert (Hin : In i (failed_any df history)).
  { apply failed_any_iff. split.
    - apply (fields_fail_indices_incl df rx col pat md an fl k Hcol). exact Hi.
    - eexists. split; [exact Hr|]. split; [reflexivity|exact Hi]. }
  rewrite Hnil in Hin. contradiction.
Qed.

Lemma build_failed_rows_df_cases (df : DataFrame) (history : list CheckResult) :
  List.NoDup (index df) ->
  Forall (evaluated_on df) history ->
  build_failed_rows_df history df
  = (Return {| out_cols := match failed_any df history with
                           | [] => []
                           | _ => columns df ++ ["_dq_issue"]
                           end;
               out_rows := map (view_row df history) (failed_any df history) |},
     df).
Proof.
  intros Hnd Hh.
  pose proof (evaluated_on_nodup df history Hnd Hh) as Hnd'.
  unfold build_failed_rows_df.
  destruct (bool_decide (build_fail_map history = ∅)) eqn:E.
  - apply bool_decide_eq_true in E.
    rewrite (empty_fail_map df history E). reflexivity.
  - apply bool_decide_eq_false in E.
    unfold bind at 1. cbn [Frame.get_columns]. unfold bind at 1. cbn [Frame.get_index].
    rewrite ordered_failed_indices_spec. unfold bind.
    rewrite (failed_rows_loop_runs df history _ Hnd Hnd' (failed_any_incl df history)).
    unfold ret.
    destruct (failed_any df history) eqn:Hf; [|reflexivity].
    exfalso. apply E. apply (fail_map_empty_iff df history Hh). exact Hf.
Qed.

(** X21. The combined view of a history of evaluations is empty exactly
    when every retained rule counted no failure, and then it has no
    columns at all; otherwise its columns are those of the frame followed
    by _dq_issue. It never has more rows than the frame. *)
Theorem failed_rows_empty_view (df : DataFrame) (history : list CheckResult) :
  List.NoDup (index df) ->
  Forall (evaluated_on df) history ->
  exists view,
    build_failed_rows_df history df = (Return view, df)
    /\ (out_rows view = []
        <-> Forall (fun r => forall c, r = ResOk c -> fail (counts c) = 0) history)
    /\ out_cols view = match out_rows view with
                       | [] => []
                       | _ => columns df ++ ["_dq_issue"]
                       end
    /\ (length (out_rows view) <= length (rows df))%nat.
Proof.
  intros Hnd Hh. eexists. split; [apply build_failed_rows_df_cases; assumption|].
  cbn [out_rows out_cols]. split; [|split].
  - rewrite <- (failed_any_nil_iff df history Hh).
    destruct (failed_any df history); cbn [map]; split; intros H;
      try reflexivity; discriminate.
  - destruct (failed_any df history); reflexivity.
  - rewrite List.length_map. unfold failed_any.
    etransitivity; [apply List.filter_length_le|].
    unfold index. rewrite List.length_map. reflexivity.
Qed.

Lemma export_excel_cases df history out_path include_failed_rows :
  List.NoDup (index df) ->
  Forall (evaluated_on df) history ->
  exists summary_df view,
    build_summary_df history = Return summary_df
    /\ build_failed_rows_df history df = (Return view, df)
    /\ export_excel history out_path include_failed_rows df
       = if PyText.endswith ".xlsx" (PyStr.lower out_path) then
           (Return
              [("Summary", SheetSummary summary_df);
               ("FailedRows",
                if include_failed_rows then
                  match failed_any df history with
                  | [] => SheetNote "No failed rows."
                  | _ => SheetFailed view
                  end
                else SheetNote "Failed rows not exported.")],
            df)
         else (Raise (ValueError "Excel export requires .xlsx file extension."), df).
Proof.
  intros Hnd Hh.
  destruct (build_summary_from_runs df history 1 Hh) as (summary_df & Hsum & _).
  fold (build_summary_df history) in Hsum.
  pose proof (build_failed_rows_df_cases df history Hnd Hh) as Hview.
  eexists summary_df, _. split; [exact Hsum|]. split; [exact Hview|].
  unfold export_excel.
  destruct (PyText.endswith ".xlsx" (PyStr.lower out_path)); [|reflexivity].
  cbn [negb]. unfold bind at 1, lift. rewrite Hsum.
  destruct include_failed_rows.
  - unfold bind. rewrite Hview. unfold ret. cbn [out_rows].
    destruct (failed_any df history); reflexivity.
  - reflexivity.
Qed.

Lemma export_html_cases df history out_path include_failed_rows :
  List.NoDup (index df) ->
  Forall (evaluated_on df) history ->
  export_html history out_path include_failed_rows df
  = if PyText.endswith ".html" (PyStr.lower out_path) then
      (Return
         (if include_failed_rows then
            (numbered 1 (map (fragment_of df) history),
             match List.filter ok history with
             | r :: _ => InitialFragment (fragment_of df r)
             | [] => InitialNote "No checks."
             end)
          else ([], InitialNote "Failed rows not included.")),
       df)
    else (Raise (ValueError "HTML export requires .html file extension."), df).
Proof.
  intros Hnd Hh.
  destruct (build_summary_from_runs df history 1 Hh) as (summary_df & Hsum & Hall).
  fold (build_summary_df history) in Hsum.
  unfold export_html.
  destruct (PyText.endswith ".html" (PyStr.lower out_path)); [|reflexivity].
  cbn [negb]. unfold bind at 1, lift. rewrite Hsum.
  destruct include_failed_rows; [|reflexivity].
  unfold bind, check_failed_html. rewrite (check_failed_html_from_runs df history 1 Hnd).
  unfold ret. do 3 f_equal.
  rewrite <- (map_snd_retained history 1).
  inversion Hall as [|first [j r] summary ps Hrow Hrest Hs Hp]; [reflexivity|].
  cbn [map snd fst] in *.
  assert (Hin : In (j, r) (List.filter (fun p => ok (snd p)) (numbered 1 history)))
    by (rewrite <- Hp; left; reflexivity).
  apply filter_In in Hin. destruct Hin as [Hin Hok]. cbn [snd] in Hok.
  apply in_numbered in Hin. destruct Hin as [Hj Hn].
  destruct r as [e|c]; [discriminate|].
  assert (He : evaluated_on df (ResOk c)).
  { rewrite List.Forall_forall in Hh. apply Hh. eapply nth_error_In. exact Hn. }
  rewrite (summary_row_evaluated df c j He) in Hrow. injection Hrow as <-.
  cbn [sum_check_no].
  rewrite (fragment_get_numbered _ 1 j (fragment_of df (ResOk c)) Hj);
    [reflexivity|].
  apply map_nth_error. exact Hn.
Qed.

(** X22. On a history of evaluations an export, up to the writing of the
    file, raises exactly when the path does not end, case ignored, in the
    extension of its format, and then with a ValueError; either way the
    frame is left as it was. *)
Theorem export_raises_iff df history out_path include_failed_rows :
  List.NoDup (index df) ->
  Forall (evaluated_on df) history ->
  ((exists e, result_of (export_excel history out_path include_failed_rows) df = Raise e)
   <-> PyText.endswith ".xlsx" (PyStr.lower out_path) = false)
  /\ (PyText.endswith ".xlsx" (PyStr.lower out_path) = false ->
      result_of (export_excel history out_path include_failed_rows) df
      = Raise (ValueError "Excel export requires .xlsx file extension."))
  /\ ((exists e, result_of (export_html history out_path include_failed_rows) df = Raise e)
      <-> PyText.endswith ".html" (PyStr.lower out_path) = false)
  /\ (PyText.endswith ".html" (PyStr.lower out_path) = false ->
      result_of (export_html history out_path include_failed_rows) df
      = Raise (ValueError "HTML export requires .html file extension."))
  /\ frame_after (export_excel history out_path include_failed_rows) df = df
  /\ frame_after (export_html history out_path include_failed_rows) df = df.
Proof.
  intros Hnd Hh.
  destruct (export_excel_cases df history out_path include_failed_rows Hnd Hh)
    as (summary_df & view & _ & _ & Hx).
  pose proof (export_html_cases df history out_path include_failed_rows Hnd Hh) as Hy.
  unfold result_of, frame_after. rewrite Hx, Hy.
  destruct (PyText.endswith ".xlsx" (PyStr.lower out_path));
    destruct (PyText.endswith ".html" (PyStr.lower out_path)); cbn [fst snd];
    repeat split; try reflexivity; try discriminate;
    try (intros [e He]; discriminate); try (intros _; eexists; reflexivity).
Qed.


(** X24. With the .html extension the dashboard of a history of
    evaluations holds one fragment for every result of the history,
    numbered from 1 in history order, and shows first the fragment of the
    first retained rule, or the note No checks. when no rule is retained;
    without the failed rows it holds no fragment and shows the note
    Failed rows not included. *)
Theorem export_html_views df history out_path :
  List.NoDup (index df) ->
  Forall (evaluated_on df) history ->
  PyText.endswith ".html" (PyStr.lower out_path) = true ->
  result_of (export_html history out_path true) df
  = Return (numbered 1 (map (fragment_of df) history),
            match List.filter ok history with
            | r :: _ => InitialFragment (fragment_of df r)
            | [] => InitialNote "No checks."
            end)
  /\ result_of (export_html history out_path false) df
     = Return ([], InitialNote "Failed rows not included.").
Proof.
  intros Hnd Hh Hext. unfold result_of.
  rewrite !(export_html_cases df history out_path _ Hnd Hh), Hext.
  split; reflexivity.
Qed.

End export_facts.

(* --------------------------------------------------------------------- *)
(* The properties at work on the frame of the demo                       *)
(* --------------------------------------------------------------------- *)

Lemma counts_add_up_witness :
  In "status" (columns demo_df)
  /\ re_compile (RegexEngine := MiniRe.engine) status_pattern (flag_bits None)
     = Return status_rx
  /\ exists c,
       result_of (check_regex_column (RE := MiniRe.engine)
                    "status" status_pattern "fullmatch" false None 10) demo_df
       = Return (ResOk c)
       /\ total (counts c) = pass (counts c) + fail (counts c)
       /\ total (counts c) = null (counts c) + non_null (counts c)
       /\ total (counts c) = Z.of_nat (length (rows demo_df)).
Proof.
  assert (H1 : In "status" (columns demo_df)) by (simpl; auto).
  assert (H2 : re_compile (RegexEngine := MiniRe.engine) status_pattern (flag_bits None)
               = Return status_rx) by (vm_compute; reflexivity).
  exact (conj H1 (conj H2
    (counts_add_up (RE := MiniRe.engine) demo_df status_rx
       "status" status_pattern "fullmatch" false None 10 H1 H2))).
Defined.

Lemma fail_indices_order_witness :
  In "status" (columns demo_df)
  /\ re_compile (RegexEngine := MiniRe.engine) status_pattern (flag_bits (Some ["i"]))
     = Return {| MiniRe.rx_re := MiniRe.rx_re status_rx; MiniRe.ignorecase := true;
                 MiniRe.multiline := false; MiniRe.dotall := false |}
  /\ exists c,
       result_of (check_regex_column (RE := MiniRe.engine)
                    "status" status_pattern "full" false (Some ["i"]) 10) demo_df
       = Return (ResOk c)
       /\ fail_indices c = [2; 4].
Proof.
  assert (H1 : In "status" (columns demo_df)) by (simpl; auto).
  assert (H2 : re_compile (RegexEngine := MiniRe.engine) status_pattern
                 (flag_bits (Some ["i"]))
               = Return {| MiniRe.rx_re := MiniRe.rx_re status_rx;
                           MiniRe.ignorecase := true;
                           MiniRe.multiline := false; MiniRe.dotall := false |})
    by (vm_compute; reflexivity).
  split; [exact H1|]. split; [exact H2|].
  destruct (fail_indices_order (RE := MiniRe.engine) demo_df _
              "status" status_pattern "full" false (Some ["i"]) 10 H1 H2)
    as (c & Hc & Hfi & _).
  exists c. split; [exact Hc|]. rewrite Hfi. vm_compute. reflexivity.
Defined.

Lemma pass_rate_value_witness :
  In "status" (columns demo_df)
  /\ re_compile (RegexEngine := MiniRe.engine) status_pattern (flag_bits None)
     = Return status_rx
  /\ exists c,
       result_of (check_regex_column (RE := MiniRe.engine)
                    "status" status_pattern "fullmatch" true None 10) demo_df
       = Return (ResOk c)
       /\ (pass_rate c * inject_Z (total (counts c)) == inject_Z (pass (counts c)))%Q.
Proof.
  assert (H1 : In "status" (columns demo_df)) by (simpl; auto).
  assert (H2 : re_compile (RegexEngine := MiniRe.engine) status_pattern (flag_bits None)
               = Return status_rx) by (vm_compute; reflexivity).
  split; [exact H1|]. split; [exact H2|].
  destruct (pass_rate_value (RE := MiniRe.engine) demo_df status_rx
              "status" status_pattern "fullmatch" true None 10 H1 H2)
    as (c & Hc & Hrate & _ & Hrows).
  exists c. split; [exact Hc|].
  apply Hrate.
  destruct (Z_lt_le_dec 0 (total (counts c))) as [Hpos|Hle]; [exact Hpos|].
  exfalso.
  assert (Hc' : result_of (check_regex_column (RE := MiniRe.engine)
                  "status" status_pattern "fullmatch" true None 10) demo_df
                = Return (ResOk c)) by exact Hc.
  vm_compute in Hc'. injection Hc' as <-. simpl in Hle. lia.
Defined.

Lemma fail_values_prefix_witness :
  In "status" (columns repeated_df)
  /\ re_compile (RegexEngine := MiniRe.engine) status_pattern (flag_bits None)
     = Return status_rx
  /\ 0 <= 2
  /\ exists c,
       result_of (check_regex_column (RE := MiniRe.engine)
                    "status" status_pattern "fullmatch" true None 2) repeated_df
       = Return (ResOk c)
       /\ fail_values (samples c) = [Some "BAD"; Some "BAD"].
Proof.
  assert (H1 : In "status" (columns repeated_df)) by (simpl; auto).
  assert (H2 : re_compile (RegexEngine := MiniRe.engine) status_pattern (flag_bits None)
               = Return status_rx) by (vm_compute; reflexivity).
  assert (H3 : 0 <= 2) by lia.
  split; [exact H1|]. split; [exact H2|]. split; [exact H3|].
  destruct (fail_values_prefix (RE := MiniRe.engine) repeated_df status_rx
              "status" status_pattern "fullmatch" true None 2 H1 H2 H3)
    as (c & Hc & Hv & _).
  exists c. split; [exact Hc|]. rewrite Hv. vm_compute. reflexivity.
Defined.

(** C8, refuted as stated. The column BAD, ACTIVE, BAD, WORSE: with the
    limit 10 the samples hold BAD twice, so they are not distinct values;
    and with the limit -1 there are two samples, more than the minimum of
    -1 and the three failing rows. *)
Lemma fail_values_keep_repeats :
  (exists c,
     result_of (check_regex_column (RE := MiniRe.engine)
                  "status" status_pattern "fullmatch" true None 10) repeated_df
     = Return (ResOk c)
     /\ fail_values (samples c) = [Some "BAD"; Some "BAD"; Some "WORSE"]
     /\ ~ List.NoDup (fail_values (samples c)))
  /\ (exists c,
        result_of (check_regex_column (RE := MiniRe.engine)
                     "status" status_pattern "fullmatch" true None (-1)) repeated_df
        = Return (ResOk c)
        /\ Z.of_nat (length (fail_values (samples c))) = 2
        /\ Z.of_nat (length (non_null_fails (RE := MiniRe.engine) status_rx "fullmatch"
                               (coerced repeated_df "status"))) = 3
        /\ ~ (Z.of_nat (length (fail_values (samples c))) <= Z.min (-1) 3)).
Proof.
  split.
  - eexists. split; [vm_compute; reflexivity|]. simpl.
    split; [reflexivity|].
    intros H. inversion H as [|? ? Hni _]; subst. apply Hni. left. reflexivity.
  - eexists. split; [vm_compute; reflexivity|]. simpl.
    split; [reflexivity|]. split; [vm_compute; reflexivity|]. lia.
Qed.

Lemma status_scenario_witness :
  re_compile (RegexEngine := MiniRe.engine) status_pattern (flag_bits None)
  = Return status_rx
  /\ rx_fullmatch (RegexEngine := MiniRe.engine) status_rx "ACTIVE" = true
  /\ rx_fullmatch (RegexEngine := MiniRe.engine) status_rx "INACTIVE" = true
  /\ rx_fullmatch (RegexEngine := MiniRe.engine) status_rx "BAD" = false
  /\ rx_fullmatch (RegexEngine := MiniRe.engine) status_rx "inactive" = false
  /\ exists c,
       result_of (check_regex_column (RE := MiniRe.engine)
                    "status" status_pattern "fullmatch" false None 10) demo_df
       = Return (ResOk c)
       /\ total (counts c) = 6
       /\ non_null (counts c) = 5
       /\ null (counts c) = 1
       /\ pass (counts c) = 3
       /\ fail (counts c) = 3
       /\ (pass_rate c == 1 # 2)%Q.
Proof.
  assert (H0 : re_compile (RegexEngine := MiniRe.engine) status_pattern (flag_bits None)
               = Return status_rx) by (vm_compute; reflexivity).
  assert (H1 : rx_fullmatch (RegexEngine := MiniRe.engine) status_rx "ACTIVE" = true)
    by (vm_compute; reflexivity).
  assert (H2 : rx_fullmatch (RegexEngine := MiniRe.engine) status_rx "INACTIVE" = true)
    by (vm_compute; reflexivity).
  assert (H3 : rx_fullmatch (RegexEngine := MiniRe.engine) status_rx "BAD" = false)
    by (vm_compute; reflexivity).
  assert (H4 : rx_fullmatch (RegexEngine := MiniRe.engine) status_rx "inactive" = false)
    by (vm_compute; reflexivity).
  exact (conj H0 (conj H1 (conj H2 (conj H3 (conj H4
    (status_scenario (RE := MiniRe.engine) status_rx H0 H1 H2 H3 H4)))))).
Defined.

(** C4, refuted as stated. On the column of the scenario the check counts
    pass = 3 and fail = 3, with pass_rate 1/2, and not pass = 2, fail = 4
    and a pass_rate near 0.333. *)
Lemma status_scenario_counts_differ :
  exists c,
    result_of (check_regex_column (RE := MiniRe.engine)
                 "status" status_pattern "fullmatch" false None 10) demo_df
    = Return (ResOk c)
    /\ pass (counts c) = 3
    /\ fail (counts c) = 3
    /\ (pass_rate c == 1 # 2)%Q
    /\ ~ (pass (counts c) = 2 /\ fail (counts c) = 4)
    /\ ~ (Qabs (pass_rate c - (333 # 1000)) < 1 # 100)%Q.
Proof.
  eexists. split; [vm_compute; reflexivity|]. simpl.
  split; [reflexivity|]. split; [reflexivity|]. split; [reflexivity|].
  split; [intros [H _]; discriminate|].
  vm_compute. intros H. discriminate.
Qed.

Lemma combined_view_rows_witness :
  List.NoDup (index demo_df)
  /\ Forall (evaluated_on (RE := MiniRe.engine) demo_df) demo_history
  /\ exists view,
       result_of (build_failed_rows_df demo_history) demo_df = Return view
       /\ out_rows view = map (view_row demo_df demo_history) [1; 2; 4; 5].
Proof.
  assert (H1 : List.NoDup (index demo_df)).
  { apply NoDup_ListNoDup. apply (bool_decide_unpack _). vm_compute. exact I. }
  assert (H2 : Forall (evaluated_on (RE := MiniRe.engine) demo_df) demo_history).
  { repeat apply List.Forall_cons; [| | |apply List.Forall_nil].
    - exists "status", status_pattern, "fullmatch", false, None, 10.
      vm_compute. reflexivity.
    - exists "nope", "AB.*", "search", true, None, 10. vm_compute. reflexivity.
    - exists "id", "AB.*", "search", true, None, 10. vm_compute. reflexivity. }
  split; [exact H1|]. split; [exact H2|].
  destruct (combined_view_rows (RE := MiniRe.engine) demo_df demo_history H1 H2)
    as (view & Hrun & Hrows & _).
  exists view. split; [exact Hrun|].
  rewrite Hrows. reflexivity.
Defined.

Lemma views_agree_witness :
  List.NoDup (index demo_df)
  /\ Forall (evaluated_on (RE := MiniRe.engine) demo_df) demo_history
  /\ nth_error demo_history 0 = Some (nth 0 demo_history (ResFail ""))
  /\ ok (nth 0 demo_history (ResFail "")) = true
  /\ exists view frags frag,
       result_of (build_failed_rows_df demo_history) demo_df = Return view
       /\ result_of (check_failed_html demo_history) demo_df = Return frags
       /\ nth_error frags 0 = Some (1, frag)
       /\ fragment_index frag = [2; 4; 5]
       /\ out_rows view = map (view_row demo_df demo_history) [1; 2; 4; 5]
       /\ List.filter (fun idx => fails_row idx (nth 0 demo_history (ResFail "")))
            [1; 2; 4; 5]
          = [2; 4; 5].
Proof.
  assert (H1 : List.NoDup (index demo_df)).
  { apply NoDup_ListNoDup. apply (bool_decide_unpack _). vm_compute. exact I. }
  assert (H2 : Forall (evaluated_on (RE := MiniRe.engine) demo_df) demo_history).
  { repeat apply List.Forall_cons; [| | |apply List.Forall_nil].
    - exists "status", status_pattern, "fullmatch", false, None, 10.
      vm_compute. reflexivity.
    - exists "nope", "AB.*", "search", true, None, 10. vm_compute. reflexivity.
    - exists "id", "AB.*", "search", true, None, 10. vm_compute. reflexivity. }
  assert (H3 : nth_error demo_history 0 = Some (nth 0 demo_history (ResFail "")))
    by reflexivity.
  assert (H4 : ok (nth 0 demo_history (ResFail "")) = true) by reflexivity.
  split; [exact H1|]. split; [exact H2|]. split; [exact H3|]. split; [exact H4|].
  destruct (views_agree (RE := MiniRe.engine) demo_df demo_history 0 _ H1 H2 H3 H4)
    as (view & frags & frag & Hv & Hf & Hn & Hrows & Hidx & _ & Hfilter & _).
  exists view, frags, frag.
  split; [exact Hv|]. split; [exact Hf|]. split; [exact Hn|].
  split; [rewrite Hidx; reflexivity|].
  split; [rewrite Hrows; reflexivity|].
  reflexivity.
Defined.


(* --------------------------------------------------------------------- *)
(* The further properties at work on the demo                            *)
(* --------------------------------------------------------------------- *)

Ltac demo_index_nodup :=
  apply NoDup_ListNoDup; apply (bool_decide_unpack _); vm_compute; exact I.

Ltac demo_history_evaluated :=
  repeat apply List.Forall_cons; [| | |apply List.Forall_nil];
  [ exists "status", status_pattern, "fullmatch", false, None, 10; vm_compute; reflexivity
  | exists "nope", "AB.*", "search", true, None, 10; vm_compute; reflexivity
  | exists "id", "AB.*", "search", true, None, 10; vm_compute; reflexivity ].

Lemma flag_bits_same_tokens_witness :
  (forall x, In x ["i"; "m"; "i"] <-> In x ["m"; "i"])
  /\ flag_bits (Some ["i"; "m"; "i"]) = flag_bits (Some ["m"; "i"]).
Proof.
  assert (H : forall x, In x ["i"; "m"; "i"] <-> In x ["m"; "i"])
    by (intros x; simpl; tauto).
  exact (conj H (flag_bits_same_tokens _ _ H)).
Defined.

Lemma split_arrow_round_trip_witness :
  Forall (fun p => p <> "" /\ PyStr.strip p = p /\ has_arrow p = false)
         ["status"; "^(ACTIVE|INACTIVE)$"; "full match"; "false"]
  /\ _split_arrow "status => ^(ACTIVE|INACTIVE)$ => full match => false"
     = ["status"; "^(ACTIVE|INACTIVE)$"; "full match"; "false"].
Proof.
  assert (H : Forall (fun p => p <> "" /\ PyStr.strip p = p /\ has_arrow p = false)
                     ["status"; "^(ACTIVE|INACTIVE)$"; "full match"; "false"]).
  { repeat (apply List.Forall_cons;
            [split; [discriminate|split; reflexivity]|]).
    apply List.Forall_nil. }
  exact (conj H (split_arrow_round_trip _ H)).
Defined.

Lemma execute_without_arrow_witness :
  has_arrow "status = ACTIVE" = false
  /\ _execute_rule_stmt (RE := MiniRe.engine) "status = ACTIVE" demo_history demo_df
     = (Return (demo_history,
                [PrintLine "[ERROR] Invalid rule line. Expected at least: column => regex"]),
        demo_df).
Proof.
  assert (H : has_arrow "status = ACTIVE" = false) by reflexivity.
  exact (conj H (execute_without_arrow (RE := MiniRe.engine) _ demo_history demo_df H)).
Defined.

Lemma execute_echoes_rule_witness :
  result_of (_execute_rule_stmt (RE := MiniRe.engine) demo_rule []) demo_df
  = Return ([ResOk demo_status_fields], [PrintResult (ResOk demo_status_fields)])
  /\ column demo_status_fields = "status"
  /\ pattern demo_status_fields = status_pattern
  /\ allow_null demo_status_fields = false
  /\ flags demo_status_fields = [].
Proof.
  assert (H : result_of (_execute_rule_stmt (RE := MiniRe.engine) demo_rule []) demo_df
              = Return ([ResOk demo_status_fields],
                        [PrintResult (ResOk demo_status_fields)]))
    by (vm_compute; reflexivity).
  destruct (execute_echoes_rule (RE := MiniRe.engine) demo_rule [] _ demo_df _ H)
    as (_ & H2 & H3 & _ & H5 & H6 & _).
  split; [exact H|]. split; [exact H2|]. split; [exact H3|].
  split; [exact H5|exact H6].
Defined.

Lemma fail_indices_count_witness :
  result_of (check_regex_column (RE := MiniRe.engine)
               "status" status_pattern "fullmatch" false None 10) demo_df
  = Return (ResOk demo_status_fields)
  /\ Z.of_nat (length (fail_indices demo_status_fields)) = 3
  /\ incl (fail_indices demo_status_fields) (index demo_df).
Proof.
  assert (H : result_of (check_regex_column (RE := MiniRe.engine)
                           "status" status_pattern "fullmatch" false None 10) demo_df
              = Return (ResOk demo_status_fields)) by (vm_compute; reflexivity).
  destruct (fail_indices_count (RE := MiniRe.engine) _ _ _ _ _ _ _ _ H) as (H1 & H2 & _).
  split; [exact H|]. split; [exact H1|exact H2].
Defined.

Lemma counts_in_range_witness :
  result_of (check_regex_column (RE := MiniRe.engine)
               "status" status_pattern "fullmatch" false None 10) demo_df
  = Return (ResOk demo_status_fields)
  /\ 0 <= pass (counts demo_status_fields) <= total (counts demo_status_fields)
  /\ (pass_rate demo_status_fields <= 1)%Q.
Proof.
  assert (H : result_of (check_regex_column (RE := MiniRe.engine)
                           "status" status_pattern "fullmatch" false None 10) demo_df
              = Return (ResOk demo_status_fields)) by (vm_compute; reflexivity).
  destruct (counts_in_range (RE := MiniRe.engine) _ _ _ _ _ _ _ _ H)
    as (H1 & _ & _ & _ & _ & H6 & _).
  split; [exact H|]. split; [exact H1|exact H6].
Defined.

Lemma allow_null_moves_nulls_witness :
  result_of (check_regex_column (RE := MiniRe.engine)
               "status" status_pattern "fullmatch" true None 10) demo_df
  = Return (ResOk demo_status_allowing)
  /\ exists c',
       result_of (check_regex_column (RE := MiniRe.engine)
                    "status" status_pattern "fullmatch" false None 10) demo_df
       = Return (ResOk c')
       /\ pass (counts c') = 4 - 1
       /\ fail (counts c') = 2 + 1
       /\ fail_indices c' = [2; 5] ++ [4].
Proof.
  assert (H : result_of (check_regex_column (RE := MiniRe.engine)
                           "status" status_pattern "fullmatch" true None 10) demo_df
              = Return (ResOk demo_status_allowing)) by (vm_compute; reflexivity).
  destruct (allow_null_moves_nulls (RE := MiniRe.engine) _ _ _ _ _ _ _ H)
    as (c' & H0 & _ & _ & _ & H4 & H5 & _ & H7).
  split; [exact H|]. exists c'.
  split; [exact H0|]. split; [exact H4|]. split; [exact H5|exact H7].
Defined.

Lemma summary_rows_numbered_witness :
  Forall (evaluated_on (RE := MiniRe.engine) demo_df) demo_history
  /\ exists summary_df,
       build_summary_df demo_history = Return summary_df
       /\ map sum_check_no summary_df = [1; 3].
Proof.
  assert (H : Forall (evaluated_on (RE := MiniRe.engine) demo_df) demo_history)
    by demo_history_evaluated.
  split; [exact H|].
  destruct (summary_rows_numbered (RE := MiniRe.engine) demo_df demo_history H)
    as (summary_df & Hrun & _).
  exists summary_df. split; [exact Hrun|].
  vm_compute in Hrun. injection Hrun as <-. reflexivity.
Defined.

Lemma summary_rows_consistent_witness :
  Forall (evaluated_on (RE := MiniRe.engine) demo_df) demo_history
  /\ build_summary_df demo_history = Return demo_summary
  /\ Forall (fun row => sum_total row = sum_pass row + sum_fail row
                        /\ sum_total row = 6)
            demo_summary.
Proof.
  assert (H1 : Forall (evaluated_on (RE := MiniRe.engine) demo_df) demo_history)
    by demo_history_evaluated.
  assert (H2 : build_summary_df demo_history = Return demo_summary)
    by (vm_compute; reflexivity).
  split; [exact H1|]. split; [exact H2|].
  eapply List.Forall_impl;
    [|exact (summary_rows_consistent (RE := MiniRe.engine) demo_df demo_history
               demo_summary H1 H2)].
  intros row (_ & Ha & _ & Hb & _). split; [exact Ha|exact Hb].
Defined.

Lemma failed_rows_empty_view_witness :
  List.NoDup (index demo_df)
  /\ Forall (evaluated_on (RE := MiniRe.engine) demo_df) demo_history
  /\ exists view,
       build_failed_rows_df demo_history demo_df = (Return view, demo_df)
       /\ (length (out_rows view) <= 6)%nat.
Proof.
  assert (H1 : List.NoDup (index demo_df)) by demo_index_nodup.
  assert (H2 : Forall (evaluated_on (RE := MiniRe.engine) demo_df) demo_history)
    by demo_history_evaluated.
  split; [exact H1|]. split; [exact H2|].
  destruct (failed_rows_empty_view (RE := MiniRe.engine) demo_df demo_history H1 H2)
    as (view & Hrun & _ & _ & Hlen).
  exists view. split; [exact Hrun|exact Hlen].
Defined.

Lemma export_raises_iff_witness :
  List.NoDup (index demo_df)
  /\ Forall (evaluated_on (RE := MiniRe.engine) demo_df) demo_history
  /\ result_of (export_excel demo_history "report.html" true) demo_df
     = Raise (ValueError "Excel export requires .xlsx file extension.")
  /\ frame_after (export_excel demo_history "report.html" true) demo_df = demo_df.
Proof.
  assert (H1 : List.NoDup (index demo_df)) by demo_index_nodup.
  assert (H2 : Forall (evaluated_on (RE := MiniRe.engine) demo_df) demo_history)
    by demo_history_evaluated.
  split; [exact H1|]. split; [exact H2|].
  destruct (export_raises_iff (RE := MiniRe.engine) demo_df demo_history
              "report.html" true H1 H2) as (_ & Hx & _ & _ & Hf & _).
  split; [apply Hx; reflexivity|exact Hf].
Defined.


Lemma export_html_views_witness :
  List.NoDup (index demo_df)
  /\ Forall (evaluated_on (RE := MiniRe.engine) demo_df) demo_history
  /\ PyText.endswith ".html" (PyStr.lower "dashboard.html") = true
  /\ result_of (export_html demo_history "dashboard.html" false) demo_df
     = Return ([], InitialNote "Failed rows not included.").
Proof.
  assert (H1 : List.NoDup (index demo_df)) by demo_index_nodup.
  assert (H2 : Forall (evaluated_on (RE := MiniRe.engine) demo_df) demo_history)
    by demo_history_evaluated.
  assert (H3 : PyText.endswith ".html" (PyStr.lower "dashboard.html") = true)
    by reflexivity.
  split; [exact H1|]. split; [exact H2|]. split; [exact H3|].
  exact (proj2 (export_html_views (RE := MiniRe.engine) demo_df demo_history
                  "dashboard.html" H1 H2 H3)).
Defined.

(* --------------------------------------------------------------------- *)
(* Evaluations                                                           *)
(* --------------------------------------------------------------------- *)

Example normalize_mode_find : _normalize_mode "  Find " = "search".
Proof. reflexivity. Qed.

Example normalize_mode_other : _normalize_mode "regex" = "fullmatch".
Proof. reflexivity. Qed.

Example flag_bits_tokens :
  flag_bits (Some [" i"; "MULTILINE"; "bogus"; "I"]) = 10.
Proof. reflexivity. Qed.

Example head_negative :
  Pd.head (-1) [(0, "a"); (1, "b"); (2, "c")] = [(0, "a"); (1, "b")].
Proof. reflexivity. Qed.

Example column_not_found :
  result_of (check_regex_column (RE := MiniRe.engine)
               "nope" "AB.*" "search" true None 10) demo_df
  = Return (ResFail "Column not found: nope").
Proof. vm_compute. reflexivity. Qed.

Example compile_failed :
  result_of (check_regex_column (RE := MiniRe.engine)
               "id" "(AB" "search" true None 10) demo_df
  = Return (ResFail
      "Regex compile failed: missing ), unterminated subpattern at position 0").
Proof. vm_compute. reflexivity. Qed.

Example amount_is_coerced :
  coerced demo_df "amount"
  = [ (0, Some "10"); (1, Some "20.5"); (2, Some "30");
      (3, None); (4, Some "xx"); (5, Some "999") ].
Proof. vm_compute. reflexivity. Qed.

Example status_allowing_null :
  exists c,
    result_of (check_regex_column (RE := MiniRe.engine)
                 "status" status_pattern "fullmatch" true None 10) demo_df
    = Return (ResOk c)
    /\ pass (counts c) = 4 /\ fail (counts c) = 2 /\ fail_indices c = [2; 5].
Proof. eexists. split; [vm_compute; reflexivity|]. repeat split. Qed.

Example demo_combined_view :
  exists view,
    result_of (build_failed_rows_df demo_history) demo_df = Return view
    /\ out_cols view = ["id"; "status"; "amount"; "_dq_issue"]
    /\ map (fun d => d !! "_dq_issue") (out_rows view)
       = [ Some (CStr "FAILED: id !~ AB.*");
           Some (CStr "FAILED: status !~ ^(ACTIVE|INACTIVE)$ (NULL not allowed) || id !~ AB.*");
           Some (CStr "FAILED: status !~ ^(ACTIVE|INACTIVE)$ (NULL not allowed) || id !~ AB.*");
           Some (CStr "FAILED: status !~ ^(ACTIVE|INACTIVE)$ (NULL not allowed) || id !~ AB.*") ]
    /\ map (fun d => d !! "status") (out_rows view)
       = [ Some (CStr "INACTIVE"); Some (CStr "BAD"); Some (CStr "");
           Some (CStr "inactive") ].
Proof. eexists. split; [vm_compute; reflexivity|]. repeat split. Qed.

Example demo_fragments :
  exists frags,
    result_of (check_failed_html demo_history) demo_df = Return frags
    /\ map (fun p => (fst p, fragment_index (snd p))) frags
       = [ (1, [2; 4; 5]); (2, []); (3, [1; 2; 4; 5]) ].
Proof. eexists. split; [vm_compute; reflexivity|]. reflexivity. Qed.
